(** * Orders analytics: a shallow embedding of [app/orders_analytics.py]

    The module computes three reports from a pandas DataFrame of retail
    orders.  The embedding keeps the shape of the Python code:

    - a DataFrame is a row count and an ordered list of named, typed
      columns ([int64], [float64], [object]);
    - [float64] cells are IEEE binary64 values (Rocq's primitive floats),
      [int64] cells are integers with wrap-around written out;
    - the caller's DataFrame lives in a store of objects, because
      [calculate_profit_by_order] assigns a column to the object it is
      given;
    - a missing column raises [KeyError], as [df['name']] does.

    Three behaviours of pandas itself that the repository does not fix are
    parameters of the development (class [Pandas]): the floating-point
    summation used by [groupby(...).sum()], element-wise arithmetic on
    [object] columns that hold rows, and the aggregation of an [object]
    column of profits.  The summation pandas uses at present, Kahan's
    compensated sum, is [kahan_sum]; what is proved of the totals of the
    regions is proved for it.

    Two habits of [groupby] with a list of keys are part of the embedding:
    the keys of each key column are numbered on their own ([factorize]),
    and a list of as many keys as the frame has rows, not all of them
    column names, is taken for the labels of the rows ([keys_as_labels]).

    The Lambda entry point [app/lambda.py], which reads the orders from
    S3, calls the analytics and uploads the reports, is embedded after
    the analytics; its conventions are given there. *)

From Stdlib Require Import String Ascii.
From Stdlib Require Import List NArith ZArith Bool Lia Floats.
From Stdlib Require Import Sorting.Sorted Sorting.Permutation.
From Stdlib Require Import DecimalString.
From Stdlib Require Uint63.
Import ListNotations.

Local Open Scope string_scope.
Local Open Scope list_scope.

(* ================================================================== *)
(** ** Exceptions and results *)

(** The exceptions the module can raise: [KeyError] for a column that is
    not in the frame (with the name looked up), [TypeError] from
    arithmetic on values that are not numbers. *)
Inductive exn : Type :=
| KeyError (name : string)
| TypeError.

Inductive result (A : Type) : Type :=
| Ok (a : A)
| Raise (e : exn).
Arguments Ok {A} a.
Arguments Raise {A} e.

Definition rbind {A B : Type} (r : result A) (k : A -> result B) : result B :=
  match r with
  | Ok a => k a
  | Raise e => Raise e
  end.

Declare Scope result_scope.
Delimit Scope result_scope with result.
Notation "x <- c ;; k" := (rbind c (fun x => k))
  (at level 61, c at next level, right associativity) : result_scope.

(* ================================================================== *)
(** ** Numbers: int64 and float64 *)

(** Two's-complement wrap-around of a 64-bit signed integer. *)
Definition wrap64 (z : Z) : Z := ((z + 2 ^ 63) mod 2 ^ 64 - 2 ^ 63)%Z.

(** Conversion of an int64 to float64 (round to nearest, ties to even). *)
Definition int64_to_float (z : Z) : float :=
  if (z =? - 2 ^ 63)%Z then (- (of_uint63 (Uint63.of_Z (2 ^ 62)) * 2))%float
  else if (z <? 0)%Z then (- of_uint63 (Uint63.of_Z (- z)))%float
  else of_uint63 (Uint63.of_Z z).

(** A numpy scalar read from a numeric column. *)
Inductive num : Type :=
| NInt (z : Z)
| NFloat (f : float).

Inductive binop : Type := Mul | Sub | TrueDiv.

Definition float_op (o : binop) (x y : float) : float :=
  match o with
  | Mul => (x * y)%float
  | Sub => (x - y)%float
  | TrueDiv => (x / y)%float
  end.

(** [*] and [-] on two int64 values stay in int64 and wrap; [/] is true
    division and always yields a float64. *)
Definition int_op (o : binop) (x y : Z) : num :=
  match o with
  | Mul => NInt (wrap64 (x * y))
  | Sub => NInt (wrap64 (x - y))
  | TrueDiv => NFloat (int64_to_float x / int64_to_float y)%float
  end.

Definition num_to_float (a : num) : float :=
  match a with
  | NInt z => int64_to_float z
  | NFloat f => f
  end.

(** Scalar arithmetic with numpy's promotion: int64 with float64 is float64. *)
Definition num_op (o : binop) (a b : num) : num :=
  match a, b with
  | NInt x, NInt y => int_op o x y
  | _, _ => NFloat (float_op o (num_to_float a) (num_to_float b))
  end.

(* ================================================================== *)
(** ** Columns and DataFrames *)

(** A column has one dtype.  An [object] cell is a string or missing
    ([NaN]); a missing [float64] cell is the float NaN. *)
Inductive column : Type :=
| ColInt (xs : list Z)
| ColFloat (xs : list float)
| ColObj (xs : list (option string)).

Definition col_length (c : column) : nat :=
  match c with
  | ColInt xs => length xs
  | ColFloat xs => length xs
  | ColObj xs => length xs
  end.

(** The numeric cell of a column at a row, when there is one. *)
Definition num_at (c : column) (i : nat) : option num :=
  match c with
  | ColInt xs => option_map NInt (nth_error xs i)
  | ColFloat xs => option_map NFloat (nth_error xs i)
  | ColObj _ => None
  end.

Record DataFrame : Type := mkFrame {
  nrows : nat;                          (* len(df) *)
  columns : list (string * column)      (* in column order *)
}.

Fixpoint lookup (name : string) (cols : list (string * column)) : option column :=
  match cols with
  | [] => None
  | (n, c) :: rest => if String.eqb name n then Some c else lookup name rest
  end.

(** [df[name]] *)
Definition getitem (df : DataFrame) (name : string) : result column :=
  match lookup name (columns df) with
  | Some c => Ok c
  | None => Raise (KeyError name)
  end.

Fixpoint assign (name : string) (c : column) (cols : list (string * column))
  : list (string * column) :=
  match cols with
  | [] => [(name, c)]
  | (n, c0) :: rest =>
      if String.eqb name n then (n, c) :: rest else (n, c0) :: assign name c rest
  end.

(** [df[name] = c]: replaces the column of that name, or appends it. *)
Definition setitem (df : DataFrame) (name : string) (c : column) : DataFrame :=
  mkFrame (nrows df) (assign name c (columns df)).

(** [df.empty]: no rows or no columns. *)
Definition empty (df : DataFrame) : bool :=
  Nat.eqb (nrows df) 0 || match columns df with [] => true | _ => false end.

Definition column_names (df : DataFrame) : list string := map fst (columns df).

(** The frame has all the named columns. *)
Definition has_fields (df : DataFrame) (names : list string) : bool :=
  forallb (fun name => match lookup name (columns df) with
                       | Some _ => true
                       | None => false
                       end) names.

(** Every column has one cell per row and no name occurs twice. *)
Definition well_formed (df : DataFrame) : Prop :=
  Forall (fun nc => col_length (snd nc) = nrows df) (columns df)
  /\ NoDup (column_names df).

(* ================================================================== *)
(** ** What is left to pandas *)

Class Pandas : Type := {
  (** the reduction behind [groupby(...)[col].sum()] on float64 values of
      one group, in row order (the algorithm changed between releases;
      [kahan_sum] below is the present one) *)
  group_sum : list float -> float;
  (** element-wise arithmetic when an operand is an [object] column that
      holds rows *)
  object_arith : binop -> column -> column -> result column;
  (** the report that [calculate_most_profitable_region] derives from an
      [object] column of profits that holds rows, given the region column *)
  object_profit_report : column -> list (option string) -> result DataFrame
}.

(** The sum as pandas computes it at present ([group_sum] in
    [_libs/groupby.pyx]): Kahan's compensated summation over the values
    of one group in row order.  A value that is NaN is skipped; a
    compensation that has become NaN, as it does after an infinite value,
    is set back to zero. *)
Fixpoint kahan (values : list float) (sumx compensation : float) : float :=
  match values with
  | [] => sumx
  | val :: rest =>
      if is_nan val then kahan rest sumx compensation
      else
        let y := (val - compensation)%float in
        let t := (sumx + y)%float in
        let compensation := (t - sumx - y)%float in
        let compensation := if is_nan compensation then 0%float else compensation in
        kahan rest t compensation
  end.

Definition kahan_sum (values : list float) : float := kahan values 0 0.

(* ================================================================== *)
(** ** Element-wise arithmetic on columns *)

Fixpoint map2 {A B C : Type} (f : A -> B -> C) (xs : list A) (ys : list B) : list C :=
  match xs, ys with
  | x :: xs', y :: ys' => f x y :: map2 f xs' ys'
  | _, _ => []
  end.

Definition int_column_op (o : binop) (xs ys : list Z) : column :=
  match o with
  | Mul => ColInt (map2 (fun x y => wrap64 (x * y)) xs ys)
  | Sub => ColInt (map2 (fun x y => wrap64 (x - y)) xs ys)
  | TrueDiv =>
      ColFloat (map2 (fun x y => (int64_to_float x / int64_to_float y)%float) xs ys)
  end.

Section Arithmetic.
Context {P : Pandas}.

(** [a op b] on two columns of one frame (positional, the index is
    shared).  Numeric operands follow numpy's promotion; with an [object]
    operand and no rows the result is the empty [object] column. *)
Definition series_op (o : binop) (a b : column) : result column :=
  match a, b with
  | ColInt xs, ColInt ys => Ok (int_column_op o xs ys)
  | ColInt xs, ColFloat ys =>
      Ok (ColFloat (map2 (float_op o) (map int64_to_float xs) ys))
  | ColFloat xs, ColInt ys =>
      Ok (ColFloat (map2 (float_op o) xs (map int64_to_float ys)))
  | ColFloat xs, ColFloat ys => Ok (ColFloat (map2 (float_op o) xs ys))
  | _, _ =>
      if Nat.eqb (col_length a) 0 && Nat.eqb (col_length b) 0
      then Ok (ColObj [])
      else object_arith o a b
  end.

(** A Python integer broadcast along a column: next to a float64 column
    it is converted to float64, next to an int64 column it is an int64. *)
Definition scalar (z : Z) (like : column) : column :=
  ColInt (repeat z (col_length like)).

(** [a op z] and [z op a] for a Python integer [z]. *)
Definition series_op_scalar (o : binop) (a : column) (z : Z) : result column :=
  series_op o a (scalar z a).

Definition scalar_op_series (o : binop) (z : Z) (a : column) : result column :=
  series_op o (scalar z a) a.

End Arithmetic.

(* ================================================================== *)
(** ** The store of DataFrame objects *)

(** A Python variable holds a reference; the store gives the object. *)
Definition ref : Type := nat.
Definition heap : Type := ref -> DataFrame.

Definition update (h : heap) (r : ref) (df : DataFrame) : heap :=
  fun r' => if Nat.eqb r' r then df else h r'.

(** Computations that read and write the store and may raise; what was
    written before an exception stays written. *)
Definition M (A : Type) : Type := heap -> result A * heap.

Definition ret {A : Type} (a : A) : M A := fun h => (Ok a, h).

Definition bind {A B : Type} (m : M A) (k : A -> M B) : M B :=
  fun h =>
    match m h with
    | (Ok a, h') => k a h'
    | (Raise e, h') => (Raise e, h')
    end.

Definition lift {A : Type} (r : result A) : M A := fun h => (r, h).

Definition read (r : ref) : M DataFrame := fun h => (Ok (h r), h).

Definition write (r : ref) (df : DataFrame) : M unit :=
  fun h => (Ok tt, update h r df).

(** A function of a DataFrame that only reads it, applied to a reference. *)
Definition call {A : Type} (f : DataFrame -> result A) (r : ref) : M A :=
  fun h => (f (h r), h).

Declare Scope heap_scope.
Delimit Scope heap_scope with heap.
Notation "x <- c ;; k" := (bind c (fun x => k))
  (at level 61, c at next level, right associativity) : heap_scope.
Notation "c ;; k" := (bind c (fun _ => k))
  (at level 61, right associativity) : heap_scope.

(** [r[name]] and [r[name] = c] through a reference. *)
Definition getitem_ref (r : ref) (name : string) : M column :=
  call (fun df => getitem df name) r.

Definition setitem_ref (r : ref) (name : string) (c : column) : M unit :=
  (df <- read r ;; write r (setitem df name c))%heap.

(* ================================================================== *)
(** ** [calculate_profit_by_order] *)

Section Profit.
Context {P : Pandas}.

Definition calculate_profit_by_order (orders_df : ref) : M ref :=
  ((* revenue = df['List Price'] * df['Quantity']
                * (1 - df['Discount Percent'] / 100) *)
   list_price <- getitem_ref orders_df "List Price" ;;
   quantity <- getitem_ref orders_df "Quantity" ;;
   gross <- lift (series_op Mul list_price quantity) ;;
   discount <- getitem_ref orders_df "Discount Percent" ;;
   fraction <- lift (series_op_scalar TrueDiv discount 100) ;;
   kept <- lift (scalar_op_series Sub 1 fraction) ;;
   revenue <- lift (series_op Mul gross kept) ;;
   (* total_cost = df['cost price'] * df['Quantity'] *)
   cost_price <- getitem_ref orders_df "cost price" ;;
   quantity' <- getitem_ref orders_df "Quantity" ;;
   total_cost <- lift (series_op Mul cost_price quantity') ;;
   (* profit = revenue - total_cost *)
   profit <- lift (series_op Sub revenue total_cost) ;;
   (* df['Profit'] = profit *)
   setitem_ref orders_df "Profit" profit ;;
   ret orders_df)%heap.

End Profit.

(** The expression of lines 10 to 16 on the four cells of one row, scalar
    by scalar in numpy's arithmetic:
    list price * quantity * (1 - discount / 100) - cost price * quantity. *)
Definition row_profit (list_price quantity discount cost_price : num) : num :=
  num_op Sub
    (num_op Mul (num_op Mul list_price quantity)
       (num_op Sub (NInt 1) (num_op TrueDiv discount (NInt 100))))
    (num_op Mul cost_price quantity).

(* ================================================================== *)
(** ** Group keys and their order *)

(** A non-missing cell of a column used as a group key. *)
Inductive key : Type :=
| KInt (z : Z)
| KFloat (f : float)
| KStr (s : string).

Class Ord (K : Type) : Type := compare : K -> K -> comparison.

(** Order of float64 keys as numpy sorts them: by value, NaN last; [0.0]
    and [-0.0] are one key. *)
Definition float_compare (a b : float) : comparison :=
  match is_nan a, is_nan b with
  | true, true => Eq
  | true, false => Gt
  | false, true => Lt
  | false, false =>
      if (a <? b)%float then Lt else if (a =? b)%float then Eq else Gt
  end.

#[export] Instance float_Ord : Ord float := float_compare.

(** Keys of one column have one constructor; strings compare by code
    point, character by character (Python's order on [str]).  Across
    constructors the order is fixed arbitrarily. *)
Definition key_compare (a b : key) : comparison :=
  match a, b with
  | KInt x, KInt y => Z.compare x y
  | KFloat x, KFloat y => float_compare x y
  | KStr x, KStr y => String.compare x y
  | KInt _, _ => Lt
  | _, KInt _ => Gt
  | KFloat _, _ => Lt
  | _, KFloat _ => Gt
  end.

#[export] Instance key_Ord : Ord key := key_compare.

(** Tuples of keys compare lexicographically. *)
Definition pair_compare {A B : Type} {OA : Ord A} {OB : Ord B}
    (p q : A * B) : comparison :=
  match compare (fst p) (fst q) with
  | Eq => compare (snd p) (snd q)
  | c => c
  end.

#[export] Instance pair_Ord {A B : Type} {OA : Ord A} {OB : Ord B} : Ord (A * B) :=
  pair_compare.

(** Two keys are one group when they compare equal. *)
Definition key_eqb {K : Type} {O : Ord K} (a b : K) : bool :=
  match compare a b with Eq => true | _ => false end.

(** The group keys of a column, row by row; [None] is a missing value. *)
Definition column_keys (c : column) : list (option key) :=
  match c with
  | ColInt xs => map (fun z => Some (KInt z)) xs
  | ColFloat xs => map (fun f => if is_nan f then None else Some (KFloat f)) xs
  | ColObj xs => map (option_map KStr) xs
  end.

(** The keys of two columns, row by row: a tuple is missing when either
    component is. *)
Definition pair_keys {A B : Type} (a : list (option A)) (b : list (option B))
  : list (option (A * B)) :=
  map2 (fun x y =>
          match x, y with
          | Some k1, Some k2 => Some (k1, k2)
          | _, _ => None
          end) a b.

Definition key_ints (ks : list key) : list Z :=
  flat_map (fun k => match k with KInt z => [z] | _ => [] end) ks.

Definition key_floats (ks : list key) : list float :=
  flat_map (fun k => match k with KFloat f => [f] | _ => [] end) ks.

Definition key_objects (ks : list key) : list (option string) :=
  flat_map (fun k => match k with KStr s => [Some s] | _ => [] end) ks.

(** A column of group labels, with the dtype of the column they came from. *)
Definition keys_column (source : column) (ks : list key) : column :=
  match source with
  | ColInt _ => ColInt (key_ints ks)
  | ColFloat _ => ColFloat (key_floats ks)
  | ColObj _ => ColObj (key_objects ks)
  end.

(* ================================================================== *)
(** ** [groupby] and sorting *)

Section GroupBy.
Context {K : Type} {O : Ord K}.

(** Group labels are kept sorted; a key equal to a label already present
    joins that group, so a label is the first key seen of its group. *)
Fixpoint insert_label (k : K) (ls : list K) : list K :=
  match ls with
  | [] => [k]
  | l :: rest =>
      match compare k l with
      | Eq => ls
      | Lt => k :: ls
      | Gt => l :: insert_label k rest
      end
  end.

Definition labels (ks : list K) : list K :=
  fold_left (fun acc k => insert_label k acc) ks [].

(** Rows with a missing key belong to no group ([dropna=True]). *)
Definition dropna {V : Type} (rows : list (option K * V)) : list (K * V) :=
  flat_map (fun r => match fst r with
                     | Some k => [(k, snd r)]
                     | None => []
                     end) rows.

(** The rows of one group, in row order. *)
Definition members {V : Type} (l : K) (rows : list (K * V)) : list V :=
  map snd (filter (fun r => key_eqb (fst r) l) rows).

(** [groupby(keys)]: the groups in ascending order of their label. *)
Definition groupby {V : Type} (rows : list (option K * V)) : list (K * list V) :=
  let kept := dropna rows in
  map (fun l => (l, members l kept)) (labels (map fst kept)).

(** With several key columns pandas numbers the keys of each column on
    its own ([factorize]): keys that compare equal get one number, and
    the label of that number is the first of them in the column, whatever
    the other keys of its row are.  So the key of a row stands for the
    first key of the column that equals it. *)
Definition first_equal (k : K) (ks : list (option K)) : K :=
  match find (fun x => match x with
                       | Some l => key_eqb l k
                       | None => false
                       end) ks with
  | Some (Some l) => l
  | _ => k
  end.

Definition factorize (ks : list (option K)) : list (option K) :=
  map (option_map (fun k => first_equal k ks)) ks.

(** [groupby(keys).size()] *)
Definition groupby_size (keys : list (option K)) : list (K * Z) :=
  map (fun g => (fst g, Z.of_nat (length (snd g))))
      (groupby (map (fun k => (k, tt)) keys)).

(** A stable sort by a key: [x] goes before the first element whose key
    is not smaller than its own. *)
Fixpoint insert_by {A : Type} (f : A -> K) (x : A) (l : list A) : list A :=
  match l with
  | [] => [x]
  | y :: rest =>
      match compare (f y) (f x) with
      | Lt => y :: insert_by f x rest
      | _ => x :: l
      end
  end.

Definition sort_by {A : Type} (f : A -> K) (l : list A) : list A :=
  fold_right (insert_by f) [] l.

End GroupBy.

(* ================================================================== *)
(** ** Reductions on numeric values *)

Definition num_is_nan (a : num) : bool :=
  match a with
  | NInt _ => false
  | NFloat f => is_nan f
  end.

(** [a < b] and [a == b] on numpy scalars. *)
Definition num_ltb (a b : num) : bool :=
  match a, b with
  | NInt x, NInt y => (x <? y)%Z
  | _, _ => (num_to_float a <? num_to_float b)%float
  end.

Definition num_eqb (a b : num) : bool :=
  match a, b with
  | NInt x, NInt y => (x =? y)%Z
  | _, _ => (num_to_float a =? num_to_float b)%float
  end.

(** [Series.max()]: the largest value that is not NaN; NaN when there is
    none (an empty Series included). *)
Definition series_max (xs : list num) : num :=
  match filter (fun x => negb (num_is_nan x)) xs with
  | [] => NFloat nan
  | x :: rest => fold_left (fun m v => if num_ltb m v then v else m) rest x
  end.

Definition num_ints (ns : list num) : list Z :=
  flat_map (fun n => match n with NInt z => [z] | _ => [] end) ns.

(** The column pandas infers from a Python list of keys or of numbers:
    [object] for an empty list, else the dtype of the values. *)
Definition infer_keys (ks : list key) : column :=
  match ks with
  | [] => ColObj []
  | KInt _ :: _ => ColInt (key_ints ks)
  | KFloat _ :: _ => ColFloat (key_floats ks)
  | KStr _ :: _ => ColObj (key_objects ks)
  end.

Definition infer_nums (ns : list num) : column :=
  match ns with
  | [] => ColObj []
  | _ => if forallb (fun n => match n with NInt _ => true | _ => false end) ns
         then ColInt (num_ints ns)
         else ColFloat (map num_to_float ns)
  end.

(* ================================================================== *)
(** ** The three aggregations *)

Section Aggregations.
Context {P : Pandas}.

(** [groupby(keys)[values].sum()] on a numeric column: one total per
    group, int64 totals wrap. *)
Definition groupby_sum_ints {K : Type} {O : Ord K}
    (keys : list (option K)) (xs : list Z) : list (K * num) :=
  map (fun g => (fst g, NInt (wrap64 (fold_left Z.add (snd g) 0%Z))))
      (groupby (combine keys xs)).

Definition groupby_sum_floats {K : Type} {O : Ord K}
    (keys : list (option K)) (xs : list float) : list (K * num) :=
  map (fun g => (fst g, NFloat (group_sum (snd g))))
      (groupby (combine keys xs)).

(** [pd.DataFrame(records, columns=['Region', 'Total_Profit'])] *)
Definition region_frame (records : list (key * num)) : DataFrame :=
  mkFrame (length records)
    [("Region", infer_keys (map fst records));
     ("Total_Profit", infer_nums (map snd records))].

(** Lines 32 to 38: the records whose total equals the largest total,
    sorted by region. *)
Definition at_maximum {K : Type} {O : Ord K} (region_profits : list (K * num))
  : list (K * num) :=
  let max_profit := series_max (map snd region_profits) in
  let most_profitable_regions :=
    filter (fun rp => num_eqb (snd rp) max_profit) region_profits in
  sort_by fst most_profitable_regions.

Definition regions_at_maximum (region_profits : list (key * num)) : DataFrame :=
  region_frame (at_maximum region_profits).

(** [df.groupby(key)[name]]: the column to aggregate. *)
Definition groupby_getitem (df : DataFrame) (name : string) : result column :=
  match lookup name (columns df) with
  | Some c => Ok c
  | None => Raise (KeyError ("Column not found: " ++ name))
  end.

Definition calculate_most_profitable_region (orders_with_profit : DataFrame)
  : result DataFrame :=
  (region <- getitem orders_with_profit "Region" ;;
   profit <- groupby_getitem orders_with_profit "Profit" ;;
   match profit with
   | ColInt xs =>
       Ok (regions_at_maximum (groupby_sum_ints (column_keys region) xs))
   | ColFloat xs =>
       Ok (regions_at_maximum (groupby_sum_floats (column_keys region) xs))
   | ColObj [] => Ok (regions_at_maximum [])
   | ColObj xs => object_profit_report region xs
   end)%result.

(** [df.groupby(keys)] with a list of keys: when the list is as long as
    the frame and its names are not all columns, pandas takes the list
    itself for the labels of the rows, one label per row. *)
Definition keys_as_labels (df : DataFrame) (keys : list string) : bool :=
  Nat.eqb (length keys) (nrows df) && negb (has_fields df keys).

(** [df.groupby(keys).size().reset_index(name=name)] in that case: the
    labels in ascending order under the column name [index], each with
    the number of rows that carry it. *)
Definition label_counts (keys : list string) (name : string) : DataFrame :=
  let counts := groupby_size (map (fun k => Some (KStr k)) keys) in
  mkFrame (length counts)
    [("index", ColObj (key_objects (map fst counts)));
     (name, ColInt (map snd counts))].

(** [pd.DataFrame(columns=['Category', 'Ship Mode', 'Count'])] *)
Definition empty_ship_frame : DataFrame :=
  mkFrame 0 [("Category", ColObj []); ("Ship Mode", ColObj []); ("Count", ColObj [])].

Definition ship_frame (category ship_mode : column) (rows : list (key * key * Z))
  : DataFrame :=
  mkFrame (length rows)
    [("Category", keys_column category (map (fun r => fst (fst r)) rows));
     ("Ship Mode", keys_column ship_mode (map (fun r => snd (fst r)) rows));
     ("Count", ColInt (map snd rows))].

(** The rows of one category that reach the category's largest count. *)
Definition most_common {A B : Type} (group : list (A * B * Z))
  : list (A * B * Z) :=
  let max_count := series_max (map (fun r => NInt (snd r)) group) in
  filter (fun r => num_eqb (NInt (snd r)) max_count) group.

(** Lines 57 to 61: for each category, in ascending order, its most
    common rows. *)
Definition most_common_groups {A B : Type} {OA : Ord A}
    (ship_method_counts : list (A * B * Z)) : list (list (A * B * Z)) :=
  map (fun g => most_common (snd g))
      (groupby (map (fun r => (Some (fst (fst r)), r)) ship_method_counts)).

Definition find_most_common_ship_method (orders_df : DataFrame) : result DataFrame :=
  if empty orders_df then Ok empty_ship_frame
  else if keys_as_labels orders_df ["Category"; "Ship Mode"] then
    (* the counts have the columns index and Count; grouping them by
       Category raises *)
    Raise (KeyError "Category")
  else
    (category <- getitem orders_df "Category" ;;
     ship_mode <- getitem orders_df "Ship Mode" ;;
     let ship_method_counts :=
       groupby_size (pair_keys (factorize (column_keys category))
                               (factorize (column_keys ship_mode))) in
     let result_rows := most_common_groups ship_method_counts in
     match result_rows with
     | [] => Ok empty_ship_frame
     | _ =>
         let result_df := concat result_rows in
         let result_df := sort_by fst result_df in
         Ok (ship_frame category ship_mode result_df)
     end)%result.

Definition category_frame (category sub_category : column)
    (rows : list (key * key * Z)) : DataFrame :=
  mkFrame (length rows)
    [("Category", keys_column category (map (fun r => fst (fst r)) rows));
     ("Sub Category", keys_column sub_category (map (fun r => snd (fst r)) rows));
     ("order_count", ColInt (map snd rows))].

Definition find_number_of_order_per_category (orders_df : DataFrame)
  : result DataFrame :=
  if keys_as_labels orders_df ["Category"; "Sub Category"] then
    Ok (label_counts ["Category"; "Sub Category"] "order_count")
  else
    (category <- getitem orders_df "Category" ;;
     sub_category <- getitem orders_df "Sub Category" ;;
     let category_order_counts :=
       groupby_size (pair_keys (factorize (column_keys category))
                               (factorize (column_keys sub_category))) in
     Ok (category_frame category sub_category category_order_counts))%result.

(* ================================================================== *)
(** ** [generate_analytics_reports] *)

(** The dictionary of reports; [orders_with_profit] is a reference to the
    caller's DataFrame, the three reports are new objects. *)
Record reports : Type := mkReports {
  orders_with_profit : ref;
  most_profitable_region : DataFrame;
  most_common_ship_method : DataFrame;
  orders_by_category : DataFrame
}.

Definition generate_analytics_reports (orders_df : ref) : M reports :=
  (orders_with_profit <- calculate_profit_by_order orders_df ;;
   region_profits <- call calculate_most_profitable_region orders_with_profit ;;
   ship_methods <- call find_most_common_ship_method orders_df ;;
   category_counts <- call find_number_of_order_per_category orders_df ;;
   ret (mkReports orders_with_profit region_profits ship_methods category_counts))%heap.

End Aggregations.

(* ================================================================== *)
(** ** A pandas to run the examples with *)

(** The compensated summation of pandas; [object] arithmetic and sums of
    [object] profits raise [TypeError]. *)
Definition plain_pandas : Pandas := {|
  group_sum := kahan_sum;
  object_arith := fun _ _ _ => Raise TypeError;
  object_profit_report := fun _ _ => Raise TypeError
|}.

(** The frame of [setUp] in [tests/test_orders_analytics.py], with the
    columns the module reads. *)
Definition test_data : DataFrame :=
  mkFrame 4
    [("Ship Mode", ColObj [Some "Standard Class"; Some "First Class";
                           Some "Standard Class"; Some "Same Day"]);
     ("Region", ColObj [Some "West"; Some "West"; Some "Central"; Some "Central"]);
     ("Category", ColObj [Some "Furniture"; Some "Furniture";
                          Some "Office Supplies"; Some "Furniture"]);
     ("Sub Category", ColObj [Some "Bookcases"; Some "Chairs"; Some "Labels";
                              Some "Tables"]);
     ("cost price", ColFloat [240; 600; 10; 780]%float);
     ("List Price", ColFloat [260; 730; 10; 960]%float);
     ("Quantity", ColInt [2; 3; 2; 5]%Z);
     ("Discount Percent", ColInt [2; 3; 5; 2]%Z)].

(** The frame of [test_find_number_of_order_per_category]: nine orders,
    six pairs. *)
Definition category_test_data : DataFrame :=
  mkFrame 9
    [("Category",
      ColObj (map Some ["Furniture"; "Furniture"; "Furniture"; "Furniture";
                        "Furniture"; "Office Supplies"; "Office Supplies";
                        "Office Supplies"; "Technology"]));
     ("Sub Category",
      ColObj (map Some ["Bookcases"; "Bookcases"; "Chairs"; "Tables"; "Tables";
                        "Labels"; "Labels"; "Storage"; "Phones"]))].

(** The frame of [test_calculate_most_profitable_with_negative_profits],
    with the profit column the first function gives it: every region
    loses money, East and South lose least and are returned. *)
Definition negative_profits : DataFrame :=
  mkFrame 4
    [("Region", ColObj [Some "East"; Some "West"; Some "Central"; Some "South"]);
     ("Profit", ColFloat [-10; -20; -20; -10]%float)].


(** The test frame with two more orders, one without region and category,
    one without ship mode and sub-category. *)
Definition with_missing_keys : DataFrame :=
  mkFrame 6
    [("Ship Mode", ColObj [Some "Standard Class"; Some "First Class";
                           Some "Standard Class"; Some "Same Day";
                           Some "Same Day"; None]);
     ("Region", ColObj [Some "West"; Some "West"; Some "Central"; Some "Central";
                        None; Some "West"]);
     ("Category", ColObj [Some "Furniture"; Some "Furniture";
                          Some "Office Supplies"; Some "Furniture";
                          None; Some "Furniture"]);
     ("Sub Category", ColObj [Some "Bookcases"; Some "Chairs"; Some "Labels";
                              Some "Tables"; Some "Tables"; None]);
     ("Profit", ColFloat [29.5; 324.25; -1; 804; 5000; 100]%float)].

(** The frame of [test_missing_columns]: the test frame without its two
    price columns. *)
Definition incomplete_data : DataFrame :=
  mkFrame 4
    (filter (fun nc => negb (String.eqb (fst nc) "cost price"
                             || String.eqb (fst nc) "List Price"))
            (columns test_data)).

(** The frame of [test_empty_dataframe]: the columns of the test frame, no
    rows, every column of dtype [object]; and the same once [Profit] is
    added. *)
Definition empty_data : DataFrame :=
  mkFrame 0 (map (fun nc => (fst nc, ColObj [])) (columns test_data)).

Definition empty_data_with_profit : DataFrame :=
  mkFrame 0 (columns empty_data ++ [("Profit", ColObj [])]).

(** A store whose every reference holds the given frame. *)
Definition heap_of (df : DataFrame) : heap := fun _ => df.

(* ================================================================== *)
(** ** Notions used to state the properties *)

Definition is_numeric (c : column) : bool :=
  match c with
  | ColObj _ => false
  | _ => true
  end.

(** The fields [calculate_profit_by_order] reads. *)
Definition required_fields : list string :=
  ["List Price"; "Quantity"; "Discount Percent"; "cost price"].

(** A required field is usable when its column is numeric, or when the
    frame has no rows (pandas then builds its columns with dtype [object]). *)
Definition usable (df : DataFrame) (name : string) : bool :=
  match lookup name (columns df) with
  | Some c => is_numeric c || Nat.eqb (nrows df) 0
  | None => false
  end.

Definition has_required_fields (df : DataFrame) : bool :=
  forallb (usable df) required_fields.

(** [well_formed] as a test. *)
Fixpoint distinct (names : list string) : bool :=
  match names with
  | [] => true
  | n :: rest => negb (existsb (String.eqb n) rest) && distinct rest
  end.

Definition well_formedb (df : DataFrame) : bool :=
  forallb (fun nc => Nat.eqb (col_length (snd nc)) (nrows df)) (columns df)
  && distinct (column_names df).

(** The numeric cell of a named column at a row. *)
Definition cell (df : DataFrame) (name : string) (i : nat) : option num :=
  match lookup name (columns df) with
  | Some c => num_at c i
  | None => None
  end.

(** The product of two numeric cells as a float64: the product of the
    integers, converted, for two int64 cells; the float64 product of the
    cells as float64 otherwise.  The first is what the code stores when
    the product of the integers fits in int64. *)
Definition times (a b : num) : float :=
  match a, b with
  | NInt x, NInt y => int64_to_float (x * y)
  | _, _ => (num_to_float a * num_to_float b)%float
  end.

Definition fits_int64 (a b : num) : bool :=
  match a, b with
  | NInt x, NInt y => ((- 2 ^ 63 <=? x * y) && (x * y <? 2 ^ 63))%Z
  | _, _ => true
  end.

(** The right-hand sides of lines 10 to 16 as a function of the frame
    read: the profit column, or the exception raised on the way. *)
Definition profit_column {P : Pandas} (df : DataFrame) : result column :=
  (list_price <- getitem df "List Price" ;;
   quantity <- getitem df "Quantity" ;;
   gross <- series_op Mul list_price quantity ;;
   discount <- getitem df "Discount Percent" ;;
   fraction <- series_op_scalar TrueDiv discount 100 ;;
   kept <- scalar_op_series Sub 1 fraction ;;
   revenue <- series_op Mul gross kept ;;
   cost_price <- getitem df "cost price" ;;
   quantity' <- getitem df "Quantity" ;;
   total_cost <- series_op Mul cost_price quantity' ;;
   series_op Sub revenue total_cost)%result.

(** The bundle as the specification words it: the ship-method and the
    category reports are computed from the dataset as originally supplied
    (its value when the orchestrator is entered), the region report from
    the profit-augmented dataset. *)
Definition reports_as_specified {P : Pandas} (orders_df : ref) : M reports :=
  fun h =>
    let original := h orders_df in
    (augmented <- calculate_profit_by_order orders_df ;;
     region_profits <- call calculate_most_profitable_region augmented ;;
     ship_methods <- lift (find_most_common_ship_method original) ;;
     category_counts <- lift (find_number_of_order_per_category original) ;;
     ret (mkReports augmented region_profits ship_methods category_counts))%heap h.

(** A report with the given column names and no rows. *)
Definition empty_report (names : list string) (report : DataFrame) : Prop :=
  nrows report = 0
  /\ column_names report = names
  /\ Forall (fun nc => col_length (snd nc) = 0) (columns report).

(** The keys that are not missing, in row order. *)
Definition present {K : Type} (keys : list (option K)) : list K :=
  flat_map (fun k => match k with Some k => [k] | None => [] end) keys.

Definition sum_Z (l : list Z) : Z := fold_right Z.add 0%Z l.

(** Strings in Python's order, to state the reports on [object] columns. *)
#[export] Instance string_Ord : Ord string := String.compare.

Definition string_pair_dec (p q : string * string) : {p = q} + {p <> q}.
Proof. decide equality; apply string_dec. Defined.

(** How often a (category, value) pair occurs. *)
Definition occurrences (pairs : list (string * string)) (p : string * string) : Z :=
  Z.of_nat (count_occ string_pair_dec pairs p).

(** The profits of the rows of one region, in row order. *)
Definition profits_of (region : string) (rows : list (option string * float))
  : list float :=
  flat_map (fun row => match fst row with
                       | Some r => if String.eqb r region then [snd row] else []
                       | None => []
                       end) rows.

(** Reports on [object] key columns, written out. *)
Definition text_column (names : list string) : column := ColObj (map Some names).

Definition region_report (rows : list (string * float)) : DataFrame :=
  match rows with
  | [] => mkFrame 0 [("Region", ColObj []); ("Total_Profit", ColObj [])]
  | _ => mkFrame (length rows)
           [("Region", text_column (map fst rows));
            ("Total_Profit", ColFloat (map snd rows))]
  end.

Definition ship_report (rows : list (string * string * Z)) : DataFrame :=
  match rows with
  | [] => empty_ship_frame
  | _ => mkFrame (length rows)
           [("Category", text_column (map (fun r => fst (fst r)) rows));
            ("Ship Mode", text_column (map (fun r => snd (fst r)) rows));
            ("Count", ColInt (map snd rows))]
  end.

Definition category_report (rows : list (string * string * Z)) : DataFrame :=
  mkFrame (length rows)
    [("Category", text_column (map (fun r => fst (fst r)) rows));
     ("Sub Category", text_column (map (fun r => snd (fst r)) rows));
     ("order_count", ColInt (map snd rows))].

Definition is_some {A : Type} (o : option A) : bool :=
  match o with Some _ => true | None => false end.

(** Rows picked by a mask, and the frame without the rows in which one of
    the named columns has a missing value. *)
Fixpoint select {A : Type} (mask : list bool) (l : list A) : list A :=
  match mask, l with
  | b :: mask', x :: l' => if b then x :: select mask' l' else select mask' l'
  | _, _ => []
  end.

Definition select_column (mask : list bool) (c : column) : column :=
  match c with
  | ColInt xs => ColInt (select mask xs)
  | ColFloat xs => ColFloat (select mask xs)
  | ColObj xs => ColObj (select mask xs)
  end.

Definition has_key (c : column) : list bool := map is_some (column_keys c).

Definition all_keys (df : DataFrame) (names : list string) : list bool :=
  fold_right (fun name mask =>
                match lookup name (columns df) with
                | Some c => map2 andb (has_key c) mask
                | None => mask
                end)
             (repeat true (nrows df)) names.

Definition without_missing (names : list string) (df : DataFrame) : DataFrame :=
  let mask := all_keys df names in
  mkFrame (length (filter (fun b => b) mask))
          (map (fun nc => (fst nc, select_column mask (snd nc))) (columns df)).

(** [l] is in ascending order of the keys [f] gives, no key twice. *)
Definition ascending {A K : Type} {O : Ord K} (f : A -> K) (l : list A) : Prop :=
  StronglySorted (fun a b => compare (f a) (f b) = Lt) l.

(** Keys, rows and totals of [object] columns as the model's keys. *)
Definition text_pair (p : string * string) : key * key := (KStr (fst p), KStr (snd p)).

Definition text_row (r : string * string * Z) : key * key * Z :=
  (text_pair (fst r), snd r).

Definition text_total (rt : string * float) : key * num :=
  (KStr (fst rt), NFloat (snd rt)).

(** The total of every region that occurs, by ascending region. *)
Definition region_totals {P : Pandas} (rows : list (option string * float))
  : list (string * float) :=
  map (fun g => (fst g, group_sum (snd g))) (groupby rows).

(** A key that occurs in a column, and reports whose key columns have no
    missing value. *)
Definition from_column (c : column) (k : key) : Prop := In (Some k) (column_keys c).

Definition complete_column (c : column) : bool := forallb is_some (column_keys c).

Definition complete_fields (names : list string) (report : DataFrame) : bool :=
  forallb (fun name => match lookup name (columns report) with
                       | Some c => complete_column c
                       | None => false
                       end) names.

(** What the proofs need of an order on keys. *)
Class OrdLaws (K : Type) {O : Ord K} : Prop := {
  compare_antisym : forall a b : K, compare b a = CompOpp (compare a b);
  compare_lt_trans : forall a b c : K,
    compare a b = Lt -> compare b c = Lt -> compare a c = Lt;
  compare_eq_compat : forall a b c : K,
    compare a b = Eq -> compare a c = compare b c
}.

(** An order in which keys that compare equal are the same key. *)
Class ExactOrd (K : Type) {O : Ord K} : Prop :=
  compare_eq : forall a b : K, compare a b = Eq -> a = b.

(* ================================================================== *)
(** ** Further notions and frames *)

(** The named columns are all there and numeric. *)
Definition numeric_fields (df : DataFrame) (names : list string) : bool :=
  forallb (fun name => match lookup name (columns df) with
                       | Some c => is_numeric c
                       | None => false
                       end) names.

(** The rows of the three reports on [object] key columns. *)
Definition category_rows (cats subs : list (option string))
  : list (string * string * Z) :=
  groupby_size (pair_keys cats subs).

Definition ship_rows (cats ships : list (option string))
  : list (string * string * Z) :=
  concat (most_common_groups (groupby_size (pair_keys cats ships))).

Definition region_rows {P : Pandas} (regions : list (option string))
    (profits : list float) : list (string * float) :=
  let totals := region_totals (combine regions profits) in
  filter (fun rt => num_eqb (NFloat (snd rt))
                      (series_max (map (fun rt => NFloat (snd rt)) totals)))
         totals.


(** One order of 3037000500 pieces at a list price of 3037000500. *)
Definition huge_order : DataFrame :=
  mkFrame 1
    [("List Price", ColInt [3037000500]%Z); ("Quantity", ColInt [3037000500]%Z);
     ("Discount Percent", ColInt [0]%Z); ("cost price", ColInt [0]%Z)].

(** The test frame without its region column. *)
Definition without_region : DataFrame :=
  mkFrame 4 (filter (fun nc => negb (String.eqb (fst nc) "Region"))
                    (columns test_data)).

(** The first two orders of the test frame without one of their columns:
    without the ship mode, and without the sub-category. *)
Definition two_orders (without : string) : DataFrame :=
  mkFrame 2
    (filter (fun nc => negb (String.eqb (fst nc) without))
       [("Ship Mode", ColObj [Some "Standard Class"; Some "First Class"]);
        ("Region", ColObj [Some "West"; Some "West"]);
        ("Category", ColObj [Some "Furniture"; Some "Furniture"]);
        ("Sub Category", ColObj [Some "Bookcases"; Some "Chairs"]);
        ("cost price", ColFloat [240; 600]%float);
        ("List Price", ColFloat [260; 730]%float);
        ("Quantity", ColInt [2; 3]%Z);
        ("Discount Percent", ColInt [2; 3]%Z)]).

Definition two_orders_without_ship_mode : DataFrame := two_orders "Ship Mode".

Definition two_orders_without_sub_category : DataFrame := two_orders "Sub Category".

(** The frame of [test_calculate_most_profitable_region_single_max]: every
    number is an integer. *)
Definition integer_orders : DataFrame :=
  mkFrame 3
    [("Region", ColObj [Some "East"; Some "West"; Some "Central"]);
     ("cost price", ColInt [100; 100; 100]%Z);
     ("List Price", ColInt [120; 120; 150]%Z);
     ("Quantity", ColInt [1; 1; 1]%Z);
     ("Discount Percent", ColInt [0; 0; 0]%Z)].

(** The setUp frame with its rows in reverse order. *)
Definition reversed_test_data : DataFrame :=
  mkFrame 4
    [("Ship Mode", ColObj (rev [Some "Standard Class"; Some "First Class";
                                Some "Standard Class"; Some "Same Day"]));
     ("Region", ColObj (rev [Some "West"; Some "West"; Some "Central";
                             Some "Central"]));
     ("Category", ColObj (rev [Some "Furniture"; Some "Furniture";
                               Some "Office Supplies"; Some "Furniture"]));
     ("Sub Category", ColObj (rev [Some "Bookcases"; Some "Chairs"; Some "Labels";
                                   Some "Tables"]))].

(** The columns the module reads. *)
Definition columns_read : list string :=
  required_fields ++ ["Region"; "Category"; "Ship Mode"; "Sub Category"].

(** The test frame with the order ids of [setUp] in front and its other
    columns in reverse order. *)
Definition test_data_with_ids : DataFrame :=
  mkFrame 4
    (("Order Id", ColObj [Some "CA-2023-1000"; Some "CA-2023-1001";
                          Some "CA-2023-1002"; Some "CA-2023-1003"])
     :: rev (columns test_data)).

(* ================================================================== *)
(** * The Lambda entry point: a shallow embedding of [app/lambda.py]

    The handler is triggered by an S3 notification, reads the CSV file
    the notification names from the input bucket, runs the analytics and
    uploads four reports and a summary to the output bucket.  The
    embedding keeps what the Python code decides itself: which key it
    takes from the event, which files it processes, which objects it
    uploads under which keys, in which order, and what it answers.

    - An event is a Python value as [json] decodes it.
    - A string is a sequence of code points below 256.
    - The outside world is a record: the environment variables, the
      clock, and S3, which answers every call and may raise.
    - What pandas and [json] render as text is left to a class
      ([Runtime]).
    - The [print] calls leave no trace in the model. *)

(* ================================================================== *)
(** ** Python values and exceptions *)

#[warnings="-register-all"] Inductive value : Type :=
| VNone
| VBool (b : bool)
| VInt (z : Z)
| VFloat (f : float)
| VStr (s : string)
| VList (items : list value)
| VDict (entries : list (string * value)).

(** What is written between the brackets of [v[...]]. *)
Inductive subscript : Type :=
| Key (k : string)
| Index (i : Z).

(** The exceptions that can reach the handler.  [Analytics] is an
    exception raised inside [orders_analytics]; [Library] is one raised
    by boto3, botocore or pandas, with the text [str] gives for it. *)
Inductive error : Type :=
| PyKeyError (key : subscript)
| PyIndexError (message : string)
| PyTypeError (message : string)
| PyAttributeError (message : string)
| PyValueError (message : string)
| PyException (message : string)
| Analytics (e : exn)
| Library (message : string).

Inductive outcome (A : Type) : Type :=
| Return (a : A)
| Throw (e : error).
Arguments Return {A} a.
Arguments Throw {A} e.

Definition obind {A B : Type} (r : outcome A) (k : A -> outcome B) : outcome B :=
  match r with
  | Return a => k a
  | Throw e => Throw e
  end.

Declare Scope outcome_scope.
Delimit Scope outcome_scope with outcome.
Notation "x <- c ;; k" := (obind c (fun x => k))
  (at level 61, c at next level, right associativity) : outcome_scope.

(** [type(v).__name__] *)
Definition type_name (v : value) : string :=
  match v with
  | VNone => "NoneType"
  | VBool _ => "bool"
  | VInt _ => "int"
  | VFloat _ => "float"
  | VStr _ => "str"
  | VList _ => "list"
  | VDict _ => "dict"
  end.

(** The summary the handler writes next to the reports. *)
Record summary : Type := mkSummary {
  Processing_Time : string;
  Input_File : string;
  Records_Processed : nat;
  Reports_Generated : nat;
  Output_Files : list string
}.

(** What [write_csv_to_s3] is given: a report, or the one-row frame
    [pd.DataFrame([summary_data])]. *)
Inductive table : Type :=
| Report (df : DataFrame)
| Summary (s : summary).

(** Texts that the libraries render. *)
Class Runtime : Type := {
  (** [json.dumps(v)] *)
  json_dumps : value -> string;
  (** [df.to_csv(index=False)] *)
  to_csv : table -> string;
  (** [pd.read_csv(StringIO(text))] *)
  read_csv : string -> outcome DataFrame;
  (** the text of the [TypeError] of a subscription that the value does
      not support (it varies with the Python version) *)
  subscript_type_error : value -> subscript -> string;
  (** the text of a [TypeError] raised inside pandas *)
  pandas_type_error : string
}.

(** [repr(s)] of a string that has no quote, backslash or control
    character, as the keys and column names of the program. *)
Definition repr (s : string) : string := "'" ++ s ++ "'".

Definition str_int (i : Z) : string := NilZero.string_of_int (Z.to_int i).

(** [str(e)] *)
Definition str {R : Runtime} (e : error) : string :=
  match e with
  | PyKeyError (Key k) => repr k
  | PyKeyError (Index i) => str_int i
  | PyIndexError message => message
  | PyTypeError message => message
  | PyAttributeError message => message
  | PyValueError message => message
  | PyException message => message
  | Analytics (KeyError name) => repr name
  | Analytics TypeError => pandas_type_error
  | Library message => message
  end.

(* ================================================================== *)
(** ** Subscription *)

(** [d[k]] on the entries of a dict. *)
Fixpoint dict_get (k : string) (entries : list (string * value)) : option value :=
  match entries with
  | [] => None
  | (k', v) :: rest => if String.eqb k k' then Some v else dict_get k rest
  end.

(** [l[i]]: a negative index counts from the end. *)
Definition item {A : Type} (l : list A) (i : Z) : option A :=
  let j := if (i <? 0)%Z then (i + Z.of_nat (length l))%Z else i in
  if (j <? 0)%Z then None else nth_error l (Z.to_nat j).

(** [v[s]].  The keys of a decoded JSON object are strings, so an integer
    is never found in a dict. *)
Definition subscription {R : Runtime} (v : value) (s : subscript) : outcome value :=
  match v, s with
  | VDict entries, Key k =>
      match dict_get k entries with
      | Some x => Return x
      | None => Throw (PyKeyError s)
      end
  | VDict _, Index _ => Throw (PyKeyError s)
  | VList items, Index i =>
      match item items i with
      | Some x => Return x
      | None => Throw (PyIndexError "list index out of range")
      end
  | VStr characters, Index i =>
      match item (list_ascii_of_string characters) i with
      | Some c => Return (VStr (String c EmptyString))
      | None => Throw (PyIndexError "string index out of range")
      end
  | _, _ => Throw (PyTypeError (subscript_type_error v s))
  end.

(* ================================================================== *)
(** ** [get_s3_path_from_event] *)

Definition get_s3_path_from_event {R : Runtime} (event : value) : outcome value :=
  match (records <- subscription event (Key "Records") ;;
         record <- subscription records (Index 0) ;;
         s3_event <- subscription record (Key "s3") ;;
         object <- subscription s3_event (Key "object") ;;
         object_key <- subscription object (Key "key") ;;
         Return object_key)%outcome with
  | Return object_key => Return object_key
  | Throw (PyKeyError key) =>
      Throw (PyValueError ("Invalid S3 event structure: " ++ str (PyKeyError key)))
  | Throw (PyIndexError message) =>
      Throw (PyValueError ("Invalid S3 event structure: " ++ str (PyIndexError message)))
  | Throw e => Throw e
  end.

(* ================================================================== *)
(** ** Strings and paths *)

(** [c.lower()] on a code point below 256: the letters A to Z, and the
    capital letters of Latin-1 (U+00C0 to U+00DE without the
    multiplication sign). *)
Definition lower_char (c : ascii) : ascii :=
  let n := nat_of_ascii c in
  if (Nat.leb 65 n && Nat.leb n 90)
     || (Nat.leb 192 n && Nat.leb n 222 && negb (Nat.eqb n 215))
  then ascii_of_nat (n + 32)
  else c.

Fixpoint lower (s : string) : string :=
  match s with
  | EmptyString => EmptyString
  | String c rest => String (lower_char c) (lower rest)
  end.

(** [s.endswith(suffix)] *)
Fixpoint endswith (s suffix : string) : bool :=
  String.eqb s suffix
  || match s with
     | EmptyString => false
     | String _ rest => endswith rest suffix
     end.

(** [s.rfind(c)] for a character [c]: the index of its last occurrence,
    [-1] when there is none. *)
Fixpoint rfind (s : string) (c : ascii) : Z :=
  match s with
  | EmptyString => (-1)%Z
  | String a rest =>
      let i := rfind rest c in
      if (0 <=? i)%Z then (i + 1)%Z
      else if Ascii.eqb a c then 0%Z else (-1)%Z
  end.

(** [s[i:]] and [s[:i]] for an index [i] that is not negative. *)
Fixpoint slice_from (s : string) (i : nat) {struct i} : string :=
  match i, s with
  | O, _ => s
  | S i', String _ rest => slice_from rest i'
  | S _, EmptyString => EmptyString
  end.

Fixpoint slice_to (s : string) (i : nat) {struct i} : string :=
  match i, s with
  | O, _ => EmptyString
  | S i', String c rest => String c (slice_to rest i')
  | S _, EmptyString => EmptyString
  end.

(** [os.path.basename(p)] of [posixpath]: what follows the last slash. *)
Definition basename (p : string) : string :=
  let i := (rfind p "/" + 1)%Z in
  slice_from p (Z.to_nat i).

(** [os.path.splitext(p)] of [posixpath]: the extension starts at the last
    dot of the last component, unless only dots precede it there. *)
Definition splitext (p : string) : string * string :=
  let sepIndex := rfind p "/" in
  let dotIndex := rfind p "." in
  if (sepIndex <? dotIndex)%Z then
    let filename := slice_from (slice_to p (Z.to_nat dotIndex))
                               (Z.to_nat (sepIndex + 1)) in
    if forallb (Ascii.eqb ".") (list_ascii_of_string filename)
    then (p, EmptyString)
    else (slice_to p (Z.to_nat dotIndex), slice_from p (Z.to_nat dotIndex))
  else (p, EmptyString).

(* ================================================================== *)
(** ** [generate_timestamp] *)

(** [datetime.now()], to the second. *)
Record datetime : Type := mkDatetime {
  year : N;
  month : N;
  day : N;
  hour : N;
  minute : N;
  second : N
}.

(** [%Y]: the year in decimal, as the C library of Linux prints it (four
    digits from the year 1000 on, fewer before); [%m], [%d], [%H], [%M],
    [%S]: two digits. *)
Definition decimal (n : N) : string := NilEmpty.string_of_uint (N.to_uint n).

Definition digit (n : N) : ascii := ascii_of_N (48 + n mod 10).

Definition two_digits (n : N) : string :=
  String (digit (n / 10)) (String (digit n) EmptyString).

(** [now.strftime("%Y%m%d_%H%M%S")] *)
Definition generate_timestamp (now : datetime) : string :=
  decimal (year now) ++ two_digits (month now) ++ two_digits (day now)
  ++ "_" ++ two_digits (hour now) ++ two_digits (minute now)
  ++ two_digits (second now).

(* ================================================================== *)
(** ** S3 and the world *)

(** A call of the S3 client. *)
Inductive s3_call : Type :=
| GetObject (bucket key : string)
| PutObject (bucket key body content_type : string).

Record world : Type := mkWorld {
  (** [os.environ.get(name)] *)
  environ : string -> option string;
  (** [datetime.now()] *)
  now : datetime;
  (** [boto3.client('s3')]: the exception it raises, if any *)
  client_error : option error;
  (** [get_object(...)['Body'].read().decode('utf-8')]: the text of the
      object, or the exception raised on the way *)
  get_object : string -> string -> outcome string;
  (** [put_object(...)] after the calls made so far: the exception it
      raises, if any *)
  put_object : list s3_call -> s3_call -> option error
}.

(** Computations that call S3 and may raise; the calls made so far, in
    order, are threaded through. *)
Definition IO (A : Type) : Type := list s3_call -> outcome A * list s3_call.

Definition io_ret {A : Type} (a : A) : IO A := fun calls => (Return a, calls).

Definition io_bind {A B : Type} (m : IO A) (k : A -> IO B) : IO B :=
  fun calls =>
    match m calls with
    | (Return a, calls') => k a calls'
    | (Throw e, calls') => (Throw e, calls')
    end.

Definition throw {A : Type} (e : error) : IO A := fun calls => (Throw e, calls).

Definition io_lift {A : Type} (r : outcome A) : IO A := fun calls => (r, calls).

Declare Scope io_scope.
Delimit Scope io_scope with io.
Notation "x <- c ;; k" := (io_bind c (fun x => k))
  (at level 61, c at next level, right associativity) : io_scope.
Notation "c ;; k" := (io_bind c (fun _ => k))
  (at level 61, right associativity) : io_scope.

(* ================================================================== *)
(** ** [read_csv_from_s3] and [write_csv_to_s3] *)

Section Handler.
Context {P : Pandas} {R : Runtime}.

Definition read_csv_from_s3 (w : world) (bucket_name object_key : string)
  : IO DataFrame :=
  fun calls =>
    let calls := calls ++ [GetObject bucket_name object_key] in
    match (csv_content <- get_object w bucket_name object_key ;;
           df <- read_csv csv_content ;;
           Return df)%outcome with
    | Return df => (Return df, calls)
    | Throw e => (Throw (PyException ("Error reading CSV from S3: " ++ str e)), calls)
    end.

Definition write_csv_to_s3 (w : world) (df : table) (bucket_name object_key : string)
  : IO unit :=
  fun calls =>
    let csv_content := to_csv df in
    let call := PutObject bucket_name object_key csv_content "text/csv" in
    match put_object w calls call with
    | None => (Return tt, calls ++ [call])
    | Some e =>
        (Throw (PyException ("Error writing CSV to S3: " ++ str e)), calls ++ [call])
    end.

(* ================================================================== *)
(** ** [lambda_handler] *)

Record response : Type := mkResponse {
  statusCode : Z;
  body : string
}.

(** [not s] for a string or [None], and the string that is left when the
    test has failed. *)
Definition falsy (s : option string) : bool :=
  match s with
  | None => true
  | Some EmptyString => true
  | Some _ => false
  end.

Definition text (s : option string) : string :=
  match s with
  | Some s => s
  | None => EmptyString
  end.

(** The receiver of [v.lower()]: only a string has the method. *)
Definition receiver_of_lower (v : value) : outcome string :=
  match v with
  | VStr s => Return s
  | _ => Throw (PyAttributeError
                  ("'" ++ type_name v ++ "' object has no attribute 'lower'"))
  end.

(** [orders_analytics.generate_analytics_reports(orders_df)] on the frame
    just read, which no one else holds: the reports and the store in
    which the frame now has its profit column. *)
Definition run_analytics (orders_df : DataFrame) : IO (reports * heap) :=
  match generate_analytics_reports 0 (heap_of orders_df) with
  | (Ok reports, store) => io_ret (reports, store)
  | (Raise e, _) => throw (Analytics e)
  end.

(** Lines 94 to 186, the body of the [try]. *)
Definition process (w : world) (event : value) : IO response :=
  (let input_bucket := environ w "INPUT_BUCKET" in
   let output_bucket := environ w "OUTPUT_BUCKET" in
   if falsy input_bucket || falsy output_bucket
   then throw (PyValueError
          "Missing required environment variables: INPUT_BUCKET or OUTPUT_BUCKET")
   else
   let input_bucket := text input_bucket in
   let output_bucket := text output_bucket in
   (* s3_client = boto3.client('s3') *)
   match client_error w with Some e => throw e | None => io_ret tt end ;;
   object_key <- io_lift (get_s3_path_from_event event) ;;
   object_key <- io_lift (receiver_of_lower object_key) ;;
   if negb (endswith (lower object_key) ".csv")
   then io_ret (mkResponse 200
                  (json_dumps
                     (VStr ("File " ++ object_key
                            ++ " is not a CSV file, skipping processing")%string)))
   else
   orders_df <- read_csv_from_s3 w input_bucket object_key ;;
   analysed <- run_analytics orders_df ;;
   let reports := fst analysed in
   let store := snd analysed in
   let timestamp := generate_timestamp (now w) in
   let base_filename := fst (splitext (basename object_key)) in
   let uploaded_files := [] in
   (* 1. Most profitable region report *)
   let region_report := most_profitable_region reports in
   let region_filename :=
     ("analytics/" ++ base_filename ++ "_most_profitable_region_" ++ timestamp
      ++ ".csv")%string in
   write_csv_to_s3 w (Report region_report) output_bucket region_filename ;;
   let uploaded_files := uploaded_files ++ [region_filename] in
   (* 2. Most common shipping method for each category *)
   let ship_method_report := most_common_ship_method reports in
   let ship_method_filename :=
     ("analytics/" ++ base_filename ++ "_most_common_ship_method_" ++ timestamp
      ++ ".csv")%string in
   write_csv_to_s3 w (Report ship_method_report) output_bucket ship_method_filename ;;
   let uploaded_files := uploaded_files ++ [ship_method_filename] in
   (* 3. Number of orders by category and sub-category *)
   let category_report := orders_by_category reports in
   let category_filename :=
     ("analytics/" ++ base_filename ++ "_orders_by_category_" ++ timestamp
      ++ ".csv")%string in
   write_csv_to_s3 w (Report category_report) output_bucket category_filename ;;
   let uploaded_files := uploaded_files ++ [category_filename] in
   (* 4. Orders with profit calculations *)
   let orders_with_profit := store (orders_with_profit reports) in
   let profit_filename :=
     ("analytics/" ++ base_filename ++ "_orders_with_profit_" ++ timestamp
      ++ ".csv")%string in
   write_csv_to_s3 w (Report orders_with_profit) output_bucket profit_filename ;;
   let uploaded_files := uploaded_files ++ [profit_filename] in
   (* the summary report; [orders_df] is the frame the analytics changed *)
   let orders_df := store 0 in
   let summary_data :=
     mkSummary timestamp object_key (nrows orders_df) (length uploaded_files)
               uploaded_files in
   let summary_filename :=
     ("analytics/" ++ base_filename ++ "_processing_summary_" ++ timestamp
      ++ ".csv")%string in
   write_csv_to_s3 w (Summary summary_data) output_bucket summary_filename ;;
   io_ret (mkResponse 200
             (json_dumps
                (VDict [("message",
                         VStr "Analytics processing completed successfully");
                        ("input_file", VStr object_key);
                        ("records_processed", VInt (Z.of_nat (nrows orders_df)));
                        ("reports_generated", VList (map VStr uploaded_files));
                        ("summary_file", VStr summary_filename)]))))%io.

(** The handler: the S3 calls it made, and its answer.  Every exception
    of the body becomes a 500 answer. *)
Definition lambda_handler (w : world) (event context : value)
  : list s3_call * response :=
  match process w event [] with
  | (Return answer, calls) => (calls, answer)
  | (Throw e, calls) =>
      (calls,
       mkResponse 500
         (json_dumps (VDict [("error", VStr (str e));
                             ("message", VStr "Analytics processing failed")])))
  end.

End Handler.

(* ================================================================== *)
(** ** Notions used to state the properties of the handler *)

(** The texts an invalid event can be reported with. *)
Definition invalid_event_details : list string :=
  ["'Records'"; "0"; "'s3'"; "'object'"; "'key'";
   "list index out of range"; "string index out of range"].

(** [c in s] for a character. *)
Fixpoint occurs (c : ascii) (s : string) : bool :=
  match s with
  | EmptyString => false
  | String a rest => Ascii.eqb a c || occurs c rest
  end.

(** [s.startswith(prefix)] *)
Fixpoint startswith (s prefix : string) {struct prefix} : bool :=
  match prefix, s with
  | EmptyString, _ => true
  | String p prefix', String c s' => Ascii.eqb c p && startswith s' prefix'
  | String _ _, EmptyString => false
  end.

(** A string that has a character other than a dot. *)
Fixpoint not_only_dots (s : string) : bool :=
  match s with
  | EmptyString => false
  | String a rest => negb (Ascii.eqb a ".") || not_only_dots rest
  end.

(** The handler's test for a CSV file, and the name it derives from the
    key. *)
Definition is_csv (object_key : string) : bool := endswith (lower object_key) ".csv".

Definition base_filename (object_key : string) : string :=
  fst (splitext (basename object_key)).

(** The key of an uploaded file. *)
Definition output_key (object_key name timestamp : string) : string :=
  "analytics/" ++ base_filename object_key ++ "_" ++ name ++ "_" ++ timestamp
  ++ ".csv".

Definition report_names : list string :=
  ["most_profitable_region"; "most_common_ship_method"; "orders_by_category";
   "orders_with_profit"].

(** The event names a CSV file and both buckets are configured. *)
Definition triggered {R : Runtime} (w : world) (event : value)
    (input_bucket output_bucket object_key : string) : Prop :=
  environ w "INPUT_BUCKET" = Some input_bucket /\ input_bucket <> EmptyString
  /\ environ w "OUTPUT_BUCKET" = Some output_bucket /\ output_bucket <> EmptyString
  /\ client_error w = None
  /\ get_s3_path_from_event event = Return (VStr object_key)
  /\ is_csv object_key = true.

(** The five uploads of a run, in order: the three reports, the orders
    with their profit, the summary. *)
Definition uploads {R : Runtime} (output_bucket object_key timestamp : string)
    (rs : reports) (store : heap) : list s3_call :=
  let key name := output_key object_key name timestamp in
  [PutObject output_bucket (key "most_profitable_region")
     (to_csv (Report (most_profitable_region rs))) "text/csv";
   PutObject output_bucket (key "most_common_ship_method")
     (to_csv (Report (most_common_ship_method rs))) "text/csv";
   PutObject output_bucket (key "orders_by_category")
     (to_csv (Report (orders_by_category rs))) "text/csv";
   PutObject output_bucket (key "orders_with_profit")
     (to_csv (Report (store (orders_with_profit rs)))) "text/csv";
   PutObject output_bucket (key "processing_summary")
     (to_csv (Summary (mkSummary timestamp object_key (nrows (store 0)) 4
                         (map key report_names)))) "text/csv"].

(** The two answers of a run that got to the file. *)
Definition completed {R : Runtime} (object_key timestamp : string) (store : heap)
  : response :=
  mkResponse 200
    (json_dumps
       (VDict [("message", VStr "Analytics processing completed successfully");
               ("input_file", VStr object_key);
               ("records_processed", VInt (Z.of_nat (nrows (store 0))));
               ("reports_generated",
                VList (map (fun name => VStr (output_key object_key name timestamp))
                           report_names));
               ("summary_file",
                VStr (output_key object_key "processing_summary" timestamp))])).

Definition failed {R : Runtime} (e : error) : response :=
  mkResponse 500
    (json_dumps (VDict [("error", VStr (str e));
                        ("message", VStr "Analytics processing failed")])).

(** An upload of the handler: to the output bucket, under [analytics/],
    with a key the handler itself takes for a CSV file. *)
Definition is_upload (output_bucket : string) (call : s3_call) : Prop :=
  exists key body,
    call = PutObject output_bucket key body "text/csv"
    /\ startswith key "analytics/" = true
    /\ is_csv key = true.

(** Uploads made one after the other until one raises: the exception, if
    any, and the calls made. *)
Fixpoint attempt (w : world) (puts : list s3_call) (calls : list s3_call)
  : option error * list s3_call :=
  match puts with
  | [] => (None, calls)
  | call :: rest =>
      match put_object w calls call with
      | None => attempt w rest (calls ++ [call])
      | Some e => (Some e, calls ++ [call])
      end
  end.

(** The key of a call. *)
Definition call_key (call : s3_call) : string :=
  match call with
  | GetObject _ key => key
  | PutObject _ key _ _ => key
  end.

(** A date and time in the range of [datetime], from the year 1000 on. *)
Definition valid (t : datetime) : Prop :=
  (1000 <= year t <= 9999 /\ 1 <= month t <= 12 /\ 1 <= day t <= 31
   /\ hour t <= 23 /\ minute t <= 59 /\ second t <= 59)%N.

(** Which of two dates and times comes first. *)
Fixpoint lexicographic (a b : list N) : comparison :=
  match a, b with
  | [], [] => Eq
  | [], _ :: _ => Lt
  | _ :: _, [] => Gt
  | x :: a', y :: b' =>
      match N.compare x y with
      | Eq => lexicographic a' b'
      | c => c
      end
  end.

Definition chronological (t1 t2 : datetime) : comparison :=
  lexicographic [year t1; month t1; day t1; hour t1; minute t1; second t1]
                [year t2; month t2; day t2; hour t2; minute t2; second t2].

Definition four_digits (n : N) : string :=
  two_digits (n / 100) ++ two_digits (n mod 100).

(* ================================================================== *)
(** ** A world to run the examples in *)

(** Nothing is rendered; the only texts that parse are the three that
    stand for the test frame, for the frame without its price columns and
    for the frame without rows. *)
Definition test_runtime : Runtime := {|
  json_dumps := fun _ => EmptyString;
  to_csv := fun _ => EmptyString;
  read_csv := fun csv_content =>
    if String.eqb csv_content "orders" then Return test_data
    else if String.eqb csv_content "incomplete" then Return incomplete_data
    else if String.eqb csv_content "empty" then Return empty_data
    else Throw (Library "No columns to parse from file");
  subscript_type_error := fun _ _ => EmptyString;
  pandas_type_error := EmptyString
|}.

(** The S3 notification of one object, and of several. *)
Definition s3_record (object_key : value) : value :=
  VDict [("eventName", VStr "ObjectCreated:Put");
         ("s3", VDict [("bucket", VDict [("name", VStr "orders-in")]);
                       ("object", VDict [("key", object_key)])])].

Definition s3_notification (object_keys : list value) : value :=
  VDict [("Records", VList (map s3_record object_keys))].

(** Both buckets are configured and the input bucket holds three objects.
    S3 accepts every upload, except that it answers the third call of a
    run with [third_call]. *)
Definition test_world (third_call : option error) : world := {|
  environ := fun name =>
    if String.eqb name "INPUT_BUCKET" then Some "orders-in"
    else if String.eqb name "OUTPUT_BUCKET" then Some "orders-out"
    else None;
  now := mkDatetime 2024 1 2 3 4 5;
  client_error := None;
  get_object := fun bucket key =>
    if String.eqb bucket "orders-in" && String.eqb key "uploads/orders.csv"
    then Return "orders"
    else if String.eqb bucket "orders-in" && String.eqb key "uploads/incomplete.CSV"
    then Return "incomplete"
    else if String.eqb bucket "orders-in" && String.eqb key "uploads/empty.csv"
    then Return "empty"
    else Throw (Library "NoSuchKey");
  put_object := fun calls _ =>
    if Nat.eqb (length calls) 2 then third_call else None
|}.

(** What the analytics make of the test frame. *)
Definition test_reports : reports :=
  mkReports 0
    (mkFrame 1 [("Region", ColObj [Some "Central"]);
                ("Total_Profit", ColFloat [803]%float)])
    (mkFrame 4
       [("Category", ColObj [Some "Furniture"; Some "Furniture";
                             Some "Furniture"; Some "Office Supplies"]);
        ("Ship Mode", ColObj [Some "First Class"; Some "Same Day";
                              Some "Standard Class"; Some "Standard Class"]);
        ("Count", ColInt [1; 1; 1; 1]%Z)])
    (mkFrame 4
       [("Category", ColObj [Some "Furniture"; Some "Furniture";
                             Some "Furniture"; Some "Office Supplies"]);
        ("Sub Category", ColObj [Some "Bookcases"; Some "Chairs";
                                 Some "Tables"; Some "Labels"]);
        ("order_count", ColInt [1; 1; 1; 1]%Z)]).

Definition test_store : heap :=
  snd (@generate_analytics_reports plain_pandas 0 (heap_of test_data)).

(* ================================================================== *)
(** * Properties *)

(** ** Laws of the orders on keys *)

(** Comparison of floats read off their IEEE decomposition. *)
Lemma is_nan_spec (a : float) :
  is_nan a = match Prim2SF a with S754_nan => true | _ => false end.
Proof.
  unfold is_nan. rewrite FloatAxioms.eqb_spec. unfold SFeqb.
  destruct (Prim2SF a) as [[]|[]| |[] m e]; simpl; try reflexivity;
    rewrite Z.compare_refl, Pos.compare_cont_refl; reflexivity.
Qed.

Lemma float_compare_spec (a b : float) :
  float_compare a b =
  match SFcompare (Prim2SF a) (Prim2SF b) with
  | Some c => c
  | None => match Prim2SF a, Prim2SF b with
            | S754_nan, S754_nan => Eq
            | S754_nan, _ => Gt
            | _, _ => Lt
            end
  end.
Proof.
  unfold float_compare.
  rewrite !is_nan_spec, FloatAxioms.ltb_spec, FloatAxioms.eqb_spec.
  unfold SFltb, SFeqb.
  destruct (Prim2SF a) as [[]|[]| |[] m e], (Prim2SF b) as [[]|[]| |[] m' e'];
    simpl; try reflexivity;
    destruct (e ?= e')%Z; try reflexivity;
    destruct (Pos.compare_cont Eq m m'); reflexivity.
Qed.

Ltac sf_cases a b c :=
  destruct a as [[]|[]| |[] ?m ?e], b as [[]|[]| |[] ?m ?e],
           c as [[]|[]| |[] ?m ?e]; simpl; try congruence.

Ltac sf_finite :=
  repeat match goal with
         | |- context [(?x ?= ?y)%Z] => destruct (Z.compare_spec x y)
         | |- context [Pos.compare_cont Eq ?x ?y] =>
             change (Pos.compare_cont Eq x y) with (Pos.compare x y);
             destruct (Pos.compare_spec x y)
         end; simpl; subst; try congruence; try lia.

Lemma float_compare_antisym (a b : float) :
  float_compare b a = CompOpp (float_compare a b).
Proof.
  rewrite !float_compare_spec.
  destruct (Prim2SF a) as [[]|[]| |[] m e], (Prim2SF b) as [[]|[]| |[] m' e'];
    simpl; try reflexivity; sf_finite.
Qed.

Lemma float_compare_lt_trans (a b c : float) :
  float_compare a b = Lt -> float_compare b c = Lt -> float_compare a c = Lt.
Proof.
  rewrite !float_compare_spec.
  generalize (Prim2SF a) (Prim2SF b) (Prim2SF c). intros x y z.
  sf_cases x y z; sf_finite.
Qed.

Lemma float_compare_eq_compat (a b c : float) :
  float_compare a b = Eq -> float_compare a c = float_compare b c.
Proof.
  rewrite !float_compare_spec.
  generalize (Prim2SF a) (Prim2SF b) (Prim2SF c). intros x y z.
  sf_cases x y z; sf_finite.
Qed.

Lemma string_compare_lt_trans (a b c : string) :
  String.compare a b = Lt -> String.compare b c = Lt -> String.compare a c = Lt.
Proof.
  revert b c. induction a as [|x a IH]; intros [|y b] [|z c]; simpl; try congruence.
  unfold Ascii.compare.
  destruct (N.compare_spec (N_of_ascii x) (N_of_ascii y)) as [Hxy|Hxy|Hxy];
    destruct (N.compare_spec (N_of_ascii y) (N_of_ascii z)) as [Hyz|Hyz|Hyz];
    destruct (N.compare_spec (N_of_ascii x) (N_of_ascii z)) as [Hxz|Hxz|Hxz];
    intros; try congruence; try (exfalso; lia); eauto.
Qed.

Lemma string_compare_refl (a : string) : String.compare a a = Eq.
Proof.
  induction a as [|x a IH]; simpl; [reflexivity|].
  unfold Ascii.compare. rewrite N.compare_refl. exact IH.
Qed.

#[export] Instance key_OrdLaws : OrdLaws key.
Proof.
  split.
  - intros [x|x|x] [y|y|y]; simpl; unfold compare, key_Ord, key_compare;
      try reflexivity.
    + apply Z.compare_antisym.
    + apply float_compare_antisym.
    + apply String.compare_antisym.
  - intros [x|x|x] [y|y|y] [z|z|z]; unfold compare, key_Ord, key_compare;
      try congruence.
    + rewrite !Z.compare_lt_iff. lia.
    + apply float_compare_lt_trans.
    + apply string_compare_lt_trans.
  - intros [x|x|x] [y|y|y] [z|z|z]; unfold compare, key_Ord, key_compare;
      try congruence.
    + intros H. apply Z.compare_eq in H. congruence.
    + apply float_compare_eq_compat.
    + intros H. apply String.compare_eq_iff in H. congruence.
Qed.

Section OrdFacts.
Context {K : Type} {O : Ord K} {L : OrdLaws K}.

Lemma compare_refl (a : K) : compare a a = Eq.
Proof.
  pose proof (compare_antisym a a) as H.
  destruct (compare a a); simpl in H; congruence.
Qed.

Lemma compare_gt_lt (a b : K) : compare a b = Gt -> compare b a = Lt.
Proof. intros H. rewrite (compare_antisym a b), H. reflexivity. Qed.

Lemma compare_eq_sym (a b : K) : compare a b = Eq -> compare b a = Eq.
Proof. intros H. rewrite (compare_antisym a b), H. reflexivity. Qed.

Lemma compare_eq_compat_r (a b c : K) :
  compare b c = Eq -> compare a b = compare a c.
Proof.
  intros H. rewrite (compare_antisym b a), (compare_antisym c a).
  f_equal. apply compare_eq_compat. exact H.
Qed.

Lemma key_eqb_refl (a : K) : key_eqb a a = true.
Proof. unfold key_eqb. rewrite compare_refl. reflexivity. Qed.

Lemma key_eqb_eq (a b : K) : key_eqb a b = true <-> compare a b = Eq.
Proof. unfold key_eqb. destruct (compare a b); split; congruence. Qed.

Lemma key_eqb_sym (a b : K) : key_eqb a b = key_eqb b a.
Proof.
  unfold key_eqb. rewrite (compare_antisym b a).
  destruct (compare b a); reflexivity.
Qed.

(** Equal keys have the same equals. *)
Lemma key_eqb_compat (a b c : K) :
  key_eqb a b = true -> key_eqb a c = key_eqb b c.
Proof.
  intros H. apply key_eqb_eq in H. unfold key_eqb.
  rewrite (compare_eq_compat a b c H). reflexivity.
Qed.

Lemma key_eqb_compat_r (a b c : K) :
  key_eqb b c = true -> key_eqb a b = key_eqb a c.
Proof.
  intros H. rewrite (key_eqb_sym a b), (key_eqb_sym a c).
  apply key_eqb_compat. exact H.
Qed.

End OrdFacts.

#[export] Instance pair_OrdLaws {A B : Type} {OA : Ord A} {OB : Ord B}
    {LA : OrdLaws A} {LB : OrdLaws B} : OrdLaws (A * B).
Proof.
  split.
  - intros [a1 b1] [a2 b2]. unfold compare, pair_Ord, pair_compare. simpl.
    rewrite (compare_antisym a1 a2).
    destruct (compare a1 a2); simpl; try reflexivity. apply compare_antisym.
  - intros [a1 b1] [a2 b2] [a3 b3]. unfold compare, pair_Ord, pair_compare. simpl.
    destruct (compare a1 a2) eqn:H12; try congruence.
    + rewrite (compare_eq_compat a1 a2 a3 H12).
      destruct (compare a2 a3) eqn:H23; try congruence.
      apply compare_lt_trans.
    + intros _. destruct (compare a2 a3) eqn:H23; try congruence.
      * rewrite (compare_eq_compat_r a1 a2 a3 H23) in H12. rewrite H12. reflexivity.
      * rewrite (compare_lt_trans a1 a2 a3 H12 H23). reflexivity.
  - intros [a1 b1] [a2 b2] [a3 b3]. unfold compare, pair_Ord, pair_compare. simpl.
    destruct (compare a1 a2) eqn:H12; try congruence.
    intros Hb. rewrite (compare_eq_compat a1 a2 a3 H12).
    destruct (compare a2 a3); try reflexivity.
    apply compare_eq_compat. exact Hb.
Qed.

(** ** Facts about [groupby] and [sort_by] *)

Section GroupFacts.
Context {K : Type} {O : Ord K} {L : OrdLaws K}.

Let klt (a b : K) : Prop := compare a b = Lt.

Lemma insert_label_in (k : K) (ls : list K) (x : K) :
  In x (insert_label k ls) -> x = k \/ In x ls.
Proof.
  induction ls as [|l rest IH]; simpl.
  - intuition.
  - destruct (compare k l); simpl; intuition.
Qed.

Lemma insert_label_keeps (k : K) (ls : list K) (x : K) :
  In x ls -> In x (insert_label k ls).
Proof.
  induction ls as [|l rest IH]; simpl; [tauto|].
  destruct (compare k l); simpl; intuition.
Qed.

Lemma insert_label_covers (k : K) (ls : list K) :
  exists l, In l (insert_label k ls) /\ key_eqb k l = true.
Proof.
  induction ls as [|l rest [l' [Hin Heq]]]; simpl.
  - exists k. split; [now left | apply key_eqb_refl].
  - destruct (compare k l) eqn:Hc.
    + exists l. split; [now left|]. apply key_eqb_eq. exact Hc.
    + exists k. split; [now left | apply key_eqb_refl].
    + exists l'. split; [now right | exact Heq].
Qed.

Lemma insert_label_sorted (k : K) (ls : list K) :
  StronglySorted klt ls -> StronglySorted klt (insert_label k ls).
Proof.
  induction 1 as [|l rest Hs IH Hall]; simpl.
  - repeat constructor.
  - destruct (compare k l) eqn:Hc.
    + constructor; assumption.
    + constructor; [constructor; assumption|].
      constructor; [exact Hc|].
      rewrite Forall_forall in *. intros x Hx.
      eapply compare_lt_trans; [exact Hc | apply Hall, Hx].
    + constructor; [exact IH|].
      rewrite Forall_forall in *. intros x Hx.
      apply insert_label_in in Hx. destruct Hx as [->|Hx].
      * apply compare_gt_lt. exact Hc.
      * apply Hall, Hx.
Qed.

Lemma labels_from_sorted (ks acc : list K) :
  StronglySorted klt acc ->
  StronglySorted klt (fold_left (fun acc k => insert_label k acc) ks acc).
Proof.
  revert acc. induction ks as [|k ks IH]; simpl; intros acc H; [exact H|].
  apply IH, insert_label_sorted, H.
Qed.

Lemma labels_from_in (ks acc : list K) (x : K) :
  In x (fold_left (fun acc k => insert_label k acc) ks acc) ->
  In x acc \/ In x ks.
Proof.
  revert acc. induction ks as [|k ks IH]; simpl; intros acc H; [now left|].
  apply IH in H. destruct H as [H|H]; [|now right; right].
  apply insert_label_in in H. destruct H as [->|H]; [right; now left | now left].
Qed.

Lemma labels_from_keeps (ks acc : list K) (x : K) :
  In x acc -> In x (fold_left (fun acc k => insert_label k acc) ks acc).
Proof.
  revert acc. induction ks as [|k ks IH]; simpl; intros acc H; [exact H|].
  apply IH, insert_label_keeps, H.
Qed.

Lemma labels_from_covers (ks acc : list K) (k : K) :
  In k ks ->
  exists l, In l (fold_left (fun acc k => insert_label k acc) ks acc)
            /\ key_eqb k l = true.
Proof.
  revert acc. induction ks as [|k0 ks IH]; simpl; intros acc H; [tauto|].
  destruct H as [->|H]; [|apply IH, H].
  destruct (insert_label_covers k acc) as [l [Hin Heq]].
  exists l. split; [|exact Heq]. apply labels_from_keeps, Hin.
Qed.

(** The labels are in strictly ascending order. *)
Lemma labels_sorted (ks : list K) : StronglySorted klt (labels ks).
Proof. apply labels_from_sorted. constructor. Qed.

(** Every label is a key of the input ... *)
Lemma labels_in (ks : list K) (l : K) : In l (labels ks) -> In l ks.
Proof.
  intros H. apply labels_from_in in H. destruct H as [[]|H]. exact H.
Qed.

(** ... and every key of the input has its label. *)
Lemma labels_cover (ks : list K) (k : K) :
  In k ks -> exists l, In l (labels ks) /\ key_eqb k l = true.
Proof. apply labels_from_covers. Qed.

Lemma sorted_head_lt (l : K) (rest : list K) (x k : K) :
  Forall (klt l) rest -> In x rest -> key_eqb k l = true -> key_eqb k x = false.
Proof.
  intros Hall Hx Hk. rewrite Forall_forall in Hall. specialize (Hall x Hx).
  unfold klt in Hall. apply key_eqb_eq in Hk. unfold key_eqb.
  rewrite (compare_eq_compat k l x Hk), Hall. reflexivity.
Qed.

(** In a strictly ascending list, equal keys are the same element. *)
Lemma sorted_eqb_unique (ls : list K) (a b : K) :
  StronglySorted klt ls -> In a ls -> In b ls -> key_eqb a b = true -> a = b.
Proof.
  induction 1 as [|l rest Hs IH Hall]; simpl; [tauto|].
  intros [<-|Ha] [<-|Hb] Heq; auto.
  - rewrite (sorted_head_lt l rest b l Hall Hb (key_eqb_refl l)) in Heq.
    discriminate.
  - rewrite key_eqb_sym in Heq.
    rewrite (sorted_head_lt l rest a l Hall Ha (key_eqb_refl l)) in Heq.
    discriminate.
Qed.

(** A key has exactly one label in a strictly ascending list that covers it. *)
Lemma one_label (ls : list K) (k l0 : K) :
  StronglySorted klt ls -> In l0 ls -> key_eqb k l0 = true ->
  list_sum (map (fun l => if key_eqb k l then 1 else 0) ls) = 1.
Proof.
  induction 1 as [|l rest Hs IH Hall]; simpl; [tauto|].
  intros Hin Heq. destruct (key_eqb k l) eqn:Hkl.
  - f_equal. clear IH Hin.
    assert (H0 : forall x, In x rest -> key_eqb k x = false)
      by (intros x Hx; eapply sorted_head_lt; eauto).
    clear Hall Hs. induction rest as [|x rest IH]; simpl; [reflexivity|].
    rewrite (H0 x (or_introl eq_refl)). simpl. apply IH.
    intros y Hy. apply H0. now right.
  - destruct Hin as [->|Hin]; [congruence|]. simpl. apply IH; assumption.
Qed.

Lemma list_sum_map_add {A : Type} (f g : A -> nat) (l : list A) :
  list_sum (map (fun x => f x + g x) l) = list_sum (map f l) + list_sum (map g l).
Proof. induction l as [|x l IH]; simpl; [reflexivity|]. rewrite IH. lia. Qed.

Lemma members_cons {V : Type} (l : K) (r : K * V) (rows : list (K * V)) :
  members l (r :: rows) =
  if key_eqb (fst r) l then snd r :: members l rows else members l rows.
Proof. unfold members. simpl. destruct (key_eqb (fst r) l); reflexivity. Qed.

(** The groups of the labels partition the rows they cover. *)
Lemma members_partition {V : Type} (ls : list K) (rows : list (K * V)) :
  StronglySorted klt ls ->
  (forall r, In r rows -> exists l, In l ls /\ key_eqb (fst r) l = true) ->
  list_sum (map (fun l => length (members l rows)) ls) = length rows.
Proof.
  intros Hs. induction rows as [|r rows IH]; intros Hcov.
  - unfold members. simpl. clear. induction ls; simpl; auto.
  - rewrite (map_ext _ (fun l => (if key_eqb (fst r) l then 1 else 0)
                                   + length (members l rows))).
    + rewrite list_sum_map_add. simpl.
      destruct (Hcov r (or_introl eq_refl)) as [l0 [Hin Heq]].
      rewrite (one_label ls (fst r) l0 Hs Hin Heq).
      rewrite IH; [reflexivity|]. intros r' Hr'. apply Hcov. now right.
    + intros l. rewrite members_cons. destruct (key_eqb (fst r) l); reflexivity.
Qed.

Lemma dropna_in {V : Type} (rows : list (option K * V)) (k : K) (v : V) :
  In (k, v) (dropna rows) <-> In (Some k, v) rows.
Proof.
  unfold dropna. rewrite in_flat_map. split.
  - intros [[[k'|] v'] [Hin H]]; simpl in H; [|tauto].
    destruct H as [H|[]]. inversion H; subst. exact Hin.
  - intros H. exists (Some k, v). split; [exact H | now left].
Qed.

Lemma groupby_labels {V : Type} (rows : list (option K * V)) :
  map fst (groupby rows) = labels (map fst (dropna rows)).
Proof. unfold groupby. rewrite map_map. simpl. apply map_id. Qed.

Lemma groupby_in {V : Type} (rows : list (option K * V)) (l : K) (vs : list V) :
  In (l, vs) (groupby rows) <->
  In l (labels (map fst (dropna rows))) /\ vs = members l (dropna rows).
Proof.
  unfold groupby. rewrite in_map_iff. split.
  - intros [l' [H Hin]]. inversion H; subst. auto.
  - intros [Hin ->]. exists l. auto.
Qed.

(** The group sizes add up to the number of rows with a key. *)
Lemma groupby_sizes {V : Type} (rows : list (option K * V)) :
  list_sum (map (fun g => length (snd g)) (groupby rows)) = length (dropna rows).
Proof.
  unfold groupby. rewrite map_map. simpl.
  apply members_partition; [apply labels_sorted|].
  intros r Hr. apply labels_cover. apply in_map. exact Hr.
Qed.

(** An ascending list stays ascending when elements are removed. *)
Lemma ascending_filter {A : Type} (f : A -> K) (p : A -> bool) (l : list A) :
  ascending f l -> ascending f (filter p l).
Proof.
  unfold ascending. induction 1 as [|x l Hs IH Hall]; simpl; [constructor|].
  destruct (p x); [|exact IH].
  constructor; [exact IH|].
  rewrite Forall_forall in *. intros y Hy. apply filter_In in Hy. apply Hall, Hy.
Qed.

Lemma ascending_map {A B : Type} (f : B -> K) (g : A -> B) (l : list A) :
  ascending f (map g l) <-> ascending (fun a => f (g a)) l.
Proof.
  unfold ascending. induction l as [|x l IH]; simpl.
  - split; constructor.
  - split; intros H; inversion H as [|? ? Hs Hall]; subst.
    + constructor; [apply IH, Hs|].
      apply Forall_forall. intros y Hy.
      rewrite Forall_forall in Hall. apply Hall. apply in_map. exact Hy.
    + constructor; [apply IH, Hs|].
      apply Forall_forall. intros y Hy.
      rewrite Forall_forall in Hall.
      apply in_map_iff in Hy. destruct Hy as [a [<- Ha]]. apply Hall, Ha.
Qed.

(** Sorting a list that is already ascending leaves it as it is. *)
Lemma sort_by_ascending {A : Type} (f : A -> K) (l : list A) :
  ascending f l -> sort_by f l = l.
Proof.
  unfold ascending, sort_by. induction 1 as [|x l Hs IH Hall]; simpl; [reflexivity|].
  rewrite IH. destruct l as [|y l']; simpl; [reflexivity|].
  inversion Hall as [|? ? Hxy _]; subst.
  rewrite (compare_antisym (f x) (f y)), Hxy. reflexivity.
Qed.

(** No two elements of an ascending list have the same key. *)
Lemma ascending_NoDup {A : Type} (f : A -> K) (l : list A) :
  ascending f l -> NoDup (map f l).
Proof.
  unfold ascending. induction 1 as [|x l Hs IH Hall]; simpl; constructor; [|exact IH].
  intros Hin. apply in_map_iff in Hin. destruct Hin as [y [Hy Hin]].
  rewrite Forall_forall in Hall. specialize (Hall y Hin).
  rewrite Hy, compare_refl in Hall. discriminate.
Qed.

End GroupFacts.

(** ** Columns and frames *)

Lemma map2_length {A B C : Type} (f : A -> B -> C) (xs : list A) (ys : list B) :
  length (map2 f xs ys) = Nat.min (length xs) (length ys).
Proof.
  revert ys. induction xs as [|x xs IH]; intros [|y ys]; simpl; auto.
Qed.

Lemma map2_nth_error {A B C : Type} (f : A -> B -> C) (xs : list A) (ys : list B)
    (i : nat) (x : A) (y : B) :
  nth_error xs i = Some x -> nth_error ys i = Some y ->
  nth_error (map2 f xs ys) i = Some (f x y).
Proof.
  revert ys i. induction xs as [|x0 xs IH]; intros [|y0 ys] [|i]; simpl;
    try congruence.
  apply IH.
Qed.

Lemma lookup_assign_same (name : string) (c : column) (cols : list (string * column)) :
  lookup name (assign name c cols) = Some c.
Proof.
  induction cols as [|[n c0] cols IH]; simpl.
  - rewrite String.eqb_refl. reflexivity.
  - destruct (String.eqb name n) eqn:E; simpl; rewrite E; auto.
Qed.

Lemma lookup_assign_other (name other : string) (c : column)
    (cols : list (string * column)) :
  other <> name -> lookup other (assign name c cols) = lookup other cols.
Proof.
  intros Hne. induction cols as [|[n c0] cols IH]; simpl.
  - apply String.eqb_neq in Hne. rewrite Hne. reflexivity.
  - destruct (String.eqb name n) eqn:E; simpl.
    + apply String.eqb_eq in E. subst n.
      apply String.eqb_neq in Hne. rewrite Hne. reflexivity.
    + rewrite IH. reflexivity.
Qed.





Lemma lookup_length (df : DataFrame) (name : string) (c : column) :
  well_formed df -> lookup name (columns df) = Some c -> col_length c = nrows df.
Proof.
  intros [Hlen _]. rewrite Forall_forall in Hlen.
  induction (columns df) as [|[n c0] cols IH]; simpl; [congruence|].
  destruct (String.eqb name n).
  - intros H. inversion H; subst. apply (Hlen (n, c)). now left.
  - apply IH. intros x Hx. apply Hlen. now right.
Qed.

Lemma update_same (h : heap) (r : ref) (df : DataFrame) : update h r df r = df.
Proof. unfold update. rewrite Nat.eqb_refl. reflexivity. Qed.

Lemma update_other (h : heap) (r r' : ref) (df : DataFrame) :
  r' <> r -> update h r df r' = h r'.
Proof. intros H. unfold update. apply Nat.eqb_neq in H. rewrite H. reflexivity. Qed.

(** ** Arithmetic on columns, cell by cell *)

Section ArithmeticFacts.
Context {P : Pandas}.

(** Where both operands have a numeric cell, the result has the cell that
    scalar arithmetic gives. *)
Lemma series_op_num_at (o : binop) (a b c : column) (i : nat) (x y : num) :
  series_op o a b = Ok c ->
  num_at a i = Some x -> num_at b i = Some y ->
  num_at c i = Some (num_op o x y).
Proof.
  destruct a as [xs|xs|xs], b as [ys|ys|ys]; simpl; try discriminate;
    intros Hc Hx Hy; inversion Hc; subst; clear Hc;
    destruct (nth_error xs i) as [x0|] eqn:Ex; try discriminate;
    destruct (nth_error ys i) as [y0|] eqn:Ey; try discriminate;
    inversion Hx; inversion Hy; subst; simpl.
  - destruct o; simpl;
      erewrite map2_nth_error by eassumption; reflexivity.
  - erewrite map2_nth_error; [reflexivity| |eassumption].
    rewrite nth_error_map, Ex. reflexivity.
  - erewrite map2_nth_error; [reflexivity|eassumption|].
    rewrite nth_error_map, Ey. reflexivity.
  - erewrite map2_nth_error by eassumption. reflexivity.
Qed.

Lemma int_column_op_length (o : binop) (xs ys : list Z) :
  col_length (int_column_op o xs ys) = Nat.min (length xs) (length ys).
Proof. destruct o; simpl; apply map2_length. Qed.

Lemma int_column_op_numeric (o : binop) (xs ys : list Z) :
  is_numeric (int_column_op o xs ys) = true.
Proof. destruct o; reflexivity. Qed.

(** Two columns of [n] cells that are numeric, or have no rows, combine
    into such a column. *)
Lemma series_op_ok (o : binop) (a b : column) (n : nat) :
  col_length a = n -> col_length b = n ->
  is_numeric a = true \/ n = 0 -> is_numeric b = true \/ n = 0 ->
  exists c, series_op o a b = Ok c /\ col_length c = n
            /\ (is_numeric c = true \/ n = 0).
Proof.
  intros Ha Hb Na Nb.
  destruct a as [xs|xs|xs], b as [ys|ys|ys]; simpl in *;
    try (eexists; split; [reflexivity|]; split;
         [ first [ rewrite int_column_op_length
                 | simpl; rewrite map2_length, ?length_map ]; lia
         | left; first [apply int_column_op_numeric | reflexivity] ]);
    (assert (n = 0) as -> by (destruct Na, Nb; congruence));
    rewrite Ha, Hb; simpl; eexists; (split; [reflexivity|]); simpl; auto.
Qed.

Lemma scalar_length (z : Z) (a : column) : col_length (scalar z a) = col_length a.
Proof. unfold scalar. simpl. apply repeat_length. Qed.

Lemma scalar_num_at (z : Z) (a : column) (i : nat) (x : num) :
  num_at a i = Some x -> num_at (scalar z a) i = Some (NInt z).
Proof.
  intros H. unfold scalar. simpl.
  assert (Hi : i < col_length a).
  { destruct a as [xs|xs|xs]; simpl in *; try discriminate;
      apply nth_error_Some; destruct (nth_error xs i); simpl in H; congruence. }
  rewrite nth_error_repeat by exact Hi. reflexivity.
Qed.

(** A numeric column has a cell at every row. *)
Lemma numeric_cell (c : column) (i : nat) :
  is_numeric c = true -> i < col_length c -> exists x, num_at c i = Some x.
Proof.
  destruct c as [xs|xs|xs]; simpl; try discriminate; intros _ Hi;
    apply nth_error_Some in Hi; destruct (nth_error xs i); try congruence;
    eexists; reflexivity.
Qed.

End ArithmeticFacts.

(** ** [calculate_profit_by_order] *)

Section ProfitFacts.
Context {P : Pandas}.

(** The function computes the profit column from the frame behind the
    reference, then assigns it to that same frame; an exception leaves the
    store as it was. *)
Lemma calculate_profit_unfold (orders_df : ref) (h : heap) :
  calculate_profit_by_order orders_df h =
  match profit_column (h orders_df) with
  | Ok profit =>
      (Ok orders_df, update h orders_df (setitem (h orders_df) "Profit" profit))
  | Raise e => (Raise e, h)
  end.
Proof.
  unfold calculate_profit_by_order, profit_column, bind, getitem_ref, call, lift,
    setitem_ref, read, write, ret, rbind.
  repeat match goal with
         | |- context [match ?r with Ok _ => _ | Raise _ => _ end] =>
             lazymatch r with
             | getitem _ _ => destruct r
             | series_op _ _ _ => destruct r
             | series_op_scalar _ _ _ => destruct r
             | scalar_op_series _ _ _ => destruct r
             end
         end; reflexivity.
Qed.

Lemma usable_lookup (df : DataFrame) (name : string) :
  usable df name = true ->
  exists c, lookup name (columns df) = Some c
            /\ (is_numeric c = true \/ nrows df = 0).
Proof.
  unfold usable. destruct (lookup name (columns df)) as [c|]; [|discriminate].
  intros H. exists c. split; [reflexivity|].
  apply orb_true_iff in H. destruct H as [H|H]; [now left|].
  right. apply Nat.eqb_eq. exact H.
Qed.

(** On a well-formed frame with usable required fields the profit column
    is computed, with one cell per row. *)
Lemma profit_column_ok (df : DataFrame) :
  well_formed df -> has_required_fields df = true ->
  exists profit, profit_column df = Ok profit
                 /\ col_length profit = nrows df
                 /\ (is_numeric profit = true \/ nrows df = 0).
Proof.
  intros Hwf Hreq. unfold has_required_fields, required_fields in Hreq.
  simpl in Hreq. repeat (apply andb_true_iff in Hreq; destruct Hreq as [? Hreq]).
  destruct (usable_lookup df "List Price") as [lp [Elp Nlp]]; [assumption|].
  destruct (usable_lookup df "Quantity") as [q [Eq Nq]]; [assumption|].
  destruct (usable_lookup df "Discount Percent") as [d [Ed Nd]]; [assumption|].
  destruct (usable_lookup df "cost price") as [cp [Ecp Ncp]]; [assumption|].
  pose proof (lookup_length df _ _ Hwf Elp) as Llp.
  pose proof (lookup_length df _ _ Hwf Eq) as Lq.
  pose proof (lookup_length df _ _ Hwf Ed) as Ld.
  pose proof (lookup_length df _ _ Hwf Ecp) as Lcp.
  unfold profit_column, getitem. rewrite Elp, Eq, Ed, Ecp. simpl.
  destruct (series_op_ok Mul lp q (nrows df) Llp Lq Nlp Nq) as [g [Eg [Lg Ng]]].
  rewrite Eg. simpl.
  assert (Ls : col_length (scalar 100 d) = nrows df)
    by (rewrite scalar_length; exact Ld).
  destruct (series_op_ok TrueDiv d (scalar 100 d) (nrows df) Ld Ls Nd
              (or_introl eq_refl)) as [f [Ef [Lf Nf]]].
  unfold series_op_scalar. rewrite Ef. simpl.
  assert (Ls1 : col_length (scalar 1 f) = nrows df)
    by (rewrite scalar_length; exact Lf).
  destruct (series_op_ok Sub (scalar 1 f) f (nrows df) Ls1 Lf
              (or_introl eq_refl) Nf) as [k [Ek [Lk Nk]]].
  unfold scalar_op_series. rewrite Ek. simpl.
  destruct (series_op_ok Mul g k (nrows df) Lg Lk Ng Nk) as [rev [Er [Lr Nr]]].
  rewrite Er. simpl.
  destruct (series_op_ok Mul cp q (nrows df) Lcp Lq Ncp Nq) as [tc [Et [Lt Nt]]].
  rewrite Et. simpl.
  apply (series_op_ok Sub rev tc (nrows df) Lr Lt Nr Nt).
Qed.

(** Each cell of the profit column is the profit of its row. *)
Lemma profit_column_rows (df : DataFrame) (profit : column) (i : nat)
    (lp q d cp : num) :
  profit_column df = Ok profit ->
  cell df "List Price" i = Some lp -> cell df "Quantity" i = Some q ->
  cell df "Discount Percent" i = Some d -> cell df "cost price" i = Some cp ->
  num_at profit i = Some (row_profit lp q d cp).
Proof.
  unfold profit_column, cell, getitem, series_op_scalar, scalar_op_series.
  destruct (lookup "List Price" (columns df)) as [clp|]; [|cbn [rbind]; discriminate].
  destruct (lookup "Quantity" (columns df)) as [cq|]; [|cbn [rbind]; discriminate].
  destruct (lookup "Discount Percent" (columns df)) as [cd|]; [|cbn [rbind]; discriminate].
  destruct (lookup "cost price" (columns df)) as [ccp|]; [|cbn [rbind]; discriminate].
  cbn [rbind].
  destruct (series_op Mul clp cq) as [g|] eqn:Eg; [|cbn [rbind]; discriminate]. cbn [rbind].
  destruct (series_op TrueDiv cd (scalar 100 cd)) as [f|] eqn:Ef; [|cbn [rbind]; discriminate].
  cbn [rbind].
  destruct (series_op Sub (scalar 1 f) f) as [k|] eqn:Ek; [|cbn [rbind]; discriminate]. cbn [rbind].
  destruct (series_op Mul g k) as [rev|] eqn:Er; [|cbn [rbind]; discriminate]. cbn [rbind].
  destruct (series_op Mul ccp cq) as [tc|] eqn:Et; [|cbn [rbind]; discriminate]. cbn [rbind].
  intros Hp Hlp Hq Hd Hcp. unfold row_profit.
  pose proof (series_op_num_at _ _ _ _ i _ _ Eg Hlp Hq) as Cg.
  pose proof (series_op_num_at _ _ _ _ i _ _ Ef Hd (scalar_num_at 100 _ _ _ Hd)) as Cf.
  pose proof (series_op_num_at _ _ _ _ i _ _ Ek (scalar_num_at 1 _ _ _ Cf) Cf) as Ck.
  pose proof (series_op_num_at _ _ _ _ i _ _ Er Cg Ck) as Cr.
  pose proof (series_op_num_at _ _ _ _ i _ _ Et Hcp Hq) as Ct.
  exact (series_op_num_at _ _ _ _ i _ _ Hp Cr Ct).
Qed.

(** A required field that is usable has a cell at every row. *)
Lemma usable_cell (df : DataFrame) (name : string) (i : nat) :
  well_formed df -> usable df name = true -> i < nrows df ->
  exists x, cell df name i = Some x.
Proof.
  intros Hwf Hu Hi. destruct (usable_lookup df name Hu) as [c [Ec Nc]].
  unfold cell. rewrite Ec. apply numeric_cell.
  - destruct Nc as [Nc|Nc]; [exact Nc | lia].
  - rewrite (lookup_length df name c Hwf Ec). exact Hi.
Qed.

End ProfitFacts.

Lemma distinct_NoDup (names : list string) : distinct names = true -> NoDup names.
Proof.
  induction names as [|n rest IH]; simpl; [constructor|].
  intros H. apply andb_true_iff in H. destruct H as [Hn Hr].
  constructor; [|apply IH, Hr].
  intros Hin. apply negb_true_iff in Hn.
  assert (existsb (String.eqb n) rest = true); [|congruence].
  apply existsb_exists. exists n. split; [exact Hin | apply String.eqb_refl].
Qed.

Lemma well_formedb_ok (df : DataFrame) : well_formedb df = true -> well_formed df.
Proof.
  unfold well_formedb, well_formed. intros H.
  apply andb_true_iff in H. destruct H as [Hl Hn]. split.
  - rewrite forallb_forall in Hl. apply Forall_forall. intros nc Hin.
    apply Nat.eqb_eq. apply Hl, Hin.
  - apply distinct_NoDup, Hn.
Qed.

(** *** Numeric columns give a float64 profit *)

Section FloatProfit.
Context {P : Pandas}.

Lemma series_op_float_l (o : binop) (xs : list float) (b : column) :
  is_numeric b = true -> exists zs, series_op o (ColFloat xs) b = Ok (ColFloat zs).
Proof.
  destruct b; intros H; try discriminate H; simpl; eexists; reflexivity.
Qed.

Lemma series_op_float_r (o : binop) (a : column) (ys : list float) :
  is_numeric a = true -> exists zs, series_op o a (ColFloat ys) = Ok (ColFloat zs).
Proof.
  destruct a; intros H; try discriminate H; simpl; eexists; reflexivity.
Qed.

Lemma series_op_numeric (o : binop) (a b : column) :
  is_numeric a = true -> is_numeric b = true ->
  exists c, series_op o a b = Ok c /\ is_numeric c = true.
Proof.
  destruct a, b; intros Ha Hb; try discriminate Ha; try discriminate Hb;
    simpl; eexists; (split; [reflexivity|]); try reflexivity.
  apply int_column_op_numeric.
Qed.

Lemma true_div_is_float (a : column) (z : Z) :
  is_numeric a = true -> exists zs, series_op_scalar TrueDiv a z = Ok (ColFloat zs).
Proof.
  destruct a; intros H; try discriminate H; unfold series_op_scalar, scalar; simpl;
    eexists; reflexivity.
Qed.

Lemma numeric_fields_lookup (df : DataFrame) (names : list string) (name : string) :
  numeric_fields df names = true -> In name names ->
  exists c, lookup name (columns df) = Some c /\ is_numeric c = true.
Proof.
  unfold numeric_fields. rewrite forallb_forall. intros H Hin.
  specialize (H name Hin). destruct (lookup name (columns df)) as [c|];
    [eauto | discriminate H].
Qed.

Lemma profit_column_float (df : DataFrame) :
  numeric_fields df required_fields = true ->
  exists xs, profit_column df = Ok (ColFloat xs).
Proof.
  intros H.
  destruct (numeric_fields_lookup _ _ "List Price" H) as [lp [Hlp Nlp]]; [simpl; auto|].
  destruct (numeric_fields_lookup _ _ "Quantity" H) as [q [Hq Nq]]; [simpl; auto 6|].
  destruct (numeric_fields_lookup _ _ "Discount Percent" H) as [d [Hd Nd]];
    [simpl; auto 6|].
  destruct (numeric_fields_lookup _ _ "cost price" H) as [cp [Hcp Ncp]];
    [simpl; auto 6|].
  unfold profit_column, getitem. rewrite Hlp, Hq, Hd, Hcp. cbn [rbind].
  destruct (series_op_numeric Mul lp q Nlp Nq) as [gross [-> Ng]]. cbn [rbind].
  destruct (true_div_is_float d 100 Nd) as [fraction ->]. cbn [rbind].
  unfold scalar_op_series.
  destruct (series_op_float_r Sub (scalar 1 (ColFloat fraction)) fraction eq_refl)
    as [kept ->]. cbn [rbind].
  destruct (series_op_float_r Mul gross kept Ng) as [revenue ->]. cbn [rbind].
  destruct (series_op_numeric Mul cp q Ncp Nq) as [total_cost [-> Nt]]. cbn [rbind].
  apply series_op_float_l, Nt.
Qed.

End FloatProfit.

(** *** Profit per row *)

(** A cell is numeric only in a numeric column. *)
Lemma cell_numeric (df : DataFrame) (name : string) (i : nat) (x : num) :
  cell df name i = Some x ->
  exists c, lookup name (columns df) = Some c /\ is_numeric c = true.
Proof.
  unfold cell. destruct (lookup name (columns df)) as [c|]; [|discriminate].
  intros H. exists c. split; [reflexivity|].
  destruct c; [reflexivity | reflexivity | discriminate H].
Qed.

Lemma wrap64_fits (z : Z) :
  ((- 2 ^ 63 <=? z) && (z <? 2 ^ 63))%Z = true -> wrap64 z = z.
Proof.
  intros H. apply andb_true_iff in H. destruct H as [Hlo Hhi].
  apply Z.leb_le in Hlo. apply Z.ltb_lt in Hhi.
  unfold wrap64. rewrite Z.mod_small by lia. lia.
Qed.

(** The profit of a row whose int64 products fit: the docstring's
    expression in float64 arithmetic. *)
Lemma row_profit_value (lp q d cp : num) :
  fits_int64 lp q = true -> fits_int64 cp q = true ->
  row_profit lp q d cp
  = NFloat (times lp q * (1 - num_to_float d / 100) - times cp q)%float.
Proof.
  intros Hg Hc.
  assert (H100 : int64_to_float 100 = 100%float) by reflexivity.
  assert (H1 : int64_to_float 1 = 1%float) by reflexivity.
  destruct lp as [lp|lp], q as [q|q], d as [d|d], cp as [cp|cp];
    unfold fits_int64 in Hg, Hc; unfold row_profit, times;
    cbn [num_op int_op num_to_float float_op];
    rewrite ?(wrap64_fits _ Hg), ?(wrap64_fits _ Hc), ?H100, ?H1;
    reflexivity.
Qed.

(** C1, as the code has it. For every row whose four required cells are
    numeric, [calculate_profit_by_order] returns and the [Profit] cell it
    stores for the row is
    list price * quantity * (1 - discount percent / 100)
    - cost price * quantity
    evaluated in float64 arithmetic on the row's own cells, each
    operation rounded once and no rounding step besides, provided the
    product of two int64 cells fits in int64 (it is then computed
    exactly before it is converted to float64). *)
Theorem profit_of_every_row {P : Pandas} (h : heap) (orders_df : ref) (i : nat)
    (list_price quantity discount cost_price : num) :
  cell (h orders_df) "List Price" i = Some list_price ->
  cell (h orders_df) "Quantity" i = Some quantity ->
  cell (h orders_df) "Discount Percent" i = Some discount ->
  cell (h orders_df) "cost price" i = Some cost_price ->
  fits_int64 list_price quantity = true ->
  fits_int64 cost_price quantity = true ->
  exists h',
    calculate_profit_by_order orders_df h = (Ok orders_df, h')
    /\ cell (h' orders_df) "Profit" i
       = Some (NFloat (times list_price quantity
                       * (1 - num_to_float discount / 100)
                       - times cost_price quantity)%float).
Proof.
  intros Hlp Hq Hd Hcp Hg Hc.
  assert (Hnum : numeric_fields (h orders_df) required_fields = true).
  { destruct (cell_numeric _ _ _ _ Hlp) as [c1 [E1 N1]].
    destruct (cell_numeric _ _ _ _ Hq) as [c2 [E2 N2]].
    destruct (cell_numeric _ _ _ _ Hd) as [c3 [E3 N3]].
    destruct (cell_numeric _ _ _ _ Hcp) as [c4 [E4 N4]].
    unfold numeric_fields, required_fields. cbn [forallb].
    rewrite E1, E2, E3, E4, N1, N2, N3, N4. reflexivity. }
  destruct (profit_column_float _ Hnum) as [xs Hxs].
  rewrite calculate_profit_unfold, Hxs. eexists. split; [reflexivity|].
  unfold cell. rewrite update_same. cbn [setitem columns].
  rewrite lookup_assign_same.
  rewrite (profit_column_rows _ _ i _ _ _ _ Hxs Hlp Hq Hd Hcp).
  rewrite (row_profit_value _ _ _ _ Hg Hc). reflexivity.
Qed.

Lemma test_data_well_formed : well_formed test_data.
Proof. apply well_formedb_ok. reflexivity. Qed.

(** The first order of the test frame, float64 prices and an int64
    quantity and discount: 260 * 2 * (1 - 2 / 100) - 240 * 2 in float64
    arithmetic is 29.599999999999966.  The last order of the frame of
    integers: 150 * 1 * (1 - 0 / 100) - 100 * 1 is 50. *)
Lemma profit_of_every_row_witness :
  (exists h',
     @calculate_profit_by_order plain_pandas 0 (heap_of test_data) = (Ok 0, h')
     /\ cell (h' 0) "Profit" 0 = Some (NFloat 0x1.d99999999999p+4))
  /\ (exists h',
        @calculate_profit_by_order plain_pandas 0 (heap_of integer_orders) = (Ok 0, h')
        /\ cell (h' 0) "Profit" 2 = Some (NFloat 50)).
Proof.
  split.
  - exact (@profit_of_every_row plain_pandas (heap_of test_data) 0 0
             (NFloat 260) (NInt 2) (NInt 2) (NFloat 240)
             eq_refl eq_refl eq_refl eq_refl eq_refl eq_refl).
  - exact (@profit_of_every_row plain_pandas (heap_of integer_orders) 0 2
             (NInt 150) (NInt 1) (NInt 0) (NInt 100)
             eq_refl eq_refl eq_refl eq_refl eq_refl eq_refl).
Defined.

(** The profits of the four orders of the test frame: 29.599999999999966,
    324.29999999999973, -1 and 804. *)
Example test_data_profit :
  option_map (fun df => lookup "Profit" (columns df))
    (match @calculate_profit_by_order plain_pandas 0 (heap_of test_data) with
     | (Ok r, h') => Some (h' r)
     | _ => None
     end)
  = Some (Some (ColFloat [0x1.d99999999999p+4; 0x1.444ccccccccc8p+8; -1; 804]%float)).
Proof. vm_compute. reflexivity. Qed.

(** C1, as stated, fails where a product of two int64 cells does not fit
    in int64.  An order of 3037000500 pieces at a list price of
    3037000500, no discount and no cost, is worth 9223372037000250000,
    in float64 arithmetic 9.2233720370002493e+18; the product computed
    in int64 wraps around, and the profit stored is
    -9.2233720367093012e+18. *)
Lemma int64_profit_wraps_around :
  cell huge_order "List Price" 0 = Some (NInt 3037000500)
  /\ cell huge_order "Quantity" 0 = Some (NInt 3037000500)
  /\ cell huge_order "Discount Percent" 0 = Some (NInt 0)
  /\ cell huge_order "cost price" 0 = Some (NInt 0)
  /\ fst (@calculate_profit_by_order plain_pandas 0 (heap_of huge_order)) = Ok 0
  /\ cell (snd (@calculate_profit_by_order plain_pandas 0 (heap_of huge_order)) 0)
       "Profit" 0
     = Some (NFloat (-0x1.ffffffffdd50fp+62))
  /\ (3037000500 * 3037000500 * (1 - 0 / 100) - 0 * 3037000500)%float
     = 0x1.0000000011578p+63%float
  /\ (3037000500 * 3037000500 * (1 - 0 / 100) - 0 * 3037000500)%Z
     = 9223372037000250000%Z
  /\ (-0x1.ffffffffdd50fp+62 <? 0)%float = true.
Proof. vm_compute. repeat split; reflexivity. Qed.

(** *** In-place assignment *)

(** C4, as the code has it. [calculate_profit_by_order] assigns the
    profit column to the very DataFrame it is handed and returns that same
    object: after a successful call the caller's frame is the old one
    with [Profit] assigned, no other object is touched, and when the call
    raises the store is as before. *)
Theorem profit_assigned_in_place {P : Pandas} (h : heap) (orders_df : ref) :
  (exists e, calculate_profit_by_order orders_df h = (Raise e, h))
  \/ (exists profit h',
        calculate_profit_by_order orders_df h = (Ok orders_df, h')
        /\ h' orders_df = setitem (h orders_df) "Profit" profit
        /\ forall r, r <> orders_df -> h' r = h r).
Proof.
  rewrite calculate_profit_unfold.
  destruct (profit_column (h orders_df)) as [profit|e].
  - right. exists profit. eexists. split; [reflexivity|]. split.
    + unfold update. rewrite Nat.eqb_refl. reflexivity.
    + intros r Hr. unfold update. apply Nat.eqb_neq in Hr. rewrite Hr. reflexivity.
  - left. exists e. reflexivity.
Qed.

(** C4, as stated, fails: the caller's frame of the test suite has no
    [Profit] column before the call and has one after it. *)
Lemma caller_frame_is_mutated :
  fst (@calculate_profit_by_order plain_pandas 0 (heap_of test_data)) = Ok 0
  /\ lookup "Profit" (columns (heap_of test_data 0)) = None
  /\ lookup "Profit"
       (columns (snd (@calculate_profit_by_order plain_pandas 0 (heap_of test_data)) 0))
     <> None
  /\ snd (@calculate_profit_by_order plain_pandas 0 (heap_of test_data)) 0
     <> heap_of test_data 0.
Proof.
  vm_compute. repeat split; discriminate.
Qed.

(** *** Missing fields *)

Ltac step_result :=
  match goal with
  | |- context [rbind ?r _] =>
      let E := fresh "E" in
      destruct r eqn:E; cbn [rbind]
  end.

(** Without a list price the first line raises [KeyError]; without a
    cost price some line raises at the latest when it is looked up. *)
Lemma profit_column_missing {P : Pandas} (df : DataFrame) :
  lookup "cost price" (columns df) = None
  \/ lookup "List Price" (columns df) = None ->
  exists e, profit_column df = Raise e
            /\ (lookup "List Price" (columns df) = None ->
                e = KeyError "List Price").
Proof.
  intros H. unfold profit_column.
  step_result.
  2: { unfold getitem in E. destruct (lookup "List Price" (columns df));
       inversion E; subst. eexists; split; [reflexivity | reflexivity]. }
  assert (Hlp : lookup "List Price" (columns df) <> None).
  { unfold getitem in E. destruct (lookup "List Price" (columns df)); congruence. }
  destruct H as [H|H]; [|congruence].
  repeat (step_result;
          [| eexists; split; [reflexivity | intros; congruence]]).
  unfold getitem in E6. rewrite H in E6. discriminate.
Qed.

(** With the three other fields usable, everything up to the lookup of
    the cost price succeeds, and that lookup raises [KeyError]. *)
Lemma profit_column_no_cost_price {P : Pandas} (df : DataFrame) :
  well_formed df ->
  usable df "List Price" = true -> usable df "Quantity" = true ->
  usable df "Discount Percent" = true ->
  lookup "cost price" (columns df) = None ->
  profit_column df = Raise (KeyError "cost price").
Proof.
  intros Hwf Ulp Uq Ud Hcp.
  destruct (usable_lookup df "List Price" Ulp) as [lp [Elp Nlp]].
  destruct (usable_lookup df "Quantity" Uq) as [q [Eq Nq]].
  destruct (usable_lookup df "Discount Percent" Ud) as [d [Ed Nd]].
  pose proof (lookup_length df _ _ Hwf Elp) as Llp.
  pose proof (lookup_length df _ _ Hwf Eq) as Lq.
  pose proof (lookup_length df _ _ Hwf Ed) as Ld.
  unfold profit_column, getitem. rewrite Elp, Eq, Ed, Hcp. cbn [rbind].
  destruct (series_op_ok Mul lp q (nrows df) Llp Lq Nlp Nq) as [g [Eg [Lg Ng]]].
  rewrite Eg. cbn [rbind].
  assert (Ls : col_length (scalar 100 d) = nrows df)
    by (rewrite scalar_length; exact Ld).
  destruct (series_op_ok TrueDiv d (scalar 100 d) (nrows df) Ld Ls Nd
              (or_introl eq_refl)) as [f [Ef [Lf Nf]]].
  unfold series_op_scalar. rewrite Ef. cbn [rbind].
  assert (Ls1 : col_length (scalar 1 f) = nrows df)
    by (rewrite scalar_length; exact Lf).
  destruct (series_op_ok Sub (scalar 1 f) f (nrows df) Ls1 Lf
              (or_introl eq_refl) Nf) as [k [Ek [Lk Nk]]].
  unfold scalar_op_series. rewrite Ek. cbn [rbind].
  destruct (series_op_ok Mul g k (nrows df) Lg Lk Ng Nk) as [rev [Er [Lr Nr]]].
  rewrite Er. reflexivity.
Qed.

(** C6. On a dataset that lacks [cost price] or [List Price],
    [calculate_profit_by_order] raises, and it does so before anything is
    assigned: the store is unchanged (no [Profit] column, populated or
    partial) and no dataset is returned.  When [List Price] is the missing
    field the exception is [KeyError('List Price')]; when only
    [cost price] is missing from an otherwise usable dataset it is
    [KeyError('cost price')]. *)
Theorem missing_field_fails_atomically {P : Pandas} (h : heap) (orders_df : ref) :
  lookup "cost price" (columns (h orders_df)) = None
  \/ lookup "List Price" (columns (h orders_df)) = None ->
  exists e,
    calculate_profit_by_order orders_df h = (Raise e, h)
    /\ (lookup "List Price" (columns (h orders_df)) = None ->
        e = KeyError "List Price")
    /\ (well_formed (h orders_df) ->
        usable (h orders_df) "List Price" = true ->
        usable (h orders_df) "Quantity" = true ->
        usable (h orders_df) "Discount Percent" = true ->
        e = KeyError "cost price").
Proof.
  intros H. destruct (profit_column_missing _ H) as [e [He Hk]].
  exists e. rewrite calculate_profit_unfold, He.
  split; [reflexivity|]. split; [exact Hk|].
  intros Hwf Ulp Uq Ud.
  destruct H as [H|H].
  - rewrite (profit_column_no_cost_price _ Hwf Ulp Uq Ud H) in He. congruence.
  - unfold usable in Ulp. rewrite H in Ulp. discriminate.
Qed.

Lemma missing_field_fails_atomically_witness :
  exists e,
    @calculate_profit_by_order plain_pandas 0 (heap_of incomplete_data)
    = (Raise e, heap_of incomplete_data)
    /\ (lookup "List Price" (columns incomplete_data) = None ->
        e = KeyError "List Price")
    /\ (well_formed incomplete_data ->
        usable incomplete_data "List Price" = true ->
        usable incomplete_data "Quantity" = true ->
        usable incomplete_data "Discount Percent" = true ->
        e = KeyError "cost price").
Proof.
  apply (@missing_field_fails_atomically plain_pandas (heap_of incomplete_data) 0).
  left. reflexivity.
Defined.

(** The test frame without its cost price only. *)
Example missing_cost_price :
  @calculate_profit_by_order plain_pandas 0
    (heap_of (mkFrame 4 (filter (fun nc => negb (String.eqb (fst nc) "cost price"))
                                (columns test_data))))
  = (Raise (KeyError "cost price"),
     heap_of (mkFrame 4 (filter (fun nc => negb (String.eqb (fst nc) "cost price"))
                                (columns test_data)))).
Proof. reflexivity. Qed.

Example test_missing_columns :
  @calculate_profit_by_order plain_pandas 0 (heap_of incomplete_data)
  = (Raise (KeyError "List Price"), heap_of incomplete_data).
Proof. reflexivity. Qed.

(** *** What the call changes *)





(** [test_empty_dataframe], first part: no rows, and the [Profit] field
    is there. *)
Example test_empty_dataframe_profit :
  snd (@calculate_profit_by_order plain_pandas 0 (heap_of empty_data)) 0
  = empty_data_with_profit.
Proof. reflexivity. Qed.

(** ** The reports do not read [Profit] *)

Section ReportFacts.
Context {P : Pandas}.

Lemma getitem_setitem_other (df : DataFrame) (name other : string) (c : column) :
  other <> name -> getitem (setitem df name c) other = getitem df other.
Proof.
  intros H. unfold getitem, setitem. simpl.
  rewrite lookup_assign_other by exact H. reflexivity.
Qed.

Lemma assign_not_nil (name : string) (c : column) (cols : list (string * column)) :
  assign name c cols <> [].
Proof.
  destruct cols as [|[n c0] cols]; simpl; [discriminate|].
  destruct (String.eqb name n); discriminate.
Qed.

Lemma empty_setitem (df : DataFrame) (name : string) (c : column) :
  columns df <> [] -> empty (setitem df name c) = empty df.
Proof.
  intros H. unfold empty, setitem. simpl.
  pose proof (assign_not_nil name c (columns df)) as H'.
  destruct (assign name c (columns df)); [congruence|].
  destruct (columns df); [congruence|]. reflexivity.
Qed.

Lemma has_fields_setitem_other (df : DataFrame) (name : string) (c : column)
    (names : list string) :
  ~ In name names -> has_fields (setitem df name c) names = has_fields df names.
Proof.
  unfold has_fields, setitem. cbn [columns].
  induction names as [|other names IH]; intros H; simpl; [reflexivity|].
  rewrite lookup_assign_other by (intros E; apply H; left; exact E).
  rewrite IH by (intros Hin; apply H; right; exact Hin). reflexivity.
Qed.

Lemma keys_as_labels_setitem_other (df : DataFrame) (name : string) (c : column)
    (keys : list string) :
  ~ In name keys -> keys_as_labels (setitem df name c) keys = keys_as_labels df keys.
Proof.
  intros H. unfold keys_as_labels.
  rewrite has_fields_setitem_other by exact H. reflexivity.
Qed.

(** A list of keys that are all columns is a list of column names. *)
Lemma keys_as_labels_present (df : DataFrame) (keys : list string) :
  has_fields df keys = true -> keys_as_labels df keys = false.
Proof. intros H. unfold keys_as_labels. rewrite H. apply andb_false_r. Qed.

Lemma keys_as_labels_two (df : DataFrame) (n1 n2 : string) (c1 c2 : column) :
  lookup n1 (columns df) = Some c1 -> lookup n2 (columns df) = Some c2 ->
  keys_as_labels df [n1; n2] = false.
Proof.
  intros H1 H2. apply keys_as_labels_present. unfold has_fields. simpl.
  rewrite H1, H2. reflexivity.
Qed.

(** With their columns in the frame the three aggregations take the
    ordinary path. *)
Lemma region_with_columns (df : DataFrame) (region profit : column) :
  lookup "Region" (columns df) = Some region ->
  lookup "Profit" (columns df) = Some profit ->
  calculate_most_profitable_region df =
  match profit with
  | ColInt xs => Ok (regions_at_maximum (groupby_sum_ints (column_keys region) xs))
  | ColFloat xs => Ok (regions_at_maximum (groupby_sum_floats (column_keys region) xs))
  | ColObj [] => Ok (regions_at_maximum [])
  | ColObj xs => object_profit_report region xs
  end.
Proof.
  intros Hr Hp. unfold calculate_most_profitable_region, getitem, groupby_getitem.
  rewrite Hr, Hp. reflexivity.
Qed.

Lemma ship_method_with_columns (df : DataFrame) (cat ship : column) :
  lookup "Category" (columns df) = Some cat ->
  lookup "Ship Mode" (columns df) = Some ship ->
  find_most_common_ship_method df =
  if empty df then Ok empty_ship_frame
  else
    match most_common_groups
            (groupby_size (pair_keys (factorize (column_keys cat))
                                     (factorize (column_keys ship)))) with
    | [] => Ok empty_ship_frame
    | _ => Ok (ship_frame cat ship
                 (sort_by fst
                    (concat (most_common_groups
                       (groupby_size (pair_keys (factorize (column_keys cat))
                                                (factorize (column_keys ship))))))))
    end.
Proof.
  intros Hc Hs. unfold find_most_common_ship_method, getitem.
  rewrite (keys_as_labels_two df _ _ _ _ Hc Hs), Hc, Hs. reflexivity.
Qed.

Lemma category_count_with_columns (df : DataFrame) (cat sub : column) :
  lookup "Category" (columns df) = Some cat ->
  lookup "Sub Category" (columns df) = Some sub ->
  find_number_of_order_per_category df =
  Ok (category_frame cat sub
        (groupby_size (pair_keys (factorize (column_keys cat))
                                 (factorize (column_keys sub))))).
Proof.
  intros Hc Hs. unfold find_number_of_order_per_category, getitem.
  rewrite (keys_as_labels_two df _ _ _ _ Hc Hs), Hc, Hs. reflexivity.
Qed.

Lemma ship_method_ignores_profit (df : DataFrame) (c : column) :
  columns df <> [] ->
  find_most_common_ship_method (setitem df "Profit" c)
  = find_most_common_ship_method df.
Proof.
  intros H. unfold find_most_common_ship_method.
  rewrite empty_setitem by exact H.
  rewrite keys_as_labels_setitem_other by (simpl; intuition discriminate).
  rewrite !getitem_setitem_other by discriminate. reflexivity.
Qed.

Lemma category_count_ignores_profit (df : DataFrame) (c : column) :
  find_number_of_order_per_category (setitem df "Profit" c)
  = find_number_of_order_per_category df.
Proof.
  unfold find_number_of_order_per_category.
  rewrite keys_as_labels_setitem_other by (simpl; intuition discriminate).
  rewrite !getitem_setitem_other by discriminate. reflexivity.
Qed.

Lemma profit_column_has_columns (df : DataFrame) (c : column) :
  profit_column df = Ok c -> columns df <> [].
Proof.
  unfold profit_column, getitem. destruct (columns df); [discriminate|].
  discriminate.
Qed.

End ReportFacts.

(** C9. [find_most_common_ship_method] and
    [find_number_of_order_per_category] give the same report on the
    dataset as supplied and on the profit-augmented dataset; hence the
    bundle of [generate_analytics_reports], which hands them the augmented
    object, is the bundle whose ship-method and category reports come from
    the dataset as originally supplied and whose region report comes from
    the augmented one. *)
Theorem reports_from_the_dataset_as_supplied {P : Pandas}
    (h : heap) (orders_df : ref) :
  generate_analytics_reports orders_df h = reports_as_specified orders_df h
  /\ forall augmented h',
       calculate_profit_by_order orders_df h = (Ok augmented, h') ->
       find_most_common_ship_method (h' augmented)
       = find_most_common_ship_method (h orders_df)
       /\ find_number_of_order_per_category (h' augmented)
          = find_number_of_order_per_category (h orders_df).
Proof.
  assert (Hsame : forall augmented h',
             calculate_profit_by_order orders_df h = (Ok augmented, h') ->
             augmented = orders_df
             /\ find_most_common_ship_method (h' augmented)
                = find_most_common_ship_method (h orders_df)
             /\ find_number_of_order_per_category (h' augmented)
                = find_number_of_order_per_category (h orders_df)).
  { intros augmented h'. rewrite calculate_profit_unfold.
    destruct (profit_column (h orders_df)) as [c|e] eqn:E; [|discriminate].
    intros H. inversion H; subst. split; [reflexivity|].
    unfold update. rewrite Nat.eqb_refl.
    split; [apply ship_method_ignores_profit, (profit_column_has_columns _ _ E)
           | apply category_count_ignores_profit]. }
  split.
  - unfold generate_analytics_reports, reports_as_specified, bind, call, lift, ret.
    destruct (calculate_profit_by_order orders_df h) as [[augmented|e] h'] eqn:E;
      [|reflexivity].
    destruct (Hsame _ _ eq_refl) as [-> [Hs Hc]].
    rewrite Hs, Hc. reflexivity.
  - intros augmented h' E. apply (Hsame _ _ E).
Qed.

(** The bundle of [test_generate_analytics_reports]. *)
Example test_generate_analytics_reports :
  fst (@generate_analytics_reports plain_pandas 0 (heap_of test_data))
  = Ok (mkReports 0
          (mkFrame 1 [("Region", ColObj [Some "Central"]);
                      ("Total_Profit", ColFloat [803]%float)])
          (mkFrame 4
             [("Category", ColObj [Some "Furniture"; Some "Furniture";
                                   Some "Furniture"; Some "Office Supplies"]);
              ("Ship Mode", ColObj [Some "First Class"; Some "Same Day";
                                    Some "Standard Class"; Some "Standard Class"]);
              ("Count", ColInt [1; 1; 1; 1]%Z)])
          (mkFrame 4
             [("Category", ColObj [Some "Furniture"; Some "Furniture";
                                   Some "Furniture"; Some "Office Supplies"]);
              ("Sub Category", ColObj [Some "Bookcases"; Some "Chairs";
                                       Some "Tables"; Some "Labels"]);
              ("order_count", ColInt [1; 1; 1; 1]%Z)])).
Proof. vm_compute. reflexivity. Qed.

(** ** Datasets without rows *)

Lemma has_fields_lookup (df : DataFrame) (names : list string) (name : string) :
  has_fields df names = true -> In name names ->
  exists c, lookup name (columns df) = Some c.
Proof.
  unfold has_fields. rewrite forallb_forall. intros H Hin.
  specialize (H name Hin). destruct (lookup name (columns df)) as [c|];
    [eexists; reflexivity | discriminate].
Qed.

Lemma column_keys_length (c : column) : length (column_keys c) = col_length c.
Proof. destruct c; simpl; apply length_map. Qed.

Lemma no_rows_no_keys (c : column) : col_length c = 0 -> column_keys c = [].
Proof.
  intros H. rewrite <- column_keys_length in H.
  destruct (column_keys c); [reflexivity | discriminate].
Qed.

Lemma keys_column_nil_length (c : column) : col_length (keys_column c []) = 0.
Proof. destruct c; reflexivity. Qed.

(** C7. On a dataset with the expected columns and no rows each of the
    three aggregations returns, without raising, a report that has its
    two or three named columns and no rows. *)
Theorem empty_dataset_gives_empty_reports {P : Pandas} (df : DataFrame) :
  well_formed df ->
  nrows df = 0 ->
  has_fields df ["Region"; "Profit"; "Category"; "Ship Mode"; "Sub Category"] = true ->
  (exists report, calculate_most_profitable_region df = Ok report
                  /\ empty_report ["Region"; "Total_Profit"] report)
  /\ (exists report, find_most_common_ship_method df = Ok report
                     /\ empty_report ["Category"; "Ship Mode"; "Count"] report)
  /\ (exists report, find_number_of_order_per_category df = Ok report
                     /\ empty_report ["Category"; "Sub Category"; "order_count"] report).
Proof.
  intros Hwf Hn Hf.
  destruct (has_fields_lookup _ _ "Region" Hf) as [region Er]; [simpl; tauto|].
  destruct (has_fields_lookup _ _ "Profit" Hf) as [profit Ep]; [simpl; tauto|].
  destruct (has_fields_lookup _ _ "Category" Hf) as [cat Ec]; [simpl; tauto|].
  destruct (has_fields_lookup _ _ "Sub Category" Hf) as [sub Es]; [simpl; tauto|].
  pose proof (lookup_length _ _ _ Hwf Ep) as Lp. rewrite Hn in Lp.
  pose proof (lookup_length _ _ _ Hwf Ec) as Lc. rewrite Hn in Lc.
  pose proof (lookup_length _ _ _ Hwf Es) as Ls. rewrite Hn in Ls.
  split; [|split].
  - exists (mkFrame 0 [("Region", ColObj []); ("Total_Profit", ColObj [])]).
    split; [|repeat split; repeat constructor].
    rewrite (region_with_columns df region profit Er Ep).
    destruct profit as [xs|xs|xs]; destruct xs; try discriminate;
      unfold groupby_sum_ints, groupby_sum_floats; rewrite ?combine_nil;
      reflexivity.
  - exists empty_ship_frame. split; [|repeat split; repeat constructor].
    unfold find_most_common_ship_method, empty. rewrite Hn. reflexivity.
  - exists (category_frame cat sub []). split.
    + rewrite (category_count_with_columns df cat sub Ec Es).
      rewrite (no_rows_no_keys cat Lc). reflexivity.
    + repeat split. simpl.
      repeat (constructor; simpl; try apply keys_column_nil_length).
Qed.

Lemma empty_dataset_gives_empty_reports_witness :
  (exists report,
     @calculate_most_profitable_region plain_pandas empty_data_with_profit = Ok report
     /\ empty_report ["Region"; "Total_Profit"] report)
  /\ (exists report,
        find_most_common_ship_method empty_data_with_profit = Ok report
        /\ empty_report ["Category"; "Ship Mode"; "Count"] report)
  /\ (exists report,
        find_number_of_order_per_category empty_data_with_profit = Ok report
        /\ empty_report ["Category"; "Sub Category"; "order_count"] report).
Proof.
  apply (@empty_dataset_gives_empty_reports plain_pandas empty_data_with_profit).
  - apply well_formedb_ok. reflexivity.
  - reflexivity.
  - reflexivity.
Defined.

(** ** Keys of [object] columns are strings *)

#[export] Instance string_OrdLaws : OrdLaws string.
Proof.
  split; unfold compare, string_Ord.
  - intros a b. apply String.compare_antisym.
  - apply string_compare_lt_trans.
  - intros a b c H. apply String.compare_eq_iff in H. congruence.
Qed.

#[export] Instance string_ExactOrd : ExactOrd string.
Proof. intros a b. apply String.compare_eq_iff. Qed.

#[export] Instance pair_ExactOrd {A B : Type} {OA : Ord A} {OB : Ord B}
    {EA : ExactOrd A} {EB : ExactOrd B} : ExactOrd (A * B).
Proof.
  intros [a1 b1] [a2 b2]. unfold compare, pair_Ord, pair_compare. simpl.
  destruct (compare a1 a2) eqn:Ha; try discriminate.
  intros Hb. apply compare_eq in Ha. apply compare_eq in Hb. congruence.
Qed.

Lemma key_eqb_exact {K : Type} {O : Ord K} {L : OrdLaws K} {E : ExactOrd K}
    (a b : K) : key_eqb a b = true <-> a = b.
Proof.
  rewrite key_eqb_eq. split; [apply compare_eq|].
  intros ->. apply compare_refl.
Qed.

(** ** [groupby] through an order-preserving renaming of the keys *)

Section Embedding.
Context {K1 K2 : Type} {O1 : Ord K1} {O2 : Ord K2}.
Variable emb : K1 -> K2.
Hypothesis emb_compare : forall a b, compare (emb a) (emb b) = compare a b.

Lemma key_eqb_embed (a b : K1) : key_eqb (emb a) (emb b) = key_eqb a b.
Proof. unfold key_eqb. rewrite emb_compare. reflexivity. Qed.

Lemma insert_label_embed (k : K1) (ls : list K1) :
  insert_label (emb k) (map emb ls) = map emb (insert_label k ls).
Proof.
  induction ls as [|l rest IH]; simpl; [reflexivity|].
  rewrite emb_compare. destruct (compare k l); simpl; [reflexivity..|].
  rewrite IH. reflexivity.
Qed.

Lemma labels_embed (ks : list K1) : labels (map emb ks) = map emb (labels ks).
Proof.
  unfold labels. change (@nil K2) with (map emb []). generalize (@nil K1).
  induction ks as [|k ks IH]; intros acc; simpl; [reflexivity|].
  rewrite insert_label_embed. apply IH.
Qed.

Lemma dropna_embed {V W : Type} (g : V -> W) (rows : list (option K1 * V)) :
  dropna (map (fun r => (option_map emb (fst r), g (snd r))) rows)
  = map (fun r => (emb (fst r), g (snd r))) (dropna rows).
Proof.
  unfold dropna. induction rows as [|[[k|] v] rows IH]; simpl; [reflexivity| |exact IH].
  rewrite IH. reflexivity.
Qed.

Lemma members_embed {V W : Type} (g : V -> W) (l : K1) (rows : list (K1 * V)) :
  members (emb l) (map (fun r => (emb (fst r), g (snd r))) rows)
  = map g (members l rows).
Proof.
  unfold members. induction rows as [|[k v] rows IH]; simpl; [reflexivity|].
  rewrite key_eqb_embed. destruct (key_eqb k l); simpl; rewrite IH; reflexivity.
Qed.

Lemma groupby_embed {V W : Type} (g : V -> W) (rows : list (option K1 * V)) :
  groupby (map (fun r => (option_map emb (fst r), g (snd r))) rows)
  = map (fun grp => (emb (fst grp), map g (snd grp))) (groupby rows).
Proof.
  unfold groupby. rewrite dropna_embed, !map_map. simpl.
  rewrite <- (map_map fst emb), labels_embed, map_map.
  apply map_ext. intros l. rewrite members_embed. reflexivity.
Qed.

Lemma groupby_size_embed (keys : list (option K1)) :
  groupby_size (map (option_map emb) keys)
  = map (fun g => (emb (fst g), snd g)) (groupby_size keys).
Proof.
  unfold groupby_size.
  replace (map (fun k => (k, tt)) (map (option_map emb) keys))
    with (map (fun r : option K1 * unit => (option_map emb (fst r), id (snd r)))
              (map (fun k => (k, tt)) keys))
    by (rewrite !map_map; reflexivity).
  rewrite (groupby_embed id), !map_map. simpl.
  apply map_ext. intros g. rewrite map_id. reflexivity.
Qed.

Lemma insert_by_embed {A : Type} (f : A -> K1) (x : A) (l : list A) :
  insert_by (fun a => emb (f a)) x l = insert_by f x l.
Proof.
  induction l as [|y rest IH]; simpl; [reflexivity|].
  rewrite emb_compare, IH. reflexivity.
Qed.

Lemma sort_by_embed {A : Type} (f : A -> K1) (l : list A) :
  sort_by (fun a => emb (f a)) l = sort_by f l.
Proof.
  unfold sort_by. induction l as [|x l IH]; simpl; [reflexivity|].
  rewrite IH. apply insert_by_embed.
Qed.

End Embedding.

(** ** Group sizes *)

Section SizeFacts.
Context {K : Type} {O : Ord K} {L : OrdLaws K}.

Lemma dropna_unit (keys : list (option K)) :
  dropna (map (fun k => (k, tt)) keys) = map (fun k => (k, tt)) (present keys).
Proof.
  unfold dropna, present. induction keys as [|[k|] keys IH]; simpl; [reflexivity| |exact IH].
  rewrite IH. reflexivity.
Qed.

Lemma members_unit_length (l : K) (ks : list K) :
  length (members l (map (fun k => (k, tt)) ks))
  = length (filter (fun k => key_eqb k l) ks).
Proof.
  unfold members. rewrite length_map.
  induction ks as [|k ks IH]; simpl; [reflexivity|].
  destruct (key_eqb k l); simpl; rewrite IH; reflexivity.
Qed.

(** [groupby(...).size()] lists the labels of the keys present, each with
    the number of rows that carry it. *)
Lemma groupby_size_present (keys : list (option K)) :
  groupby_size keys
  = map (fun l => (l, Z.of_nat (length (filter (fun k => key_eqb k l) (present keys)))))
        (labels (present keys)).
Proof.
  unfold groupby_size, groupby. rewrite dropna_unit, !map_map. simpl.
  rewrite map_id. apply map_ext. intros l. rewrite members_unit_length. reflexivity.
Qed.

Lemma groupby_size_labels (keys : list (option K)) :
  map fst (groupby_size keys) = labels (present keys).
Proof. rewrite groupby_size_present, map_map. simpl. apply map_id. Qed.

Lemma groupby_size_ascending (keys : list (option K)) :
  ascending fst (groupby_size keys).
Proof.
  apply (ascending_map (fun k => k) fst). rewrite groupby_size_labels.
  apply labels_sorted.
Qed.

Lemma sum_Z_of_nat {A : Type} (f : A -> nat) (l : list A) :
  sum_Z (map (fun x => Z.of_nat (f x)) l) = Z.of_nat (list_sum (map f l)).
Proof. induction l as [|x l IH]; simpl; [reflexivity|]. rewrite IH. lia. Qed.

(** The sizes add up to the number of rows whose key is present. *)
Lemma groupby_size_total (keys : list (option K)) :
  sum_Z (map snd (groupby_size keys)) = Z.of_nat (length (present keys)).
Proof.
  unfold groupby_size. rewrite map_map. simpl.
  rewrite (sum_Z_of_nat (fun g : K * list unit => length (snd g))).
  rewrite groupby_sizes, dropna_unit, length_map. reflexivity.
Qed.

Context {E : ExactOrd K}.

Lemma labels_exact (ks : list K) (k : K) : In k (labels ks) <-> In k ks.
Proof.
  split; [apply labels_in|]. intros H.
  destruct (labels_cover ks k H) as [l [Hl Heq]].
  apply key_eqb_exact in Heq. congruence.
Qed.

Lemma filter_eqb_count_occ (dec : forall a b : K, {a = b} + {a <> b})
    (ks : list K) (l : K) :
  length (filter (fun k => key_eqb k l) ks) = count_occ dec ks l.
Proof.
  induction ks as [|k ks IH]; simpl; [reflexivity|].
  destruct (dec k l) as [->|Hne].
  - rewrite key_eqb_refl. simpl. rewrite IH. reflexivity.
  - destruct (key_eqb k l) eqn:Heq; [|exact IH].
    apply key_eqb_exact in Heq. contradiction.
Qed.

(** A row of [groupby(...).size()]: a key that is present, with its count. *)
Lemma groupby_size_in (dec : forall a b : K, {a = b} + {a <> b})
    (keys : list (option K)) (l : K) (n : Z) :
  In (l, n) (groupby_size keys)
  <-> In l (present keys) /\ n = Z.of_nat (count_occ dec (present keys) l).
Proof.
  rewrite groupby_size_present, in_map_iff. split.
  - intros [l' [H Hin]]. inversion H; subst. split.
    + apply labels_exact, Hin.
    + rewrite (filter_eqb_count_occ dec). reflexivity.
  - intros [Hin ->]. exists l. split.
    + rewrite (filter_eqb_count_occ dec). reflexivity.
    + apply labels_exact, Hin.
Qed.

End SizeFacts.

(** ** Reports on [object] columns *)


Lemma text_pair_compare (p q : string * string) :
  compare (text_pair p) (text_pair q) = compare p q.
Proof. destruct p, q. reflexivity. Qed.

Lemma KStr_compare (a b : string) : compare (KStr a) (KStr b) = compare a b.
Proof. reflexivity. Qed.

Lemma pair_keys_text (a b : list (option string)) :
  pair_keys (map (option_map KStr) a) (map (option_map KStr) b)
  = map (option_map text_pair) (pair_keys a b).
Proof.
  unfold pair_keys. revert b.
  induction a as [|[x|] a IH]; intros [|[y|] b]; simpl; try reflexivity;
    rewrite IH; reflexivity.
Qed.

(** In an [object] column a key that equals another is that key, so that
    numbering the keys of the column changes none of them. *)
Lemma first_equal_text (s : string) (xs : list (option string)) :
  first_equal (KStr s) (map (option_map KStr) xs) = KStr s.
Proof.
  unfold first_equal.
  destruct (find _ (map (option_map KStr) xs)) as [[l|]|] eqn:E; try reflexivity.
  apply find_some in E. destruct E as [Hin Heq].
  apply in_map_iff in Hin. destruct Hin as [[s'|] [Hs' _]]; [|discriminate Hs'].
  injection Hs' as <-.
  apply key_eqb_eq in Heq. rewrite KStr_compare in Heq.
  apply compare_eq in Heq. rewrite Heq. reflexivity.
Qed.

Lemma factorize_text (xs : list (option string)) :
  factorize (map (option_map KStr) xs) = map (option_map KStr) xs.
Proof.
  unfold factorize. rewrite map_map. apply map_ext.
  intros [s|]; simpl; [|reflexivity]. rewrite first_equal_text. reflexivity.
Qed.

Lemma key_objects_text (names : list string) :
  key_objects (map KStr names) = map Some names.
Proof.
  unfold key_objects. induction names as [|n names IH]; simpl; [reflexivity|].
  rewrite IH. reflexivity.
Qed.

Lemma keys_column_text (xs : list (option string)) (names : list string) :
  keys_column (ColObj xs) (map KStr names) = text_column names.
Proof. simpl. rewrite key_objects_text. reflexivity. Qed.

Lemma category_frame_text (cats subs : list (option string))
    (rows : list (string * string * Z)) :
  category_frame (ColObj cats) (ColObj subs)
    (map (fun r => (text_pair (fst r), snd r)) rows)
  = category_report rows.
Proof.
  unfold category_frame, category_report. rewrite length_map, !map_map. simpl.
  rewrite <- (map_map (fun r : string * string * Z => fst (fst r)) KStr).
  rewrite <- (map_map (fun r : string * string * Z => snd (fst r)) KStr).
  rewrite !key_objects_text.
  rewrite (map_ext (fun r : string * string * Z => snd r) snd) by reflexivity.
  reflexivity.
Qed.

(** C5. On [object] category and sub-category columns,
    [find_number_of_order_per_category] returns one row for each distinct
    (category, sub-category) pair of the rows that have both, each with
    the number of rows that carry the pair and nothing selected away; the
    counts add up to the number of rows that have both values. *)
Theorem category_counts_enumerate_pairs (df : DataFrame)
    (cats subs : list (option string)) :
  lookup "Category" (columns df) = Some (ColObj cats) ->
  lookup "Sub Category" (columns df) = Some (ColObj subs) ->
  exists rows : list (string * string * Z),
    find_number_of_order_per_category df = Ok (category_report rows)
    /\ NoDup (map fst rows)
    /\ (forall p, In p (map fst rows) <-> In p (present (pair_keys cats subs)))
    /\ (forall p n, In (p, n) rows ->
                    n = occurrences (present (pair_keys cats subs)) p)
    /\ sum_Z (map snd rows) = Z.of_nat (length (present (pair_keys cats subs))).
Proof.
  intros Hc Hs. exists (groupby_size (pair_keys cats subs)). split; [|split; [|split; [|split]]].
  - rewrite (category_count_with_columns df _ _ Hc Hs). cbn [column_keys].
    rewrite !factorize_text.
    rewrite pair_keys_text, (groupby_size_embed text_pair text_pair_compare).
    rewrite category_frame_text. reflexivity.
  - apply (ascending_NoDup fst). apply groupby_size_ascending.
  - intros p. rewrite groupby_size_labels. apply labels_exact.
  - intros p n H. apply (groupby_size_in string_pair_dec) in H. apply H.
  - apply groupby_size_total.
Qed.


Lemma category_counts_enumerate_pairs_witness :
  exists rows : list (string * string * Z),
    find_number_of_order_per_category category_test_data = Ok (category_report rows)
    /\ NoDup (map fst rows)
    /\ (forall p, In p (map fst rows) <->
                  In p [("Furniture", "Bookcases"); ("Furniture", "Bookcases");
                        ("Furniture", "Chairs"); ("Furniture", "Tables");
                        ("Furniture", "Tables"); ("Office Supplies", "Labels");
                        ("Office Supplies", "Labels"); ("Office Supplies", "Storage");
                        ("Technology", "Phones")])
    /\ (forall p n, In (p, n) rows ->
          n = occurrences
                [("Furniture", "Bookcases"); ("Furniture", "Bookcases");
                 ("Furniture", "Chairs"); ("Furniture", "Tables");
                 ("Furniture", "Tables"); ("Office Supplies", "Labels");
                 ("Office Supplies", "Labels"); ("Office Supplies", "Storage");
                 ("Technology", "Phones")] p)
    /\ sum_Z (map snd rows) = 9%Z.
Proof.
  apply (category_counts_enumerate_pairs category_test_data
           (map Some ["Furniture"; "Furniture"; "Furniture"; "Furniture";
                      "Furniture"; "Office Supplies"; "Office Supplies";
                      "Office Supplies"; "Technology"])
           (map Some ["Bookcases"; "Bookcases"; "Chairs"; "Tables"; "Tables";
                      "Labels"; "Labels"; "Storage"; "Phones"]));
    reflexivity.
Defined.

Example test_find_number_of_order_per_category :
  find_number_of_order_per_category category_test_data
  = Ok (category_report
          [("Furniture", "Bookcases", 2); ("Furniture", "Chairs", 1);
           ("Furniture", "Tables", 2); ("Office Supplies", "Labels", 2);
           ("Office Supplies", "Storage", 1); ("Technology", "Phones", 1)]%Z).
Proof. vm_compute. reflexivity. Qed.

(** ** The largest value of a Series of integers *)

Lemma fold_max_ints (rest : list Z) (x : Z) :
  exists m,
    fold_left (fun m v => if num_ltb m v then v else m) (map NInt rest) (NInt x)
    = NInt m
    /\ (m = x \/ In m rest) /\ (x <= m)%Z /\ (forall z, In z rest -> (z <= m)%Z).
Proof.
  revert x. induction rest as [|y rest IH]; intros x; simpl.
  - exists x. split; [reflexivity|]. split; [now left|]. split; [lia|]. intros z [].
  - destruct (Z.ltb_spec x y) as [Hlt|Hge].
    + destruct (IH y) as [m [E [Hin [Hle Hall]]]]. exists m.
      split; [exact E|]. split; [right; destruct Hin; auto|].
      split; [lia|]. intros z [<-|Hz]; auto.
    + destruct (IH x) as [m [E [Hin [Hle Hall]]]]. exists m.
      split; [exact E|]. split; [destruct Hin; auto|].
      split; [lia|]. intros z [<-|Hz]; [lia | auto].
Qed.

Lemma series_max_ints (zs : list Z) :
  zs <> [] ->
  exists m, series_max (map NInt zs) = NInt m
            /\ In m zs /\ (forall z, In z zs -> (z <= m)%Z).
Proof.
  intros Hne. unfold series_max.
  assert (Hf : filter (fun x => negb (num_is_nan x)) (map NInt zs) = map NInt zs).
  { clear Hne. induction zs as [|z zs IH]; simpl; [reflexivity|]. rewrite IH. reflexivity. }
  rewrite Hf. destruct zs as [|x rest]; [congruence|]. simpl.
  destruct (fold_max_ints rest x) as [m [E [Hin [Hle Hall]]]].
  exists m. split; [exact E|]. split.
  - destruct Hin as [->|Hin]; [now left | now right].
  - intros z [<-|Hz]; auto.
Qed.

(** ** The most common rows of each category *)

Section ShipFacts.
Context {A B : Type} {OA : Ord A} {OB : Ord B} {LA : OrdLaws A} {LB : OrdLaws B}.

Let cat (r : A * B * Z) : A := fst (fst r).

(** The rows kept for a category are those of the largest count. *)
Lemma most_common_in (group : list (A * B * Z)) (r : A * B * Z) :
  In r (most_common group)
  <-> In r group /\ forall r', In r' group -> (snd r' <= snd r)%Z.
Proof.
  unfold most_common. cbv zeta. rewrite filter_In.
  destruct group as [|r0 group']; [simpl; tauto|].
  set (group := r0 :: group').
  destruct (series_max_ints (map snd group)) as [m [E [Hin Hall]]];
    [discriminate|].
  rewrite map_map in E. rewrite E. simpl.
  split; intros [Hr H]; (split; [exact Hr|]).
  - apply Z.eqb_eq in H. rewrite H. intros r' Hr'. apply Hall.
    apply in_map. exact Hr'.
  - apply Z.eqb_eq. apply in_map_iff in Hin. destruct Hin as [rm [<- Hrm]].
    specialize (H rm Hrm). specialize (Hall (snd r) (in_map snd group r Hr)). lia.
Qed.

Lemma most_common_nonempty (group : list (A * B * Z)) :
  group <> [] -> most_common group <> [].
Proof.
  intros Hne.
  destruct (series_max_ints (map snd group)) as [m [E [Hin Hall]]].
  { destruct group; [congruence | discriminate]. }
  apply in_map_iff in Hin. destruct Hin as [rm [<- Hrm]].
  assert (H : In rm (most_common group)).
  { apply most_common_in. split; [exact Hrm|]. intros r' Hr'.
    apply Hall. apply in_map. exact Hr'. }
  intros Hnil. rewrite Hnil in H. exact H.
Qed.

Lemma most_common_ascending (group : list (A * B * Z)) :
  ascending fst group -> ascending fst (most_common group).
Proof. apply ascending_filter. Qed.

Lemma dropna_some {V : Type} (f : V -> A) (rows : list V) :
  dropna (map (fun r => (Some (f r), r)) rows) = map (fun r => (f r, r)) rows.
Proof.
  unfold dropna. induction rows as [|r rows IH]; simpl; [reflexivity|].
  rewrite IH. reflexivity.
Qed.

Lemma members_self {V : Type} (f : V -> A) (l : A) (rows : list V) :
  members l (map (fun r => (f r, r)) rows)
  = filter (fun r => key_eqb (f r) l) rows.
Proof.
  unfold members. induction rows as [|r rows IH]; simpl; [reflexivity|].
  destruct (key_eqb (f r) l); simpl; rewrite IH; reflexivity.
Qed.

(** The groups, one after the other: for each category label, in
    ascending order, the most common among the rows of that category. *)
Lemma most_common_groups_unfold (counts : list (A * B * Z)) :
  most_common_groups counts
  = map (fun l => most_common (filter (fun r => key_eqb (cat r) l) counts))
        (labels (map cat counts)).
Proof.
  unfold most_common_groups, groupby.
  rewrite (dropna_some cat), !map_map. simpl.
  apply map_ext. intros l. rewrite (members_self cat). reflexivity.
Qed.

Lemma ascending_app {R : Type} {K : Type} {O : Ord K} (f : R -> K) (l1 l2 : list R) :
  ascending f l1 -> ascending f l2 ->
  (forall x y, In x l1 -> In y l2 -> compare (f x) (f y) = Lt) ->
  ascending f (l1 ++ l2).
Proof.
  unfold ascending. induction 1 as [|x l1 Hs IH Hall]; simpl; intros H2 Hx; [exact H2|].
  constructor.
  - apply IH; [exact H2|]. intros a b Ha Hb. apply Hx; [now right | exact Hb].
  - apply Forall_app. split; [exact Hall|].
    apply Forall_forall. intros y Hy. apply Hx; [now left | exact Hy].
Qed.

Lemma concat_groups_ascending (counts : list (A * B * Z)) :
  ascending fst counts -> ascending fst (concat (most_common_groups counts)).
Proof.
  intros Hc. rewrite most_common_groups_unfold.
  pose proof (labels_sorted (map cat counts)) as Hs.
  induction Hs as [|l ls Hs IH Hall]; simpl; [constructor|].
  apply ascending_app.
  - apply most_common_ascending, ascending_filter, Hc.
  - exact IH.
  - intros x y Hx Hy. apply most_common_in in Hx. destruct Hx as [Hx _].
    apply filter_In in Hx. destruct Hx as [_ Hxl].
    apply in_concat in Hy. destruct Hy as [grp [Hgrp Hy]].
    apply in_map_iff in Hgrp. destruct Hgrp as [l' [<- Hl']].
    apply most_common_in in Hy. destruct Hy as [Hy _].
    apply filter_In in Hy. destruct Hy as [_ Hyl].
    rewrite Forall_forall in Hall. specialize (Hall l' Hl').
    apply key_eqb_eq in Hxl, Hyl.
    unfold compare at 1, pair_Ord, pair_compare.
    fold (cat x). fold (cat y).
    rewrite (compare_eq_compat _ _ _ Hxl), (compare_eq_compat_r _ _ _ Hyl), Hall.
    reflexivity.
Qed.

(** A row is kept exactly when no row of its category has a larger count. *)
Lemma concat_groups_in (counts : list (A * B * Z)) (r : A * B * Z) :
  In r (concat (most_common_groups counts))
  <-> In r counts
      /\ forall r', In r' counts -> key_eqb (cat r') (cat r) = true ->
                    (snd r' <= snd r)%Z.
Proof.
  rewrite most_common_groups_unfold, in_concat. split.
  - intros [grp [Hgrp Hr]]. apply in_map_iff in Hgrp.
    destruct Hgrp as [l [<- Hl]]. apply most_common_in in Hr.
    destruct Hr as [Hr Hmax]. apply filter_In in Hr. destruct Hr as [Hr Hrl].
    split; [exact Hr|]. intros r' Hr' Heq. apply Hmax. apply filter_In.
    split; [exact Hr'|]. rewrite (key_eqb_compat _ _ _ Heq). exact Hrl.
  - intros [Hr Hmax].
    destruct (labels_cover (map cat counts) (cat r)) as [l [Hl Heq]];
      [apply in_map; exact Hr|].
    exists (most_common (filter (fun r => key_eqb (cat r) l) counts)). split.
    + apply in_map_iff. exists l. auto.
    + apply most_common_in. split; [apply filter_In; auto|].
      intros r' Hr'. apply filter_In in Hr'. destruct Hr' as [Hr' Hl'].
      apply Hmax; [exact Hr'|].
      rewrite (key_eqb_compat_r _ _ _ Heq). exact Hl'.
Qed.

Lemma most_common_groups_nil (counts : list (A * B * Z)) :
  most_common_groups counts = [] -> concat (most_common_groups counts) = [].
Proof. intros ->. reflexivity. Qed.

Lemma most_common_groups_cons (counts : list (A * B * Z)) :
  most_common_groups counts <> [] -> concat (most_common_groups counts) <> [].
Proof.
  rewrite most_common_groups_unfold.
  destruct (labels (map cat counts)) as [|l ls] eqn:El;
    [intros H; exfalso; apply H; reflexivity|].
  intros _. simpl.
  assert (Hl : In l (map cat counts)) by (apply labels_in; rewrite El; now left).
  apply in_map_iff in Hl. destruct Hl as [r [Hr Hin]].
  assert (Hne : filter (fun r => key_eqb (cat r) l) counts <> []).
  { intros Hnil.
    assert (H : In r (filter (fun r => key_eqb (cat r) l) counts)).
    { apply filter_In. split; [exact Hin|]. rewrite Hr. apply key_eqb_refl. }
    rewrite Hnil in H. exact H. }
  apply most_common_nonempty in Hne.
  destruct (most_common (filter (fun r => key_eqb (cat r) l) counts));
    [congruence | discriminate].
Qed.

End ShipFacts.

(** ** The ship-method report on [object] columns *)

Lemma most_common_map {A B A' B' : Type} (g : A * B * Z -> A' * B' * Z)
    (group : list (A * B * Z)) :
  (forall r, snd (g r) = snd r) ->
  most_common (map g group) = map g (most_common group).
Proof.
  intros Hg. unfold most_common. cbv zeta.
  rewrite filter_map_swap, map_map.
  rewrite (map_ext (fun x => NInt (snd (g x))) (fun r => NInt (snd r)))
    by (intros r; rewrite Hg; reflexivity).
  f_equal. apply filter_ext. intros r. rewrite Hg. reflexivity.
Qed.


Lemma most_common_groups_text (counts : list (string * string * Z)) :
  most_common_groups (map text_row counts)
  = map (map text_row) (most_common_groups counts).
Proof.
  unfold most_common_groups.
  replace (map (fun r : key * key * Z => (Some (fst (fst r)), r)) (map text_row counts))
    with (map (fun q : option string * (string * string * Z) =>
                 (option_map KStr (fst q), text_row (snd q)))
              (map (fun r : string * string * Z => (Some (fst (fst r)), r)) counts))
    by (rewrite !map_map; reflexivity).
  rewrite (groupby_embed KStr KStr_compare text_row), !map_map. simpl.
  apply map_ext. intros g. apply most_common_map. reflexivity.
Qed.

Lemma insert_by_map {A R K : Type} {O : Ord K} (f : R -> K) (g : A -> R)
    (x : A) (l : list A) :
  insert_by f (g x) (map g l) = map g (insert_by (fun a => f (g a)) x l).
Proof.
  induction l as [|y l IH]; simpl; [reflexivity|].
  destruct (compare (f (g y)) (f (g x))); simpl; try reflexivity.
  rewrite IH. reflexivity.
Qed.

Lemma sort_by_map {A R K : Type} {O : Ord K} (f : R -> K) (g : A -> R)
    (l : list A) :
  sort_by f (map g l) = map g (sort_by (fun a => f (g a)) l).
Proof.
  unfold sort_by. induction l as [|x l IH]; simpl; [reflexivity|].
  rewrite IH. apply insert_by_map.
Qed.

Lemma ship_frame_text (cats ships : list (option string))
    (rows : list (string * string * Z)) :
  rows <> [] ->
  ship_frame (ColObj cats) (ColObj ships) (map text_row rows) = ship_report rows.
Proof.
  intros Hne. unfold ship_frame, ship_report.
  destruct rows as [|r rows]; [congruence|].
  set (rs := r :: rows). rewrite length_map, !map_map. unfold text_row. simpl.
  rewrite <- (map_map (fun r : string * string * Z => fst (fst r)) KStr).
  rewrite <- (map_map (fun r : string * string * Z => snd (fst r)) KStr).
  rewrite !key_objects_text.
  rewrite (map_ext (fun r : string * string * Z => snd r) snd) by reflexivity.
  reflexivity.
Qed.

Lemma occurrences_positive (pairs : list (string * string)) (p : string * string) :
  In p pairs -> (0 < occurrences pairs p)%Z.
Proof.
  intros H. unfold occurrences.
  apply (count_occ_In string_pair_dec) in H. lia.
Qed.

Lemma occurrences_absent (pairs : list (string * string)) (p : string * string) :
  ~ In p pairs -> occurrences pairs p = 0%Z.
Proof.
  intros H. unfold occurrences.
  apply (count_occ_not_In string_pair_dec) in H. rewrite H. reflexivity.
Qed.

(** Lines 62 to 66 on the groups of an [object] frame. *)
Lemma ship_result_text (cats ships : list (option string))
    (groups : list (list (string * string * Z))) :
  ascending fst (concat groups) ->
  (groups <> [] -> concat groups <> []) ->
  match map (map text_row) groups with
  | [] => Ok empty_ship_frame
  | _ => Ok (ship_frame (ColObj cats) (ColObj ships)
               (sort_by fst (concat (map (map text_row) groups))))
  end = Ok (ship_report (concat groups)).
Proof.
  intros Hasc Hne. destruct groups as [|g gs]; [reflexivity|].
  assert (Hne' : concat (g :: gs) <> []) by (apply Hne; discriminate).
  transitivity (Ok (ship_frame (ColObj cats) (ColObj ships)
                      (sort_by fst (concat (map (map text_row) (g :: gs))))));
    [reflexivity|].
  revert Hasc Hne'. generalize (g :: gs). intros G Hasc Hne'.
  rewrite <- concat_map, sort_by_map.
  change (fun a : string * string * Z => fst (text_row a))
    with (fun a : string * string * Z => text_pair (fst a)).
  rewrite (sort_by_embed text_pair text_pair_compare fst).
  rewrite (sort_by_ascending fst _ Hasc).
  rewrite ship_frame_text by exact Hne'. reflexivity.
Qed.

(** C3. On [object] category and ship-mode columns,
    [find_most_common_ship_method] returns, for every category, exactly
    the (category, ship mode, count) rows of the ship modes whose count
    in that category is the largest one: every tied mode is kept, no mode
    with a smaller count appears, and the rows are in ascending order of
    (category, ship mode). *)
Theorem most_common_ship_methods (df : DataFrame)
    (cats ships : list (option string)) :
  well_formed df ->
  lookup "Category" (columns df) = Some (ColObj cats) ->
  lookup "Ship Mode" (columns df) = Some (ColObj ships) ->
  exists rows : list (string * string * Z),
    find_most_common_ship_method df = Ok (ship_report rows)
    /\ ascending fst rows
    /\ forall c s n,
         In (c, s, n) rows
         <-> In (c, s) (present (pair_keys cats ships))
             /\ n = occurrences (present (pair_keys cats ships)) (c, s)
             /\ forall s', (occurrences (present (pair_keys cats ships)) (c, s') <= n)%Z.
Proof.
  intros Hwf Hc Hs.
  set (pairs := present (pair_keys cats ships)).
  set (counts := groupby_size (pair_keys cats ships)).
  exists (concat (most_common_groups counts)).
  assert (Hasc : ascending fst (concat (most_common_groups counts)))
    by (apply concat_groups_ascending, groupby_size_ascending).
  split; [|split; [exact Hasc|]].
  - rewrite (ship_method_with_columns df _ _ Hc Hs).
    destruct (empty df) eqn:He.
    + assert (Hn : nrows df = 0).
      { unfold empty in He. apply orb_true_iff in He. destruct He as [He|He].
        - apply Nat.eqb_eq, He.
        - destruct (columns df); [discriminate Hc | discriminate He]. }
      pose proof (lookup_length _ _ _ Hwf Hc) as Lc. rewrite Hn in Lc.
      destruct cats; [|discriminate Lc]. reflexivity.
    + cbn [column_keys]. rewrite !factorize_text.
      rewrite pair_keys_text, (groupby_size_embed text_pair text_pair_compare).
      fold counts. change (map (fun g => (text_pair (fst g), snd g)) counts)
        with (map text_row counts).
      rewrite most_common_groups_text.
      apply ship_result_text; [exact Hasc | apply most_common_groups_cons].
  - intros c s n. rewrite concat_groups_in. unfold counts. split.
    + intros [Hin Hmax].
      apply (groupby_size_in string_pair_dec) in Hin. fold pairs in Hin.
      destruct Hin as [Hp Hn]. split; [exact Hp|]. split; [exact Hn|].
      intros s'. destruct (in_dec string_pair_dec (c, s') pairs) as [Hin'|Hnot].
      * apply (Hmax (c, s', occurrences pairs (c, s'))).
        -- apply (groupby_size_in string_pair_dec). split; [exact Hin' | reflexivity].
        -- apply key_eqb_refl.
      * rewrite (occurrences_absent _ _ Hnot).
        pose proof (occurrences_positive pairs (c, s) Hp). subst n. simpl in *. lia.
    + intros [Hp [Hn Hmax]]. split.
      * apply (groupby_size_in string_pair_dec). split; [exact Hp | exact Hn].
      * intros [[c' s'] n'] Hin' Heq. simpl in Heq.
        apply key_eqb_exact in Heq. subst c'.
        apply (groupby_size_in string_pair_dec) in Hin'. destruct Hin' as [_ ->].
        simpl. apply Hmax.
Qed.

(** The frame of [test_find_most_common_ship_method]: three ship modes
    tied at one order each for Furniture give three rows. *)
Lemma most_common_ship_methods_witness :
  exists rows : list (string * string * Z),
    find_most_common_ship_method test_data = Ok (ship_report rows)
    /\ ascending fst rows
    /\ forall c s n,
         In (c, s, n) rows
         <-> In (c, s) [("Furniture", "Standard Class"); ("Furniture", "First Class");
                        ("Office Supplies", "Standard Class"); ("Furniture", "Same Day")]
             /\ n = occurrences
                      [("Furniture", "Standard Class"); ("Furniture", "First Class");
                       ("Office Supplies", "Standard Class"); ("Furniture", "Same Day")]
                      (c, s)
             /\ forall s',
                  (occurrences
                     [("Furniture", "Standard Class"); ("Furniture", "First Class");
                      ("Office Supplies", "Standard Class"); ("Furniture", "Same Day")]
                     (c, s') <= n)%Z.
Proof.
  apply (most_common_ship_methods test_data
           [Some "Furniture"; Some "Furniture"; Some "Office Supplies"; Some "Furniture"]
           [Some "Standard Class"; Some "First Class"; Some "Standard Class";
            Some "Same Day"]).
  - apply well_formedb_ok. reflexivity.
  - reflexivity.
  - reflexivity.
Defined.

Example test_find_most_common_ship_method :
  find_most_common_ship_method test_data
  = Ok (ship_report [("Furniture", "First Class", 1); ("Furniture", "Same Day", 1);
                     ("Furniture", "Standard Class", 1);
                     ("Office Supplies", "Standard Class", 1)]%Z).
Proof. vm_compute. reflexivity. Qed.

(** [test_find_most_common_ship_method_multiple_categories_tie]: a mode
    with a smaller count is left out. *)
Example test_find_most_common_ship_method_multiple_categories :
  find_most_common_ship_method
    (mkFrame 7
       [("Category", ColObj (map Some ["Furniture"; "Furniture"; "Furniture";
                                       "Office Supplies"; "Office Supplies";
                                       "Office Supplies"; "Technology"]));
        ("Ship Mode", ColObj (map Some ["Standard Class"; "Standard Class";
                                        "First Class"; "Express"; "Express";
                                        "Ground"; "Ground"]))])
  = Ok (ship_report [("Furniture", "Standard Class", 2);
                     ("Office Supplies", "Express", 2);
                     ("Technology", "Ground", 1)]%Z).
Proof. vm_compute. reflexivity. Qed.

(** ** The largest value of a Series of floats *)

#[export] Instance float_OrdLaws : OrdLaws float.
Proof.
  split; unfold compare, float_Ord.
  - apply float_compare_antisym.
  - apply float_compare_lt_trans.
  - apply float_compare_eq_compat.
Qed.

Lemma float_ltb_compare (a b : float) :
  is_nan a = false -> is_nan b = false ->
  ((a <? b)%float = true <-> float_compare a b = Lt).
Proof.
  intros Ha Hb. unfold float_compare. rewrite Ha, Hb.
  destruct (a <? b)%float; [tauto|].
  destruct (a =? b)%float; split; discriminate.
Qed.

Lemma float_eqb_compare (a b : float) :
  (a =? b)%float = true
  <-> is_nan a = false /\ is_nan b = false /\ float_compare a b = Eq.
Proof.
  rewrite float_compare_spec, !is_nan_spec, FloatAxioms.eqb_spec. unfold SFeqb.
  destruct (Prim2SF a) as [[]|[]| |[] m e], (Prim2SF b) as [[]|[]| |[] m' e'];
    simpl; try (split; [discriminate | intros [? [? ?]]; discriminate]);
    try (split; [auto | reflexivity]);
    destruct (e ?= e')%Z; simpl;
    try (split; [discriminate | intros [? [? ?]]; discriminate]);
    destruct (Pos.compare_cont Eq m m'); simpl;
    first [ split; [auto | reflexivity]
          | split; [discriminate | intros [? [? ?]]; discriminate] ].
Qed.

Lemma float_leb_compare (a b : float) :
  (a <=? b)%float = true
  <-> is_nan a = false /\ is_nan b = false /\ float_compare a b <> Gt.
Proof.
  rewrite float_compare_spec, !is_nan_spec, FloatAxioms.leb_spec. unfold SFleb.
  destruct (Prim2SF a) as [[]|[]| |[] m e], (Prim2SF b) as [[]|[]| |[] m' e'];
    simpl;
    try (split; [discriminate | intros [? [? ?]]; congruence]);
    try (split; [intros _; repeat split; discriminate | reflexivity]);
    destruct (e ?= e')%Z; simpl;
    try (split; [discriminate | intros [? [? ?]]; congruence]);
    try (split; [intros _; repeat split; discriminate | reflexivity]);
    destruct (Pos.compare_cont Eq m m'); simpl;
    first [ split; [intros _; repeat split; discriminate | reflexivity]
          | split; [discriminate | intros [? [? ?]]; congruence] ].
Qed.

Section LeFacts.
Context {K : Type} {O : Ord K} {L : OrdLaws K}.

Lemma compare_le_trans (a b c : K) :
  compare a b <> Gt -> compare b c <> Gt -> compare a c <> Gt.
Proof.
  intros Hab Hbc.
  destruct (compare a b) eqn:E1; [| |congruence].
  - rewrite (compare_eq_compat _ _ _ E1). exact Hbc.
  - destruct (compare b c) eqn:E2; [| |congruence].
    + rewrite <- (compare_eq_compat_r _ _ _ E2), E1. discriminate.
    + rewrite (compare_lt_trans _ _ _ E1 E2). discriminate.
Qed.

Lemma compare_not_lt_ge (a b : K) : compare a b <> Lt -> compare b a <> Gt.
Proof.
  intros H. rewrite (compare_antisym a b).
  destruct (compare a b); simpl; congruence.
Qed.

Lemma compare_le_antisym (a b : K) :
  compare a b <> Gt -> compare b a <> Gt -> compare a b = Eq.
Proof.
  intros H1 H2. rewrite (compare_antisym a b) in H2.
  destruct (compare a b); simpl in *; congruence.
Qed.

End LeFacts.

Lemma fold_max_floats (rest : list float) (x : float) :
  is_nan x = false -> Forall (fun f => is_nan f = false) rest ->
  exists m,
    fold_left (fun m v => if num_ltb m v then v else m) (map NFloat rest) (NFloat x)
    = NFloat m
    /\ (m = x \/ In m rest) /\ is_nan m = false
    /\ float_compare x m <> Gt
    /\ (forall z, In z rest -> float_compare z m <> Gt).
Proof.
  revert x. induction rest as [|y rest IH]; intros x Hx Hall; simpl.
  - exists x. split; [reflexivity|]. split; [now left|]. split; [exact Hx|].
    split; [|intros z []].
    change (compare x x <> Gt). rewrite compare_refl. discriminate.
  - inversion Hall as [|? ? Hy Hrest]; subst.
    destruct (x <? y)%float eqn:Hlt.
    + apply (float_ltb_compare x y Hx Hy) in Hlt.
      destruct (IH y Hy Hrest) as [m [E [Hin [Hm [Hle Hbound]]]]].
      exists m. split; [exact E|]. split; [right; destruct Hin; auto|].
      split; [exact Hm|]. split.
      * apply (compare_le_trans x y m); [|exact Hle].
        change (float_compare x y <> Gt). rewrite Hlt. discriminate.
      * intros z [<-|Hz]; auto.
    + assert (Hge : float_compare y x <> Gt).
      { apply (compare_not_lt_ge x y). change (float_compare x y <> Lt).
        intros H. apply (float_ltb_compare x y Hx Hy) in H. congruence. }
      destruct (IH x Hx Hrest) as [m [E [Hin [Hm [Hle Hbound]]]]].
      exists m. split; [exact E|]. split; [destruct Hin; auto|].
      split; [exact Hm|]. split; [exact Hle|].
      intros z [<-|Hz]; [|auto].
      apply (compare_le_trans y x m); assumption.
Qed.

Lemma filter_nan_floats (fs : list float) :
  filter (fun x => negb (num_is_nan x)) (map NFloat fs)
  = map NFloat (filter (fun f => negb (is_nan f)) fs).
Proof.
  induction fs as [|f fs IH]; simpl; [reflexivity|].
  destruct (is_nan f); simpl; rewrite IH; reflexivity.
Qed.

(** [Series.max()] of floats: NaN when every value is NaN, else a value of
    the Series that is not NaN and that no other such value exceeds. *)
Lemma series_max_floats (fs : list float) :
  (Forall (fun f => is_nan f = true) fs /\ series_max (map NFloat fs) = NFloat nan)
  \/ exists m, series_max (map NFloat fs) = NFloat m
               /\ In m fs /\ is_nan m = false
               /\ forall f, In f fs -> is_nan f = false -> float_compare f m <> Gt.
Proof.
  unfold series_max. rewrite filter_nan_floats.
  destruct (filter (fun f => negb (is_nan f)) fs) as [|x rest] eqn:Ef.
  - left. split; [|reflexivity]. apply Forall_forall. intros f Hf.
    destruct (is_nan f) eqn:En; [reflexivity|].
    assert (H : In f (filter (fun f => negb (is_nan f)) fs))
      by (apply filter_In; rewrite En; auto).
    rewrite Ef in H. destruct H.
  - right. simpl.
    assert (Hin : forall f, In f (x :: rest) <-> In f fs /\ is_nan f = false).
    { intros f. rewrite <- Ef, filter_In, negb_true_iff. reflexivity. }
    assert (Hx : is_nan x = false) by (apply Hin; now left).
    assert (Hrest : Forall (fun f => is_nan f = false) rest).
    { apply Forall_forall. intros f Hf. apply Hin. now right. }
    destruct (fold_max_floats rest x Hx Hrest) as [m [E [Hm [Hnan [Hle Hbound]]]]].
    exists m. split; [exact E|]. split.
    + apply Hin. destruct Hm as [->|Hm]; [now left | now right].
    + split; [exact Hnan|]. intros f Hf Hn.
      destruct (proj2 (Hin f) (conj Hf Hn)) as [<-|Hr]; auto.
Qed.

(** The records at the maximum: those whose total is not NaN and is not
    exceeded by any total that is not NaN. *)
Lemma at_maximum_floats_in {K : Type} (totals : list (K * float)) (r : K) (t : float) :
  In (r, t)
     (filter (fun rt => num_eqb (NFloat (snd rt))
                          (series_max (map (fun rt => NFloat (snd rt)) totals)))
             totals)
  <-> In (r, t) totals /\ is_nan t = false
      /\ forall r' t', In (r', t') totals -> is_nan t' = false ->
                       (t' <=? t)%float = true.
Proof.
  rewrite filter_In. simpl.
  rewrite <- (map_map snd NFloat).
  destruct (series_max_floats (map snd totals)) as [[Hall E]|[m [E [Hm [Hnan Hb]]]]];
    rewrite E; simpl.
  - split; intros [Hin H]; exfalso.
    + apply float_eqb_compare in H. destruct H as [_ [H _]].
      vm_compute in H. discriminate.
    + destruct H as [Hn _]. rewrite Forall_forall in Hall.
      rewrite (Hall t (in_map snd _ _ Hin)) in Hn. discriminate.
  - split; intros [Hin H]; (split; [exact Hin|]).
    + apply float_eqb_compare in H. destruct H as [Ht [_ Heq]].
      split; [exact Ht|]. intros r' t' Hin' Hn'.
      apply float_leb_compare. split; [exact Hn'|]. split; [exact Ht|].
      change (compare t' t <> Gt).
      rewrite (@compare_eq_compat_r float float_Ord _ t' t m Heq).
      apply Hb; [apply (in_map snd _ _ Hin') | exact Hn'].
    + destruct H as [Ht Hmax]. apply float_eqb_compare.
      split; [exact Ht|]. split; [exact Hnan|].
      apply (compare_le_antisym t m).
      * apply Hb; [apply (in_map snd _ _ Hin) | exact Ht].
      * apply in_map_iff in Hm. destruct Hm as [[rm tm] [Hmt Hrm]].
        simpl in Hmt. subst tm.
        specialize (Hmax rm m Hrm Hnan). apply float_leb_compare in Hmax.
        apply Hmax.
Qed.

(** ** The region report on an [object] region column *)

Lemma combine_map_l {A A' B : Type} (f : A -> A') (a : list A) (b : list B) :
  combine (map f a) b = map (fun r => (f (fst r), id (snd r))) (combine a b).
Proof.
  revert b. induction a as [|x a IH]; intros [|y b]; simpl; try reflexivity.
  rewrite IH. reflexivity.
Qed.

Lemma combine_fst {A B : Type} (a : list A) (b : list B) :
  length a = length b -> map fst (combine a b) = a.
Proof.
  revert b. induction a as [|x a IH]; intros [|y b]; simpl; try discriminate;
    [reflexivity|].
  intros H. rewrite IH by lia. reflexivity.
Qed.

Lemma dropna_fst_in {K V : Type} {O : Ord K} (rows : list (option K * V)) (k : K) :
  In k (map fst (dropna rows)) <-> In (Some k) (map fst rows).
Proof.
  rewrite !in_map_iff. split.
  - intros [[k' v] [Hk Hin]]. simpl in Hk. subst k'.
    exists (Some k, v). split; [reflexivity|]. apply (proj1 (dropna_in rows k v)), Hin.
  - intros [[k' v] [Hk Hin]]. simpl in Hk. subst k'.
    exists (k, v). split; [reflexivity|]. apply (proj2 (dropna_in rows k v)), Hin.
Qed.

Lemma members_profits (region : string) (rows : list (option string * float)) :
  members region (dropna rows) = profits_of region rows.
Proof.
  unfold members, dropna, profits_of.
  induction rows as [|[[r|] v] rows IH]; simpl; [reflexivity| |exact IH].
  change (key_eqb r region) with
    (match String.compare r region with Eq => true | _ => false end).
  destruct (String.eqb_spec r region) as [->|Hne].
  - rewrite string_compare_refl. simpl. rewrite IH. reflexivity.
  - destruct (String.compare r region) eqn:E;
      [apply String.compare_eq_iff in E; contradiction | exact IH | exact IH].
Qed.

Section RegionFacts.
Context {P : Pandas}.


Lemma groupby_sum_floats_text (regions : list (option string)) (profits : list float) :
  groupby_sum_floats (map (option_map KStr) regions) profits
  = map text_total (region_totals (combine regions profits)).
Proof.
  unfold groupby_sum_floats, region_totals.
  rewrite combine_map_l, (groupby_embed KStr KStr_compare id), !map_map. simpl.
  apply map_ext. intros g. rewrite map_id. reflexivity.
Qed.

Lemma region_totals_ascending (rows : list (option string * float)) :
  ascending fst (region_totals rows).
Proof.
  apply (ascending_map (fun k => k) fst). unfold region_totals.
  rewrite map_map. simpl.
  rewrite <- (map_map fst (fun k : string => k)), map_id, groupby_labels.
  apply labels_sorted.
Qed.

Lemma region_totals_in (rows : list (option string * float)) (r : string) (t : float) :
  In (r, t) (region_totals rows)
  <-> In (Some r) (map fst rows) /\ t = group_sum (profits_of r rows).
Proof.
  unfold region_totals. rewrite in_map_iff. split.
  - intros [[l vs] [H Hin]]. simpl in H. inversion H; subst.
    apply groupby_in in Hin. destruct Hin as [Hl ->].
    apply (proj1 (labels_exact _ _)) in Hl.
    apply (proj1 (dropna_fst_in _ _)) in Hl.
    rewrite members_profits. auto.
  - intros [Hr ->]. exists (r, profits_of r rows). split; [reflexivity|].
    apply groupby_in. split.
    + apply (proj2 (labels_exact _ _)), (proj2 (dropna_fst_in _ _)), Hr.
    + symmetry. apply members_profits.
Qed.

Lemma at_maximum_text (totals : list (string * float)) :
  ascending fst totals ->
  at_maximum (map text_total totals)
  = map text_total
      (filter (fun rt => num_eqb (NFloat (snd rt))
                           (series_max (map (fun rt => NFloat (snd rt)) totals)))
              totals).
Proof.
  intros Hasc. unfold at_maximum. cbv zeta.
  rewrite !map_map. simpl.
  rewrite filter_map_swap. simpl. rewrite sort_by_map.
  change (fun a : string * float => fst (text_total a))
    with (fun a : string * float => KStr (fst a)).
  rewrite (sort_by_embed KStr KStr_compare fst).
  rewrite sort_by_ascending by (apply ascending_filter, Hasc).
  reflexivity.
Qed.

Lemma region_frame_text (rows : list (string * float)) :
  region_frame (map text_total rows) = region_report rows.
Proof.
  destruct rows as [|r rows]; [reflexivity|].
  unfold region_frame, region_report. set (rs := r :: rows).
  rewrite length_map, !map_map.
  assert (Hk : infer_keys (map (fun x => fst (text_total x)) rs)
               = text_column (map fst rs)).
  { unfold rs. simpl. unfold text_column. simpl. f_equal. f_equal.
    rewrite <- (map_map fst KStr). apply key_objects_text. }
  assert (Hn : infer_nums (map (fun x => snd (text_total x)) rs)
               = ColFloat (map snd rs)).
  { unfold rs. simpl. rewrite map_map. reflexivity. }
  rewrite Hk, Hn. reflexivity.
Qed.

End RegionFacts.

(** ** The compensated sum *)





(** 1e16, 1 and 1 add up to 1e16 + 2; from the left, each 1 would be
    rounded away. *)
Example sum_of_a_large_and_two_small_values :
  kahan_sum [10000000000000000; 1; 1]%float = 10000000000000002%float
  /\ (10000000000000000 + 1 + 1)%float = 10000000000000000%float.
Proof. vm_compute. split; reflexivity. Qed.




(** Without a profit column the selection after [groupby] raises. *)
Example region_report_needs_the_profit :
  @calculate_most_profitable_region plain_pandas test_data
  = Raise (KeyError "Column not found: Profit").
Proof. reflexivity. Qed.

Example test_most_profitable_with_negative_profits :
  @calculate_most_profitable_region plain_pandas negative_profits
  = Ok (region_report [("East", -10); ("South", -10)]%float).
Proof. vm_compute. reflexivity. Qed.

(** [test_calculate_most_profitable_region_multiple_equal_max]: three
    regions tied at 20, South at 10. *)
Example test_most_profitable_region_tie :
  @calculate_most_profitable_region plain_pandas
    (mkFrame 4
       [("Region", ColObj [Some "East"; Some "West"; Some "Central"; Some "South"]);
        ("Profit", ColFloat [20; 20; 20; 10]%float)])
  = Ok (region_report [("Central", 20); ("East", 20); ("West", 20)]%float).
Proof. vm_compute. reflexivity. Qed.

(** ** Rows with a missing key *)


Lemma select_map {A B : Type} (f : A -> B) (mask : list bool) (l : list A) :
  select mask (map f l) = map f (select mask l).
Proof.
  revert l. induction mask as [|b mask IH]; intros [|x l]; simpl; try reflexivity.
  destruct b; simpl; rewrite IH; reflexivity.
Qed.

Lemma column_keys_select (mask : list bool) (c : column) :
  column_keys (select_column mask c) = select mask (column_keys c).
Proof. destruct c; simpl; rewrite select_map; reflexivity. Qed.

Lemma keys_column_select (mask : list bool) (c : column) (ks : list key) :
  keys_column (select_column mask c) ks = keys_column c ks.
Proof. destruct c; reflexivity. Qed.

Lemma select_length {A : Type} (mask : list bool) (l : list A) :
  length mask = length l -> length (select mask l) = length (filter (fun b => b) mask).
Proof.
  revert l. induction mask as [|b mask IH]; intros [|x l]; simpl; try discriminate;
    [reflexivity|].
  intros H. destruct b; simpl; rewrite IH by lia; reflexivity.
Qed.

Lemma select_column_length (mask : list bool) (c : column) :
  length mask = col_length c ->
  col_length (select_column mask c) = length (filter (fun b => b) mask).
Proof. destruct c; simpl; apply select_length. Qed.

Lemma map2_andb_true (l : list bool) (n : nat) :
  length l = n -> map2 andb l (repeat true n) = l.
Proof.
  revert n. induction l as [|b l IH]; intros [|n]; simpl; try discriminate;
    [reflexivity|].
  intros H. rewrite IH by lia. rewrite andb_true_r. reflexivity.
Qed.

Lemma has_key_length (c : column) : length (has_key c) = col_length c.
Proof. unfold has_key. rewrite length_map. apply column_keys_length. Qed.

(** Dropping the rows without key changes nothing for [groupby]. *)
Lemma dropna_select {K V : Type} {O : Ord K} (keys : list (option K)) (xs : list V) :
  dropna (combine (select (map is_some keys) keys) (select (map is_some keys) xs))
  = dropna (combine keys xs).
Proof.
  unfold dropna. revert xs.
  induction keys as [|[k|] keys IH]; intros [|x xs]; simpl; try reflexivity.
  - rewrite IH. reflexivity.
  - destruct (select (map is_some keys) keys); reflexivity.
  - apply IH.
Qed.

Lemma present_pair_select {A B : Type} (a : list (option A)) (b : list (option B)) :
  present (pair_keys (select (map2 andb (map is_some a) (map is_some b)) a)
                     (select (map2 andb (map is_some a) (map is_some b)) b))
  = present (pair_keys a b).
Proof.
  unfold present, pair_keys. revert b.
  induction a as [|[x|] a IH]; intros [|[y|] b]; simpl; try reflexivity;
    rewrite IH; reflexivity.
Qed.

Lemma present_pair_length {A B : Type} (a : list (option A)) (b : list (option B)) :
  length (present (pair_keys a b))
  = length (filter (fun b => b) (map2 andb (map is_some a) (map is_some b))).
Proof.
  unfold present, pair_keys. revert b.
  induction a as [|[x|] a IH]; intros [|[y|] b]; simpl; try reflexivity;
    rewrite IH; reflexivity.
Qed.

Lemma groupby_size_by_present {K : Type} {O : Ord K} {L : OrdLaws K}
    (keys keys' : list (option K)) :
  present keys = present keys' -> groupby_size keys = groupby_size keys'.
Proof. intros H. rewrite !groupby_size_present, H. reflexivity. Qed.

Lemma lookup_map_columns (f : column -> column) (name : string)
    (cols : list (string * column)) :
  lookup name (map (fun nc => (fst nc, f (snd nc))) cols)
  = option_map f (lookup name cols).
Proof.
  induction cols as [|[n c] cols IH]; simpl; [reflexivity|].
  destruct (String.eqb name n); [reflexivity | exact IH].
Qed.

Lemma select_nil {A : Type} (mask : list bool) : select mask (@nil A) = [].
Proof. destruct mask as [|[] mask]; reflexivity. Qed.

Lemma all_keys_one (df : DataFrame) (name : string) (c : column) :
  well_formed df -> lookup name (columns df) = Some c ->
  all_keys df [name] = map is_some (column_keys c).
Proof.
  intros Hwf Hc. unfold all_keys. cbn [fold_right]. rewrite Hc.
  change (map is_some (column_keys c)) with (has_key c).
  apply map2_andb_true. rewrite has_key_length.
  apply (lookup_length df name c Hwf Hc).
Qed.

Lemma all_keys_two (df : DataFrame) (n1 n2 : string) (c1 c2 : column) :
  well_formed df ->
  lookup n1 (columns df) = Some c1 -> lookup n2 (columns df) = Some c2 ->
  all_keys df [n1; n2]
  = map2 andb (map is_some (column_keys c1)) (map is_some (column_keys c2)).
Proof.
  intros Hwf H1 H2. unfold all_keys. cbn [fold_right]. rewrite H1, H2.
  change (map is_some (column_keys c1)) with (has_key c1).
  change (map is_some (column_keys c2)) with (has_key c2).
  f_equal. apply map2_andb_true. rewrite has_key_length.
  apply (lookup_length df n2 c2 Hwf H2).
Qed.

(** *** No group for a missing key *)

Lemma keys_column_complete (c : column) (ks : list key) :
  Forall (from_column c) ks -> column_keys (keys_column c ks) = map Some ks.
Proof.
  intros H. induction H as [|k ks Hk Hks IH]; [destruct c; reflexivity|].
  unfold from_column in Hk.
  destruct c as [xs|xs|xs]; simpl in Hk, IH |- *;
    apply in_map_iff in Hk; destruct Hk as [x [Hx Hin]].
  - inversion Hx; subst. simpl. rewrite IH. reflexivity.
  - destruct (is_nan x) eqn:E; [discriminate|]. inversion Hx; subst.
    simpl. rewrite E, IH. reflexivity.
  - destruct x as [x|]; [|discriminate]. inversion Hx; subst.
    simpl. rewrite IH. reflexivity.
Qed.

Lemma complete_of_keys (c : column) (ks : list key) :
  column_keys c = map Some ks -> complete_column c = true.
Proof.
  intros H. unfold complete_column. rewrite H. apply forallb_forall.
  intros k Hk. apply in_map_iff in Hk. destruct Hk as [x [<- _]]. reflexivity.
Qed.

Lemma infer_keys_from_column (c : column) (ks : list key) :
  Forall (from_column c) ks -> ks <> [] -> infer_keys ks = keys_column c ks.
Proof.
  intros H Hne. destruct ks as [|k ks]; [congruence|].
  inversion H as [|? ? Hk _]; subst. unfold from_column in Hk.
  destruct c as [xs|xs|xs]; simpl in Hk; apply in_map_iff in Hk;
    destruct Hk as [x [Hx _]].
  - inversion Hx; subst. reflexivity.
  - destruct (is_nan x); [discriminate|]. inversion Hx; subst. reflexivity.
  - destruct x as [x|]; [|discriminate]. inversion Hx; subst. reflexivity.
Qed.

Lemma infer_keys_complete (c : column) (ks : list key) :
  Forall (from_column c) ks -> complete_column (infer_keys ks) = true.
Proof.
  intros H. destruct ks as [|k ks]; [reflexivity|].
  rewrite (infer_keys_from_column c) by (assumption || discriminate).
  apply (complete_of_keys _ (k :: ks)), keys_column_complete, H.
Qed.

Lemma present_in {K : Type} (keys : list (option K)) (k : K) :
  In k (present keys) <-> In (Some k) keys.
Proof.
  unfold present. rewrite in_flat_map. split.
  - intros [[x|] [Hin H]]; simpl in H; [|tauto].
    destruct H as [->|[]]. exact Hin.
  - intros H. exists (Some k). split; [exact H | now left].
Qed.

Lemma pair_keys_in {A B : Type} (a : list (option A)) (b : list (option B))
    (x : A) (y : B) :
  In (Some (x, y)) (pair_keys a b) -> In (Some x) a /\ In (Some y) b.
Proof.
  unfold pair_keys. revert b.
  induction a as [|[x0|] a IH]; intros [|[y0|] b]; simpl; try tauto;
    intros [H|H]; try discriminate;
    try (inversion H; subst; auto);
    destruct (IH _ H); auto.
Qed.

Lemma insert_by_in {A K : Type} {O : Ord K} (f : A -> K) (x y : A) (l : list A) :
  In y (insert_by f x l) <-> y = x \/ In y l.
Proof.
  induction l as [|z l IH]; simpl; [intuition|].
  destruct (compare (f z) (f x)); simpl; rewrite ?IH; intuition.
Qed.

Lemma sort_by_in {A K : Type} {O : Ord K} (f : A -> K) (y : A) (l : list A) :
  In y (sort_by f l) <-> In y l.
Proof.
  unfold sort_by. induction l as [|x l IH]; simpl; [tauto|].
  rewrite insert_by_in, IH. intuition.
Qed.

(** The labels of [groupby] are keys of the rows. *)
Lemma groupby_label_in {K V : Type} {O : Ord K} {L : OrdLaws K}
    (keys : list (option K)) (xs : list V) (g : K * list V) :
  In g (groupby (combine keys xs)) -> In (Some (fst g)) keys.
Proof.
  intros H. apply (in_map fst) in H. rewrite groupby_labels in H.
  apply labels_in in H. apply (proj1 (dropna_fst_in _ _)) in H.
  apply in_map_iff in H. destruct H as [[k v] [Hk Hin]]. simpl in Hk. subst k.
  apply (in_combine_l _ _ _ _ Hin).
Qed.

Lemma groupby_size_label_in {K : Type} {O : Ord K} {L : OrdLaws K}
    (keys : list (option K)) (r : K * Z) :
  In r (groupby_size keys) -> In (Some (fst r)) keys.
Proof.
  intros H. apply (in_map fst) in H. rewrite groupby_size_labels in H.
  apply labels_in in H. apply present_in, H.
Qed.

Lemma at_maximum_in {K : Type} {O : Ord K} (region_profits : list (K * num))
    (rp : K * num) :
  In rp (at_maximum region_profits) -> In rp region_profits.
Proof.
  unfold at_maximum. cbv zeta. rewrite sort_by_in, filter_In. tauto.
Qed.

Lemma concat_groups_subset {A B : Type} {OA : Ord A}
    (counts : list (A * B * Z)) (r : A * B * Z) :
  In r (concat (most_common_groups counts)) -> In r counts.
Proof.
  unfold most_common_groups, groupby. rewrite in_concat.
  intros [grp [Hgrp Hr]]. rewrite map_map in Hgrp.
  apply in_map_iff in Hgrp. destruct Hgrp as [l [<- _]]. simpl in Hr.
  unfold most_common in Hr. cbv zeta in Hr. apply filter_In in Hr.
  destruct Hr as [Hr _]. unfold members in Hr.
  apply in_map_iff in Hr. destruct Hr as [[k v] [Hv Hin]]. simpl in Hv. subst v.
  apply filter_In in Hin. destruct Hin as [Hin _].
  unfold dropna in Hin. apply in_flat_map in Hin.
  destruct Hin as [[k' v'] [Hin' Hk]]. apply in_map_iff in Hin'.
  destruct Hin' as [r0 [Hr0 Hin0]]. inversion Hr0; subst.
  simpl in Hk. destruct Hk as [Hk|[]]. inversion Hk; subst. exact Hin0.
Qed.

Lemma pair_rows_from_columns (c1 c2 : column) (rows : list (key * key * Z)) :
  (forall r, In r rows ->
             In (Some (fst r)) (pair_keys (column_keys c1) (column_keys c2))) ->
  Forall (from_column c1) (map (fun r => fst (fst r)) rows)
  /\ Forall (from_column c2) (map (fun r => snd (fst r)) rows).
Proof.
  intros H. split; apply Forall_forall; intros k Hk;
    apply in_map_iff in Hk; destruct Hk as [[[k1 k2] n] [<- Hin]];
    specialize (H _ Hin); simpl in H; apply pair_keys_in in H; apply H.
Qed.

Section MissingKeys.
Context {P : Pandas}.

Lemma lookup_without_missing (names : list string) (df : DataFrame)
    (name : string) (c : column) :
  lookup name (columns df) = Some c ->
  lookup name (columns (without_missing names df))
  = Some (select_column (all_keys df names) c).
Proof.
  intros H. unfold without_missing. cbn [columns].
  rewrite lookup_map_columns, H. reflexivity.
Qed.

Lemma regions_at_maximum_complete (region : column) (region_profits : list (key * num)) :
  (forall rp, In rp region_profits -> from_column region (fst rp)) ->
  complete_fields ["Region"] (regions_at_maximum region_profits) = true.
Proof.
  intros H. unfold complete_fields, regions_at_maximum, region_frame. simpl.
  rewrite (infer_keys_complete region); [reflexivity|].
  apply Forall_forall. intros k Hk. apply in_map_iff in Hk.
  destruct Hk as [rp [<- Hin]]. apply H. apply at_maximum_in in Hin. exact Hin.
Qed.

Lemma region_without_missing (df : DataFrame) (region profit : column) :
  well_formed df ->
  lookup "Region" (columns df) = Some region ->
  lookup "Profit" (columns df) = Some profit ->
  is_numeric profit = true \/ nrows df = 0 ->
  exists report,
    calculate_most_profitable_region df = Ok report
    /\ calculate_most_profitable_region (without_missing ["Region"] df) = Ok report
    /\ complete_fields ["Region"] report = true.
Proof.
  intros Hwf Hr Hp Hnum.
  rewrite (region_with_columns df _ _ Hr Hp).
  rewrite (region_with_columns _ _ _ (lookup_without_missing ["Region"] _ _ _ Hr)
             (lookup_without_missing ["Region"] _ _ _ Hp)).
  rewrite (all_keys_one df "Region" region Hwf Hr).
  destruct profit as [xs|xs|xs]; cbn [select_column].
  - eexists. split; [reflexivity|]. split.
    + unfold groupby_sum_ints, groupby.
      rewrite column_keys_select, dropna_select. reflexivity.
    + apply (regions_at_maximum_complete region). intros rp Hin.
      unfold groupby_sum_ints in Hin. apply in_map_iff in Hin.
      destruct Hin as [g [<- Hg]]. apply (groupby_label_in _ _ _ Hg).
  - eexists. split; [reflexivity|]. split.
    + unfold groupby_sum_floats, groupby.
      rewrite column_keys_select, dropna_select. reflexivity.
    + apply (regions_at_maximum_complete region). intros rp Hin.
      unfold groupby_sum_floats in Hin. apply in_map_iff in Hin.
      destruct Hin as [g [<- Hg]]. apply (groupby_label_in _ _ _ Hg).
  - destruct Hnum as [Hnum|Hn]; [discriminate|].
    pose proof (lookup_length _ _ _ Hwf Hp) as Lp. rewrite Hn in Lp.
    destruct xs; [|discriminate]. rewrite select_nil.
    eexists. split; [reflexivity|]. split; reflexivity.
Qed.

(** The keys of the rows that are kept, on [object] columns. *)
Lemma factorize_select_text (mask : list bool) (xs : list (option string)) :
  factorize (column_keys (select_column mask (ColObj xs)))
  = select mask (column_keys (ColObj xs)).
Proof.
  cbn [select_column column_keys]. rewrite factorize_text. symmetry. apply select_map.
Qed.

Lemma category_without_missing (df : DataFrame) (cats subs : list (option string)) :
  well_formed df ->
  lookup "Category" (columns df) = Some (ColObj cats) ->
  lookup "Sub Category" (columns df) = Some (ColObj subs) ->
  exists report,
    find_number_of_order_per_category df = Ok report
    /\ find_number_of_order_per_category
         (without_missing ["Category"; "Sub Category"] df) = Ok report
    /\ complete_fields ["Category"; "Sub Category"] report = true.
Proof.
  intros Hwf Hc Hs.
  rewrite (category_count_with_columns df _ _ Hc Hs).
  rewrite (category_count_with_columns _ _ _
             (lookup_without_missing ["Category"; "Sub Category"] _ _ _ Hc)
             (lookup_without_missing ["Category"; "Sub Category"] _ _ _ Hs)).
  rewrite (all_keys_two df _ _ _ _ Hwf Hc Hs).
  rewrite !factorize_select_text.
  cbn [column_keys]. rewrite !factorize_text.
  eexists. split; [reflexivity|]. split.
  - unfold category_frame. rewrite !keys_column_select.
    rewrite (groupby_size_by_present _ _ (present_pair_select _ _)).
    reflexivity.
  - destruct (pair_rows_from_columns (ColObj cats) (ColObj subs)
                (groupby_size (pair_keys (column_keys (ColObj cats))
                                         (column_keys (ColObj subs)))))
      as [H1 H2]; [intros r; apply groupby_size_label_in|].
    unfold complete_fields, category_frame. cbn [column_keys] in H1, H2. simpl.
    pose proof (complete_of_keys _ _ (keys_column_complete (ColObj cats) _ H1)) as C1.
    pose proof (complete_of_keys _ _ (keys_column_complete (ColObj subs) _ H2)) as C2.
    simpl in C1, C2. rewrite C1, C2. reflexivity.
Qed.

Lemma ship_frame_complete (cat ship : column) (rows : list (key * key * Z)) :
  (forall r, In r rows ->
             In (Some (fst r)) (pair_keys (column_keys cat) (column_keys ship))) ->
  complete_fields ["Category"; "Ship Mode"] (ship_frame cat ship rows) = true.
Proof.
  intros H. destruct (pair_rows_from_columns cat ship rows H) as [H1 H2].
  unfold complete_fields, ship_frame. simpl.
  rewrite (complete_of_keys _ _ (keys_column_complete cat _ H1)).
  rewrite (complete_of_keys _ _ (keys_column_complete ship _ H2)).
  reflexivity.
Qed.

Lemma ship_without_missing (df : DataFrame) (cats ships : list (option string)) :
  well_formed df ->
  lookup "Category" (columns df) = Some (ColObj cats) ->
  lookup "Ship Mode" (columns df) = Some (ColObj ships) ->
  exists report,
    find_most_common_ship_method df = Ok report
    /\ find_most_common_ship_method
         (without_missing ["Category"; "Ship Mode"] df) = Ok report
    /\ complete_fields ["Category"; "Ship Mode"] report = true.
Proof.
  intros Hwf Hc Hs.
  pose proof (lookup_length _ _ _ Hwf Hc) as Lc.
  assert (Hcols : columns df <> []) by (destruct (columns df); discriminate).
  pose proof (all_keys_two df _ _ _ _ Hwf Hc Hs) as Hmask.
  assert (Hempty' : empty (without_missing ["Category"; "Ship Mode"] df)
                    = Nat.eqb (length (filter (fun b => b)
                                 (all_keys df ["Category"; "Ship Mode"]))) 0).
  { unfold empty, without_missing. cbn [nrows columns].
    destruct (columns df); [congruence|]. cbn [map]. apply orb_false_r. }
  assert (Hempty : empty df = Nat.eqb (nrows df) 0).
  { unfold empty. destruct (columns df); [congruence|]. apply orb_false_r. }
  rewrite (ship_method_with_columns df _ _ Hc Hs).
  rewrite (ship_method_with_columns _ _ _
             (lookup_without_missing ["Category"; "Ship Mode"] _ _ _ Hc)
             (lookup_without_missing ["Category"; "Ship Mode"] _ _ _ Hs)).
  rewrite Hempty', Hempty.
  assert (Hframe : forall rows,
             ship_frame (select_column (all_keys df ["Category"; "Ship Mode"])
                           (ColObj cats))
                        (select_column (all_keys df ["Category"; "Ship Mode"])
                           (ColObj ships)) rows
             = ship_frame (ColObj cats) (ColObj ships) rows).
  { intros rows. unfold ship_frame. rewrite !keys_column_select. reflexivity. }
  rewrite !factorize_select_text, Hframe.
  cbn [column_keys] in *. rewrite !factorize_text.
  rewrite Hmask.
  rewrite (groupby_size_by_present _ _ (present_pair_select _ _)).
  pose proof (present_pair_length (map (option_map KStr) cats)
                (map (option_map KStr) ships)) as Hlen.
  destruct (Nat.eqb (nrows df) 0) eqn:En.
  - apply Nat.eqb_eq in En. simpl in Lc. rewrite En in Lc.
    destruct cats; [|discriminate Lc].
    simpl. eexists. split; [reflexivity|]. split; reflexivity.
  - destruct (Nat.eqb (length (filter (fun b => b)
                (map2 andb (map is_some (map (option_map KStr) cats))
                           (map is_some (map (option_map KStr) ships))))) 0) eqn:Em.
    + apply Nat.eqb_eq in Em. rewrite Em in Hlen.
      assert (Hp : present (pair_keys (map (option_map KStr) cats)
                                      (map (option_map KStr) ships)) = [])
        by (destruct (present _); [reflexivity | discriminate]).
      rewrite (groupby_size_by_present _ [] Hp). simpl.
      eexists. split; [reflexivity|]. split; reflexivity.
    + destruct (most_common_groups _) as [|g gs] eqn:Eg.
      * eexists. split; [reflexivity|]. split; reflexivity.
      * eexists. split; [reflexivity|]. split; [reflexivity|].
        apply ship_frame_complete. intros r Hr.
        apply sort_by_in in Hr. rewrite <- Eg in Hr.
        apply concat_groups_subset in Hr.
        apply groupby_size_label_in in Hr. exact Hr.
Qed.

End MissingKeys.

(** C10. On [object] key columns, in each of the three aggregations the
    rows whose grouping key is missing take no part: the aggregation does
    not raise, its report is the one it gives for the dataset from which
    those rows have been removed (rows without region for the region
    totals, rows without category or ship mode for the ship-mode counts,
    rows without category or sub-category for the category counts), and
    no key column of the report holds a missing value, so that no group
    stands for the missing key. *)
Theorem missing_keys_are_left_out {P : Pandas} (df : DataFrame)
    (regions cats ships subs : list (option string)) :
  well_formed df ->
  lookup "Region" (columns df) = Some (ColObj regions) ->
  lookup "Category" (columns df) = Some (ColObj cats) ->
  lookup "Ship Mode" (columns df) = Some (ColObj ships) ->
  lookup "Sub Category" (columns df) = Some (ColObj subs) ->
  usable df "Profit" = true ->
  (exists report,
     calculate_most_profitable_region df = Ok report
     /\ calculate_most_profitable_region (without_missing ["Region"] df) = Ok report
     /\ complete_fields ["Region"] report = true)
  /\ (exists report,
        find_most_common_ship_method df = Ok report
        /\ find_most_common_ship_method
             (without_missing ["Category"; "Ship Mode"] df) = Ok report
        /\ complete_fields ["Category"; "Ship Mode"] report = true)
  /\ (exists report,
        find_number_of_order_per_category df = Ok report
        /\ find_number_of_order_per_category
             (without_missing ["Category"; "Sub Category"] df) = Ok report
        /\ complete_fields ["Category"; "Sub Category"] report = true).
Proof.
  intros Hwf Er Ec Em Es Hu.
  destruct (usable_lookup _ _ Hu) as [profit [Ep Np]].
  split; [|split].
  - apply (region_without_missing df (ColObj regions) profit); assumption.
  - apply (ship_without_missing df cats ships); assumption.
  - apply (category_without_missing df cats subs); assumption.
Qed.

(** The test frame with an order that has no region and no category and
    an order that has no ship mode and no sub-category: the reports are
    those of the four other orders. *)
Lemma missing_keys_are_left_out_witness :
  (@calculate_most_profitable_region plain_pandas with_missing_keys
   = Ok (region_report [("Central", 803)]%float)
   /\ find_most_common_ship_method with_missing_keys
      = Ok (ship_report [("Furniture", "First Class", 1); ("Furniture", "Same Day", 1);
                         ("Furniture", "Standard Class", 1);
                         ("Office Supplies", "Standard Class", 1)]%Z)
   /\ find_number_of_order_per_category with_missing_keys
      = Ok (category_report
              [("Furniture", "Bookcases", 1); ("Furniture", "Chairs", 1);
               ("Furniture", "Tables", 1); ("Office Supplies", "Labels", 1)]%Z))
  /\ (exists report,
        @calculate_most_profitable_region plain_pandas with_missing_keys = Ok report
        /\ @calculate_most_profitable_region plain_pandas
             (without_missing ["Region"] with_missing_keys) = Ok report
        /\ complete_fields ["Region"] report = true)
  /\ (exists report,
        find_most_common_ship_method with_missing_keys = Ok report
        /\ find_most_common_ship_method
             (without_missing ["Category"; "Ship Mode"] with_missing_keys) = Ok report
        /\ complete_fields ["Category"; "Ship Mode"] report = true)
  /\ (exists report,
        find_number_of_order_per_category with_missing_keys = Ok report
        /\ find_number_of_order_per_category
             (without_missing ["Category"; "Sub Category"] with_missing_keys)
           = Ok report
        /\ complete_fields ["Category"; "Sub Category"] report = true).
Proof.
  split; [vm_compute; repeat split; reflexivity|].
  apply (@missing_keys_are_left_out plain_pandas with_missing_keys
           [Some "West"; Some "West"; Some "Central"; Some "Central"; None; Some "West"]
           [Some "Furniture"; Some "Furniture"; Some "Office Supplies";
            Some "Furniture"; None; Some "Furniture"]
           [Some "Standard Class"; Some "First Class"; Some "Standard Class";
            Some "Same Day"; Some "Same Day"; None]
           [Some "Bookcases"; Some "Chairs"; Some "Labels"; Some "Tables";
            Some "Tables"; None]).
  - apply well_formedb_ok. reflexivity.
  - reflexivity.
  - reflexivity.
  - reflexivity.
  - reflexivity.
  - reflexivity.
Defined.

(** The order of 5000 without region is in no region's total. *)
Example missing_region_is_not_counted :
  @calculate_most_profitable_region plain_pandas with_missing_keys
  = Ok (region_report [("Central", 803)]%float).
Proof. vm_compute. reflexivity. Qed.

Example missing_category_is_not_counted :
  find_number_of_order_per_category with_missing_keys
  = Ok (category_report
          [("Furniture", "Bookcases", 1); ("Furniture", "Chairs", 1);
           ("Furniture", "Tables", 1); ("Office Supplies", "Labels", 1)]%Z).
Proof. vm_compute. reflexivity. Qed.

(* ================================================================== *)
(** * Further properties of the analytics *)

(** ** The profit step, called again *)

Lemma assign_assign (name : string) (c c' : column) (cols : list (string * column)) :
  assign name c (assign name c' cols) = assign name c cols.
Proof.
  induction cols as [|[n c0] rest IH]; simpl.
  - rewrite String.eqb_refl. reflexivity.
  - destruct (String.eqb name n) eqn:E; simpl; rewrite E; [reflexivity|].
    rewrite IH. reflexivity.
Qed.

Lemma profit_column_ignores_profit {P : Pandas} (df : DataFrame) (c : column) :
  profit_column (setitem df "Profit" c) = profit_column df.
Proof.
  unfold profit_column.
  rewrite !getitem_setitem_other by discriminate. reflexivity.
Qed.

(** X1. [calculate_profit_by_order] can be called again on the frame it
    returned: the second call succeeds, returns the same object, and
    leaves every object of the store as the first call left it.  The
    profit column is computed from the four price and quantity columns
    only, so the column assigned the second time is the one already
    there. *)
Theorem profit_twice_is_profit_once {P : Pandas} (h h' : heap) (orders_df r : ref) :
  calculate_profit_by_order orders_df h = (Ok r, h') ->
  exists h'',
    calculate_profit_by_order r h' = (Ok r, h'')
    /\ forall x, h'' x = h' x.
Proof.
  rewrite calculate_profit_unfold.
  destruct (profit_column (h orders_df)) as [p|e] eqn:Hp; [|discriminate].
  intros H. injection H as <- <-.
  rewrite calculate_profit_unfold, update_same, profit_column_ignores_profit, Hp.
  eexists. split; [reflexivity|].
  intros x. unfold setitem. cbn [nrows columns]. rewrite assign_assign.
  destruct (Nat.eq_dec x orders_df) as [->|Hx].
  - rewrite !update_same. reflexivity.
  - rewrite !update_other by exact Hx. reflexivity.
Qed.

Lemma profit_twice_is_profit_once_witness :
  exists h'',
    @calculate_profit_by_order plain_pandas 0
      (snd (@calculate_profit_by_order plain_pandas 0 (heap_of test_data)))
    = (Ok 0, h'')
    /\ forall x,
         h'' x = snd (@calculate_profit_by_order plain_pandas 0 (heap_of test_data)) x.
Proof.
  apply (@profit_twice_is_profit_once plain_pandas (heap_of test_data) _ 0 0).
  vm_compute. reflexivity.
Defined.

(** ** The dtype of the profit *)

(** X2. When the four columns it reads are numeric,
    [calculate_profit_by_order] succeeds and the profit column is of
    dtype float64, also when every one of them holds integers: the
    discount is divided by 100 with true division. *)
Theorem profit_is_float64 {P : Pandas} (h : heap) (orders_df : ref) :
  numeric_fields (h orders_df) required_fields = true ->
  exists xs h',
    calculate_profit_by_order orders_df h = (Ok orders_df, h')
    /\ lookup "Profit" (columns (h' orders_df)) = Some (ColFloat xs).
Proof.
  intros H. destruct (profit_column_float _ H) as [xs Hxs].
  rewrite calculate_profit_unfold, Hxs. exists xs. eexists. split; [reflexivity|].
  rewrite update_same. apply lookup_assign_same.
Qed.

Lemma profit_is_float64_witness :
  exists xs h',
    @calculate_profit_by_order plain_pandas 0 (heap_of integer_orders) = (Ok 0, h')
    /\ lookup "Profit" (columns (h' 0)) = Some (ColFloat xs).
Proof.
  apply (@profit_is_float64 plain_pandas (heap_of integer_orders) 0). reflexivity.
Defined.

(** ** The orchestrator, step by step *)

Section OrchestratorFacts.
Context {P : Pandas}.

(** The orchestrator step by step: the profit step on the caller's
    frame, then the three aggregations on the frame as the profit step
    left it. *)
Lemma generate_reports_unfold (orders_df : ref) (h : heap) :
  generate_analytics_reports orders_df h =
  match profit_column (h orders_df) with
  | Raise e => (Raise e, h)
  | Ok profit =>
      let df := setitem (h orders_df) "Profit" profit in
      let h' := update h orders_df df in
      match calculate_most_profitable_region df with
      | Raise e => (Raise e, h')
      | Ok region_profits =>
          match find_most_common_ship_method df with
          | Raise e => (Raise e, h')
          | Ok ship_methods =>
              match find_number_of_order_per_category df with
              | Raise e => (Raise e, h')
              | Ok category_counts =>
                  (Ok (mkReports orders_df region_profits ship_methods
                         category_counts), h')
              end
          end
      end
  end.
Proof.
  unfold generate_analytics_reports, bind. rewrite calculate_profit_unfold.
  destruct (profit_column (h orders_df)) as [p|e]; [|reflexivity].
  cbv zeta. unfold call, ret. rewrite update_same.
  destruct (calculate_most_profitable_region _); [|reflexivity].
  destruct (find_most_common_ship_method _); [|reflexivity].
  destruct (find_number_of_order_per_category _); reflexivity.
Qed.

(** With a region column, the region report of a frame whose profit was
    just computed never raises. *)
Lemma region_step_ok (df : DataFrame) (region profit : column) :
  well_formed df -> has_required_fields df = true ->
  lookup "Region" (columns df) = Some region ->
  profit_column df = Ok profit ->
  exists report,
    calculate_most_profitable_region (setitem df "Profit" profit) = Ok report.
Proof.
  intros Hwf Hreq Hr Hp.
  destruct (profit_column_ok df Hwf Hreq) as [p [Hp' [Hlen Hnum]]].
  rewrite Hp in Hp'. injection Hp' as <-.
  unfold calculate_most_profitable_region, getitem, groupby_getitem, setitem.
  cbn [columns].
  rewrite lookup_assign_other by discriminate. rewrite Hr, lookup_assign_same.
  cbn [rbind]. destruct profit as [xs|xs|xs]; try (eexists; reflexivity).
  destruct Hnum as [Hnum|Hn]; [discriminate Hnum|].
  simpl in Hlen. rewrite Hn in Hlen. destruct xs; [|discriminate Hlen].
  eexists; reflexivity.
Qed.

Lemma any_required_field_missing (df : DataFrame) (name : string) :
  In name required_fields -> lookup name (columns df) = None ->
  exists e, profit_column df = Raise e
            /\ (lookup "List Price" (columns df) = None -> e = KeyError "List Price").
Proof.
  intros Hin Hnone. unfold profit_column, getitem.
  destruct (lookup "List Price" (columns df)) as [lp|] eqn:Hlp;
    [|eexists; split; [reflexivity | reflexivity]].
  destruct (lookup "Quantity" (columns df)) as [q|] eqn:Hq;
    [|eexists; split; [reflexivity | intros H; discriminate H]].
  cbn [rbind].
  destruct (series_op Mul lp q) as [gross|e];
    [|eexists; split; [reflexivity | intros H; discriminate H]].
  cbn [rbind].
  destruct (lookup "Discount Percent" (columns df)) as [d|] eqn:Hd;
    [|eexists; split; [reflexivity | intros H; discriminate H]].
  cbn [rbind].
  destruct (series_op_scalar TrueDiv d 100) as [fraction|e];
    [|eexists; split; [reflexivity | intros H; discriminate H]].
  cbn [rbind].
  destruct (scalar_op_series Sub 1 fraction) as [kept|e];
    [|eexists; split; [reflexivity | intros H; discriminate H]].
  cbn [rbind].
  destruct (series_op Mul gross kept) as [revenue|e];
    [|eexists; split; [reflexivity | intros H; discriminate H]].
  cbn [rbind].
  destruct (lookup "cost price" (columns df)) as [cp|] eqn:Hcp;
    [|eexists; split; [reflexivity | intros H; discriminate H]].
  exfalso. simpl in Hin.
  destruct Hin as [<-|[<-|[<-|[<-|[]]]]]; congruence.
Qed.

End OrchestratorFacts.

(** X3. [generate_analytics_reports] starts with the profit step: when one
    of the four columns that step reads is missing, the call raises
    before any report is computed and the caller's frame is left as it
    was; a missing list price is reported as [KeyError('List Price')]. *)
Theorem reports_need_the_profit_fields {P : Pandas} (h : heap) (orders_df : ref)
    (name : string) :
  In name required_fields ->
  lookup name (columns (h orders_df)) = None ->
  exists e,
    generate_analytics_reports orders_df h = (Raise e, h)
    /\ (lookup "List Price" (columns (h orders_df)) = None ->
        e = KeyError "List Price").
Proof.
  intros Hin Hnone.
  destruct (any_required_field_missing _ _ Hin Hnone) as [e [He Hlp]].
  exists e. split; [|exact Hlp].
  rewrite generate_reports_unfold, He. reflexivity.
Qed.

Lemma reports_need_the_profit_fields_witness :
  exists e,
    @generate_analytics_reports plain_pandas 0 (heap_of incomplete_data)
    = (Raise e, heap_of incomplete_data)
    /\ (lookup "List Price" (columns incomplete_data) = None ->
        e = KeyError "List Price").
Proof.
  apply (@reports_need_the_profit_fields plain_pandas (heap_of incomplete_data) 0
           "cost price").
  - simpl. auto.
  - reflexivity.
Defined.

(** X4. [generate_analytics_reports] is not all-or-nothing.  On a frame
    with usable price and quantity columns the call raises [KeyError],
    after the caller's frame has received its profit column, when the
    region column is missing, when the frame has rows and lacks the
    category or the ship mode column, and when it has not exactly two
    rows and lacks the category or the sub-category column.  The
    exception names the region when that is missing; on a frame of two
    rows that has the region it names the category, whichever key column
    is missing; on any other frame it names a column that is missing. *)
Theorem reports_fail_after_the_profit_is_assigned {P : Pandas}
    (h : heap) (orders_df : ref) :
  well_formed (h orders_df) ->
  has_required_fields (h orders_df) = true ->
  lookup "Region" (columns (h orders_df)) = None
  \/ (nrows (h orders_df) <> 0
      /\ has_fields (h orders_df) ["Category"; "Ship Mode"] = false)
  \/ (nrows (h orders_df) <> 2
      /\ has_fields (h orders_df) ["Category"; "Sub Category"] = false) ->
  exists name profit h',
    generate_analytics_reports orders_df h = (Raise (KeyError name), h')
    /\ In name ["Region"; "Category"; "Ship Mode"; "Sub Category"]
    /\ (lookup "Region" (columns (h orders_df)) = None -> name = "Region")
    /\ (lookup "Region" (columns (h orders_df)) <> None ->
        nrows (h orders_df) = 2 -> name = "Category")
    /\ (nrows (h orders_df) <> 2 -> lookup name (columns (h orders_df)) = None)
    /\ h' orders_df = setitem (h orders_df) "Profit" profit
    /\ forall r, r <> orders_df -> h' r = h r.
Proof.
  intros Hwf Hreq Hmiss.
  destruct (profit_column_ok _ Hwf Hreq) as [p [Hp _]].
  pose proof (profit_column_has_columns _ _ Hp) as Hcols.
  rewrite generate_reports_unfold, Hp. cbv zeta.
  set (df := h orders_df) in *.
  assert (Hstore : update h orders_df (setitem df "Profit" p) orders_df
                   = setitem df "Profit" p
                   /\ forall r, r <> orders_df ->
                        update h orders_df (setitem df "Profit" p) r = h r).
  { split; [apply update_same | intros r Hr; apply update_other, Hr]. }
  destruct (lookup "Region" (columns df)) as [region|] eqn:Hr.
  - destruct (region_step_ok df region p Hwf Hreq Hr Hp) as [report ->].
    rewrite (ship_method_ignores_profit df p Hcols),
      (category_count_ignores_profit df p).
    unfold find_most_common_ship_method, find_number_of_order_per_category,
      keys_as_labels, has_fields, getitem in *.
    cbn [length forallb] in *.
    assert (He : empty df = Nat.eqb (nrows df) 0).
    { unfold empty. destruct (columns df); [contradiction|]. apply orb_false_r. }
    rewrite He.
    destruct (Nat.eqb 2 (nrows df)) eqn:E2;
      [apply Nat.eqb_eq in E2 | apply Nat.eqb_neq in E2];
      (destruct (Nat.eqb (nrows df) 0) eqn:E0;
       [apply Nat.eqb_eq in E0 | apply Nat.eqb_neq in E0]);
      try (exfalso; lia);
      destruct (lookup "Category" (columns df)) as [cat|] eqn:Hc;
      destruct (lookup "Ship Mode" (columns df)) as [ship|] eqn:Hs;
      destruct (lookup "Sub Category" (columns df)) as [sub|] eqn:Hb;
      cbn [andb negb rbind] in *;
      try (exfalso; destruct Hmiss as [H|[[Hn H]|[Hn H]]];
           first [discriminate H | apply Hn; lia]);
      try (destruct (most_common_groups _));
      match goal with
      | |- context [Raise (KeyError ?name)] =>
          exists name, p; eexists; split; [reflexivity|];
          split; [simpl; auto|];
          split; [intros H; discriminate H|];
          split; [first [reflexivity | intros _ H2; exfalso; lia]|];
          split; [first [intros _; assumption | intros H2; exfalso; lia]|];
          exact Hstore
      end.
  - unfold calculate_most_profitable_region at 1, getitem, setitem.
    cbn [columns]. rewrite lookup_assign_other by discriminate.
    fold df. rewrite Hr. cbn [rbind].
    exists "Region", p. eexists. split; [reflexivity|].
    split; [simpl; auto|]. split; [reflexivity|].
    split; [intros H; contradiction H; reflexivity|].
    split; [intros _; exact Hr|].
    exact Hstore.
Qed.

(** Two orders without ship mode: the exception names the category, which
    the frame has. *)
Lemma reports_fail_after_the_profit_is_assigned_witness :
  (fst (@generate_analytics_reports plain_pandas 0 (heap_of two_orders_without_ship_mode))
   = Raise (KeyError "Category")
   /\ lookup "Category" (columns two_orders_without_ship_mode) <> None)
  /\ exists name profit h',
       @generate_analytics_reports plain_pandas 0 (heap_of two_orders_without_ship_mode)
       = (Raise (KeyError name), h')
       /\ In name ["Region"; "Category"; "Ship Mode"; "Sub Category"]
       /\ (lookup "Region" (columns two_orders_without_ship_mode) = None ->
           name = "Region")
       /\ (lookup "Region" (columns two_orders_without_ship_mode) <> None ->
           nrows two_orders_without_ship_mode = 2 -> name = "Category")
       /\ (nrows two_orders_without_ship_mode <> 2 ->
           lookup name (columns two_orders_without_ship_mode) = None)
       /\ h' 0 = setitem two_orders_without_ship_mode "Profit" profit
       /\ forall r, r <> 0 -> h' r = two_orders_without_ship_mode.
Proof.
  split; [split; [vm_compute; reflexivity | discriminate]|].
  apply (@reports_fail_after_the_profit_is_assigned plain_pandas
           (heap_of two_orders_without_ship_mode) 0).
  - apply well_formedb_ok. reflexivity.
  - reflexivity.
  - right. left. split; [discriminate | reflexivity].
Defined.

(** The test frame without its region column: the region is named. *)
Example test_data_without_region :
  fst (@generate_analytics_reports plain_pandas 0 (heap_of without_region))
  = Raise (KeyError "Region").
Proof. vm_compute. reflexivity. Qed.

(** X24. A frame of exactly two rows that lacks the sub-category column
    raises nothing: with usable price and quantity columns and with the
    region, category and ship mode columns, [generate_analytics_reports]
    returns its four reports, and the report of orders by category has
    the columns [index] and [order_count] and the two rows
    (Category, 1) and (Sub Category, 1): pandas has taken the two names
    for the labels of the two rows. *)
Theorem two_rows_need_no_sub_category {P : Pandas} (h : heap) (orders_df : ref) :
  well_formed (h orders_df) ->
  has_required_fields (h orders_df) = true ->
  has_fields (h orders_df) ["Region"; "Category"; "Ship Mode"] = true ->
  lookup "Sub Category" (columns (h orders_df)) = None ->
  nrows (h orders_df) = 2 ->
  exists rs h',
    generate_analytics_reports orders_df h = (Ok rs, h')
    /\ orders_by_category rs
       = mkFrame 2 [("index", ColObj [Some "Category"; Some "Sub Category"]);
                    ("order_count", ColInt [1; 1]%Z)].
Proof.
  intros Hwf Hreq Hfields Hsub Hrows.
  destruct (profit_column_ok _ Hwf Hreq) as [p [Hp _]].
  pose proof (profit_column_has_columns _ _ Hp) as Hcols.
  destruct (has_fields_lookup _ _ "Region" Hfields) as [region Hr]; [simpl; auto|].
  destruct (has_fields_lookup _ _ "Category" Hfields) as [cat Hc]; [simpl; auto|].
  destruct (has_fields_lookup _ _ "Ship Mode" Hfields) as [ship Hs]; [simpl; auto|].
  destruct (region_step_ok _ region p Hwf Hreq Hr Hp) as [report Hreport].
  rewrite generate_reports_unfold, Hp. cbv zeta. rewrite Hreport.
  rewrite (ship_method_ignores_profit _ p Hcols),
    (category_count_ignores_profit _ p).
  rewrite (ship_method_with_columns _ _ _ Hc Hs).
  unfold find_number_of_order_per_category, keys_as_labels, has_fields.
  cbn [length forallb]. rewrite Hrows, Hc, Hsub. cbn [Nat.eqb andb negb].
  destruct (empty (h orders_df)); [eexists; eexists; split; reflexivity|].
  destruct (most_common_groups _); eexists; eexists; split; reflexivity.
Qed.

Lemma two_rows_need_no_sub_category_witness :
  exists rs h',
    @generate_analytics_reports plain_pandas 0 (heap_of two_orders_without_sub_category)
    = (Ok rs, h')
    /\ orders_by_category rs
       = mkFrame 2 [("index", ColObj [Some "Category"; Some "Sub Category"]);
                    ("order_count", ColInt [1; 1]%Z)].
Proof.
  apply (@two_rows_need_no_sub_category plain_pandas
           (heap_of two_orders_without_sub_category) 0).
  - apply well_formedb_ok. reflexivity.
  - reflexivity.
  - reflexivity.
  - reflexivity.
  - reflexivity.
Defined.

(** X5. On a well-formed frame with usable price and quantity columns,
    the region, category and sub-category columns, and the ship mode
    column unless it has no rows, [generate_analytics_reports] returns:
    the entry [orders_with_profit] is the caller's own frame, which now
    has the profit column (no other object changes), the region report is
    the one of that frame, and the ship-method and category reports are
    those of the frame as it was passed. *)
Theorem reports_of_a_complete_dataset {P : Pandas} (h : heap) (orders_df : ref) :
  well_formed (h orders_df) ->
  has_required_fields (h orders_df) = true ->
  has_fields (h orders_df) ["Region"; "Category"; "Sub Category"] = true ->
  nrows (h orders_df) = 0 \/ has_fields (h orders_df) ["Ship Mode"] = true ->
  exists profit rs h',
    generate_analytics_reports orders_df h = (Ok rs, h')
    /\ orders_with_profit rs = orders_df
    /\ h' orders_df = setitem (h orders_df) "Profit" profit
    /\ (forall r, r <> orders_df -> h' r = h r)
    /\ calculate_most_profitable_region (h' orders_df)
       = Ok (most_profitable_region rs)
    /\ find_most_common_ship_method (h orders_df)
       = Ok (most_common_ship_method rs)
    /\ find_number_of_order_per_category (h orders_df)
       = Ok (orders_by_category rs).
Proof.
  intros Hwf Hreq Hfields Hmode.
  destruct (profit_column_ok _ Hwf Hreq) as [p [Hp _]].
  pose proof (profit_column_has_columns _ _ Hp) as Hcols.
  destruct (has_fields_lookup _ _ "Region" Hfields) as [region Hr]; [simpl; auto|].
  destruct (has_fields_lookup _ _ "Category" Hfields) as [cat Hc]; [simpl; auto|].
  destruct (has_fields_lookup _ _ "Sub Category" Hfields) as [sub Hb]; [simpl; auto|].
  destruct (region_step_ok _ region p Hwf Hreq Hr Hp) as [report Hreport].
  rewrite generate_reports_unfold, Hp. cbv zeta. rewrite Hreport.
  rewrite (ship_method_ignores_profit _ p Hcols),
    (category_count_ignores_profit _ p).
  assert (Hship : exists r, find_most_common_ship_method (h orders_df) = Ok r).
  { destruct (empty (h orders_df)) eqn:He.
    - unfold find_most_common_ship_method. rewrite He. eexists; reflexivity.
    - destruct Hmode as [Hzero|Hmode].
      + unfold empty in He. rewrite Hzero in He. discriminate He.
      + destruct (has_fields_lookup _ _ "Ship Mode" Hmode) as [ship Hs];
          [simpl; auto|].
        rewrite (ship_method_with_columns _ _ _ Hc Hs), He.
        destruct (most_common_groups _); eexists; reflexivity. }
  assert (Hcat : exists r, find_number_of_order_per_category (h orders_df) = Ok r).
  { rewrite (category_count_with_columns _ _ _ Hc Hb). eexists; reflexivity. }
  destruct Hship as [sm ->]. destruct Hcat as [cc ->].
  exists p. eexists. eexists. split; [reflexivity|]. cbn [orders_with_profit
    most_profitable_region most_common_ship_method orders_by_category].
  rewrite update_same.
  repeat split; try assumption; try reflexivity.
  intros r Hne. apply update_other, Hne.
Qed.

Lemma reports_of_a_complete_dataset_witness :
  exists profit rs h',
    @generate_analytics_reports plain_pandas 0 (heap_of test_data) = (Ok rs, h')
    /\ orders_with_profit rs = 0
    /\ h' 0 = setitem test_data "Profit" profit
    /\ (forall r, r <> 0 -> h' r = test_data)
    /\ @calculate_most_profitable_region plain_pandas (h' 0)
       = Ok (most_profitable_region rs)
    /\ find_most_common_ship_method test_data = Ok (most_common_ship_method rs)
    /\ find_number_of_order_per_category test_data = Ok (orders_by_category rs).
Proof.
  apply (@reports_of_a_complete_dataset plain_pandas (heap_of test_data) 0).
  - exact test_data_well_formed.
  - reflexivity.
  - reflexivity.
  - right. reflexivity.
Defined.

(** ** The columns that are read *)

Lemma getitem_same (df df' : DataFrame) (name : string) :
  lookup name (columns df) = lookup name (columns df') ->
  getitem df name = getitem df' name.
Proof. intros H. unfold getitem. rewrite H. reflexivity. Qed.

Lemma getitem_setitem_same (df : DataFrame) (name : string) (c : column) :
  getitem (setitem df name c) name = Ok c.
Proof.
  unfold getitem, setitem. cbn [columns]. rewrite lookup_assign_same. reflexivity.
Qed.

(** X6. [generate_analytics_reports] reads eight columns and the number of
    rows, nothing else: two frames that agree on these give the same
    reports, or raise the same exception, whatever other columns they
    have and in whatever order their columns are. *)
Theorem other_columns_are_not_read {P : Pandas} (df df' : DataFrame) (r : ref) :
  nrows df = nrows df' ->
  (forall name, In name columns_read ->
                lookup name (columns df) = lookup name (columns df')) ->
  fst (generate_analytics_reports r (heap_of df))
  = fst (generate_analytics_reports r (heap_of df')).
Proof.
  intros Hrows Hsame.
  assert (Hget : forall name, In name columns_read -> getitem df name = getitem df' name)
    by (intros name Hin; apply getitem_same, Hsame, Hin).
  assert (Hprofit : profit_column df = profit_column df').
  { unfold profit_column.
    rewrite !(Hget "List Price"), !(Hget "Quantity"), !(Hget "Discount Percent"),
      !(Hget "cost price") by (simpl; auto 10).
    reflexivity. }
  rewrite !generate_reports_unfold. unfold heap_of.
  destruct (profit_column df) as [p|e] eqn:Hp; rewrite <- Hprofit;
    [|reflexivity].
  pose proof (profit_column_has_columns _ _ Hp) as Hcols.
  assert (Hp' : profit_column df' = Ok p) by (symmetry; exact Hprofit).
  pose proof (profit_column_has_columns _ _ Hp') as Hcols'.
  cbv zeta.
  assert (Hregion : calculate_most_profitable_region (setitem df "Profit" p)
                    = calculate_most_profitable_region (setitem df' "Profit" p)).
  { unfold calculate_most_profitable_region, groupby_getitem, setitem.
    cbn [columns]. rewrite !lookup_assign_same.
    fold (setitem df "Profit" p). fold (setitem df' "Profit" p).
    rewrite !getitem_setitem_other by discriminate.
    rewrite (Hget "Region") by (simpl; auto 10). reflexivity. }
  assert (Hship : find_most_common_ship_method (setitem df "Profit" p)
                  = find_most_common_ship_method (setitem df' "Profit" p)).
  { rewrite !ship_method_ignores_profit by assumption.
    unfold find_most_common_ship_method, empty, keys_as_labels, has_fields.
    cbn [forallb]. rewrite Hrows.
    rewrite (Hget "Category"), (Hget "Ship Mode") by (simpl; auto 10).
    rewrite (Hsame "Category"), (Hsame "Ship Mode") by (simpl; auto 10).
    destruct (columns df) eqn:Ecols; [contradiction|].
    destruct (columns df') eqn:Ecols'; [contradiction|]. reflexivity. }
  assert (Hcat : find_number_of_order_per_category (setitem df "Profit" p)
                 = find_number_of_order_per_category (setitem df' "Profit" p)).
  { rewrite !category_count_ignores_profit.
    unfold find_number_of_order_per_category, keys_as_labels, has_fields.
    cbn [forallb]. rewrite Hrows.
    rewrite (Hget "Category"), (Hget "Sub Category") by (simpl; auto 10).
    rewrite (Hsame "Category"), (Hsame "Sub Category") by (simpl; auto 10).
    reflexivity. }
  rewrite Hregion, Hship, Hcat.
  destruct (calculate_most_profitable_region (setitem df' "Profit" p));
    [|reflexivity].
  destruct (find_most_common_ship_method (setitem df' "Profit" p));
    [|reflexivity].
  destruct (find_number_of_order_per_category (setitem df' "Profit" p));
    reflexivity.
Qed.

Lemma other_columns_are_not_read_witness :
  fst (@generate_analytics_reports plain_pandas 0 (heap_of test_data))
  = fst (@generate_analytics_reports plain_pandas 0 (heap_of test_data_with_ids)).
Proof.
  apply (@other_columns_are_not_read plain_pandas test_data test_data_with_ids 0).
  - reflexivity.
  - intros name Hin. simpl in Hin.
    repeat (destruct Hin as [<-|Hin]; [reflexivity|]). contradiction.
Defined.

(** ** The reports on [object] key columns, row by row *)

Lemma category_counts_text (df : DataFrame) (cats subs : list (option string)) :
  lookup "Category" (columns df) = Some (ColObj cats) ->
  lookup "Sub Category" (columns df) = Some (ColObj subs) ->
  find_number_of_order_per_category df
  = Ok (category_report (category_rows cats subs)).
Proof.
  intros Hc Hs. rewrite (category_count_with_columns df _ _ Hc Hs).
  cbn [column_keys]. rewrite !factorize_text.
  rewrite pair_keys_text, (groupby_size_embed text_pair text_pair_compare).
  rewrite category_frame_text. reflexivity.
Qed.

Lemma ship_methods_text (df : DataFrame) (cats ships : list (option string)) :
  well_formed df ->
  lookup "Category" (columns df) = Some (ColObj cats) ->
  lookup "Ship Mode" (columns df) = Some (ColObj ships) ->
  find_most_common_ship_method df = Ok (ship_report (ship_rows cats ships)).
Proof.
  intros Hwf Hc Hs. unfold ship_rows.
  set (counts := groupby_size (pair_keys cats ships)).
  assert (Hasc : ascending fst (concat (most_common_groups counts)))
    by (apply concat_groups_ascending, groupby_size_ascending).
  rewrite (ship_method_with_columns df _ _ Hc Hs).
  destruct (empty df) eqn:He.
  - assert (Hn : nrows df = 0).
    { unfold empty in He. apply orb_true_iff in He. destruct He as [He|He].
      - apply Nat.eqb_eq, He.
      - destruct (columns df); [discriminate Hc | discriminate He]. }
    pose proof (lookup_length _ _ _ Hwf Hc) as Lc. rewrite Hn in Lc.
    destruct cats; [|discriminate Lc]. reflexivity.
  - cbn [column_keys]. rewrite !factorize_text.
    rewrite pair_keys_text, (groupby_size_embed text_pair text_pair_compare).
    fold counts. change (map (fun g => (text_pair (fst g), snd g)) counts)
      with (map text_row counts).
    rewrite most_common_groups_text.
    apply ship_result_text; [exact Hasc | apply most_common_groups_cons].
Qed.

Lemma region_profits_text {P : Pandas} (df : DataFrame)
    (regions : list (option string)) (profits : list float) :
  lookup "Region" (columns df) = Some (ColObj regions) ->
  lookup "Profit" (columns df) = Some (ColFloat profits) ->
  calculate_most_profitable_region df
  = Ok (region_report (region_rows regions profits)).
Proof.
  intros Hr Hp. rewrite (region_with_columns df _ _ Hr Hp).
  cbn [column_keys]. unfold regions_at_maximum.
  rewrite groupby_sum_floats_text.
  rewrite (at_maximum_text _ (region_totals_ascending _)), region_frame_text.
  reflexivity.
Qed.

(** ** Totals that are NaN *)

Lemma float_leb_antisym (a b : float) :
  (a <=? b)%float = true -> (b <=? a)%float = true -> (a =? b)%float = true.
Proof.
  intros Hab Hba. apply float_leb_compare in Hab. apply float_leb_compare in Hba.
  destruct Hab as [Ha [Hb Hab]]. destruct Hba as [_ [_ Hba]].
  apply float_eqb_compare. repeat split; try assumption.
  apply (@compare_le_antisym float float_Ord _ a b Hab Hba).
Qed.

(** X7. The report of [calculate_most_profitable_region] on a float64
    profit column has no row exactly when the total of every region is
    NaN (in particular when no row has a region), and the totals of any
    two rows it returns are equal as floats. *)
Theorem regions_without_a_total {P : Pandas} (df : DataFrame)
    (regions : list (option string)) (profits : list float) :
  well_formed df ->
  lookup "Region" (columns df) = Some (ColObj regions) ->
  lookup "Profit" (columns df) = Some (ColFloat profits) ->
  exists rows : list (string * float),
    calculate_most_profitable_region df = Ok (region_report rows)
    /\ (rows = [] <->
        forall r, In (Some r) regions ->
                  is_nan (group_sum (profits_of r (combine regions profits))) = true)
    /\ forall r t r' t',
         In (r, t) rows -> In (r', t') rows -> (t =? t')%float = true.
Proof.
  intros Hwf Hr Hp.
  assert (Hlen : length regions = length profits).
  { pose proof (lookup_length _ _ _ Hwf Hr) as H1.
    pose proof (lookup_length _ _ _ Hwf Hp) as H2. simpl in *. congruence. }
  exists (region_rows regions profits).
  split; [apply region_profits_text; assumption|].
  unfold region_rows. cbv zeta.
  set (totals := region_totals (combine regions profits)).
  assert (Htot : forall r t,
             In (r, t) totals
             <-> In (Some r) regions
                 /\ t = group_sum (profits_of r (combine regions profits))).
  { intros r t. unfold totals. rewrite region_totals_in.
    rewrite combine_fst by exact Hlen. reflexivity. }
  split.
  - split.
    + intros Hnil r Hin.
      destruct (is_nan (group_sum (profits_of r (combine regions profits))))
        eqn:Hnan; [reflexivity|]. exfalso.
      destruct (series_max_floats (map snd totals))
        as [[Hall _]|[m [Hm [Hin' [Hn Hmax]]]]].
      * rewrite Forall_forall in Hall.
        rewrite (Hall (group_sum (profits_of r (combine regions profits)))) in Hnan;
          [discriminate Hnan|].
        apply in_map_iff. exists (r, group_sum (profits_of r (combine regions profits))).
        split; [reflexivity|]. apply Htot. split; [exact Hin | reflexivity].
      * apply in_map_iff in Hin'. destruct Hin' as [[rm tm] [E Hin']].
        simpl in E. subst tm.
        assert (Hrow : In (rm, m)
                         (filter (fun rt => num_eqb (NFloat (snd rt))
                                    (series_max (map (fun rt => NFloat (snd rt)) totals)))
                                 totals)).
        { apply at_maximum_floats_in. split; [exact Hin'|]. split; [exact Hn|].
          intros r' t' Hr' Hn'. apply float_leb_compare.
          split; [exact Hn'|]. split; [exact Hn|].
          apply Hmax; [|exact Hn'].
          apply in_map_iff. exists (r', t'). split; [reflexivity | exact Hr']. }
        rewrite Hnil in Hrow. exact Hrow.
    + intros Hall.
      destruct (filter _ totals) as [|[r t] rest] eqn:Hf; [reflexivity|]. exfalso.
      assert (Hrow : In (r, t)
                       (filter (fun rt => num_eqb (NFloat (snd rt))
                                  (series_max (map (fun rt => NFloat (snd rt)) totals)))
                               totals))
        by (rewrite Hf; left; reflexivity).
      apply at_maximum_floats_in in Hrow. destruct Hrow as [Hin [Hn _]].
      apply Htot in Hin. destruct Hin as [Hin ->].
      rewrite (Hall r Hin) in Hn. discriminate Hn.
  - intros r t r' t' H1 H2.
    apply at_maximum_floats_in in H1. apply at_maximum_floats_in in H2.
    destruct H1 as [I1 [N1 M1]]. destruct H2 as [I2 [N2 M2]].
    apply float_leb_antisym; [apply (M2 r t I1 N1) | apply (M1 r' t' I2 N2)].
Qed.

Lemma regions_without_a_total_witness :
  exists rows : list (string * float),
    @calculate_most_profitable_region plain_pandas negative_profits
    = Ok (region_report rows)
    /\ (rows = [] <->
        forall r, In (Some r) [Some "East"; Some "West"; Some "Central"; Some "South"] ->
                  is_nan (kahan_sum (profits_of r
                            (combine [Some "East"; Some "West"; Some "Central";
                                      Some "South"]
                                     [-10; -20; -20; -10]%float))) = true)
    /\ forall r t r' t',
         In (r, t) rows -> In (r', t') rows -> (t =? t')%float = true.
Proof.
  apply (@regions_without_a_total plain_pandas negative_profits
           [Some "East"; Some "West"; Some "Central"; Some "South"]
           [-10; -20; -20; -10]%float); try reflexivity.
  apply well_formedb_ok. reflexivity.
Defined.

(** ** The rows of the ship-method and of the category report *)

(** X8. Every category that occurs next to a ship mode has at least one row
    in the report of [find_most_common_ship_method], and the report has
    no other category. *)
Theorem every_category_has_a_ship_method (df : DataFrame)
    (cats ships : list (option string)) :
  well_formed df ->
  lookup "Category" (columns df) = Some (ColObj cats) ->
  lookup "Ship Mode" (columns df) = Some (ColObj ships) ->
  exists rows : list (string * string * Z),
    find_most_common_ship_method df = Ok (ship_report rows)
    /\ forall c,
         (exists s, In (c, s) (present (pair_keys cats ships)))
         <-> (exists s n, In (c, s, n) rows).
Proof.
  intros Hwf Hc Hs. exists (ship_rows cats ships).
  split; [apply ship_methods_text; assumption|].
  unfold ship_rows. set (counts := groupby_size (pair_keys cats ships)).
  intros c. split.
  - intros [s Hin].
    set (group := filter (fun r : string * string * Z => key_eqb (fst (fst r)) c)
                         counts).
    assert (Hg : In (c, s, occurrences (present (pair_keys cats ships)) (c, s)) group).
    { apply filter_In. split.
      - apply (groupby_size_in string_pair_dec). split; [exact Hin | reflexivity].
      - apply key_eqb_refl. }
    assert (Hne : most_common group <> []).
    { apply most_common_nonempty. intros E. rewrite E in Hg. exact Hg. }
    destruct (most_common group) as [|[[c' s'] n'] rest] eqn:Hm; [contradiction|].
    assert (Hin' : In (c', s', n') (most_common group))
      by (rewrite Hm; left; reflexivity).
    apply most_common_in in Hin'. destruct Hin' as [Hin' Hmax].
    apply filter_In in Hin'. destruct Hin' as [Hcounts Hcat].
    simpl in Hcat. apply key_eqb_exact in Hcat. subst c'.
    exists s', n'. apply concat_groups_in. split; [exact Hcounts|].
    intros r' Hr' Heq. apply Hmax. apply filter_In. split; assumption.
  - intros [s [n Hin]]. exists s.
    apply concat_groups_subset in Hin.
    apply (groupby_size_in string_pair_dec) in Hin. apply Hin.
Qed.

Lemma every_category_has_a_ship_method_witness :
  exists rows : list (string * string * Z),
    find_most_common_ship_method test_data = Ok (ship_report rows)
    /\ forall c,
         (exists s, In (c, s) [("Furniture", "Standard Class");
                               ("Furniture", "First Class");
                               ("Office Supplies", "Standard Class");
                               ("Furniture", "Same Day")])
         <-> (exists s n, In (c, s, n) rows).
Proof.
  apply (every_category_has_a_ship_method test_data
           [Some "Furniture"; Some "Furniture"; Some "Office Supplies";
            Some "Furniture"]
           [Some "Standard Class"; Some "First Class"; Some "Standard Class";
            Some "Same Day"]); try reflexivity.
  exact test_data_well_formed.
Defined.

(** X9. The rows of [find_number_of_order_per_category] on [object] columns
    are in strictly ascending order of (category, sub-category), and
    every count is at least one. *)
Theorem category_counts_are_sorted (df : DataFrame)
    (cats subs : list (option string)) :
  lookup "Category" (columns df) = Some (ColObj cats) ->
  lookup "Sub Category" (columns df) = Some (ColObj subs) ->
  exists rows : list (string * string * Z),
    find_number_of_order_per_category df = Ok (category_report rows)
    /\ ascending fst rows
    /\ forall p n, In (p, n) rows -> (1 <= n)%Z.
Proof.
  intros Hc Hs. exists (category_rows cats subs).
  split; [apply category_counts_text; assumption|].
  split; [apply groupby_size_ascending|].
  intros p n Hin. apply (groupby_size_in string_pair_dec) in Hin.
  destruct Hin as [Hin ->].
  pose proof (occurrences_positive _ _ Hin) as H. unfold occurrences in H. lia.
Qed.

Lemma category_counts_are_sorted_witness :
  exists rows : list (string * string * Z),
    find_number_of_order_per_category category_test_data = Ok (category_report rows)
    /\ ascending fst rows
    /\ forall p n, In (p, n) rows -> (1 <= n)%Z.
Proof.
  apply (category_counts_are_sorted category_test_data
           (map Some ["Furniture"; "Furniture"; "Furniture"; "Furniture";
                      "Furniture"; "Office Supplies"; "Office Supplies";
                      "Office Supplies"; "Technology"])
           (map Some ["Bookcases"; "Bookcases"; "Chairs"; "Tables"; "Tables";
                      "Labels"; "Labels"; "Storage"; "Phones"])); reflexivity.
Defined.

(** ** Row order *)

Section AscendingFacts.
Context {K : Type} {O : Ord K} {L : OrdLaws K}.

(** Two ascending lists with the same elements are the same list. *)
Lemma ascending_ext {A : Type} (f : A -> K) (l1 l2 : list A) :
  ascending f l1 -> ascending f l2 ->
  (forall x, In x l1 <-> In x l2) -> l1 = l2.
Proof.
  unfold ascending. revert l2.
  induction l1 as [|a t1 IH]; intros [|b t2] H1 H2 Hsame.
  - reflexivity.
  - exfalso. apply (proj2 (Hsame b)). left; reflexivity.
  - exfalso. apply (proj1 (Hsame a)). left; reflexivity.
  - apply StronglySorted_inv in H1. destruct H1 as [S1 F1].
    apply StronglySorted_inv in H2. destruct H2 as [S2 F2].
    rewrite Forall_forall in F1, F2.
    assert (Hab : a = b).
    { destruct (proj1 (Hsame a) (or_introl eq_refl)) as [E|Ha]; [auto|].
      destruct (proj2 (Hsame b) (or_introl eq_refl)) as [E|Hb]; [auto|].
      pose proof (compare_lt_trans _ _ _ (F1 b Hb) (F2 a Ha)) as Hlt.
      rewrite compare_refl in Hlt. discriminate Hlt. }
    subst b. f_equal. apply IH; [exact S1 | exact S2|].
    intros x. split; intros Hx.
    + destruct (proj1 (Hsame x) (or_intror Hx)) as [E|Hx']; [|exact Hx'].
      subst x. pose proof (F1 a Hx) as Hlt.
      rewrite compare_refl in Hlt. discriminate Hlt.
    + destruct (proj2 (Hsame x) (or_intror Hx)) as [E|Hx']; [|exact Hx'].
      subst x. pose proof (F2 a Hx) as Hlt.
      rewrite compare_refl in Hlt. discriminate Hlt.
Qed.

End AscendingFacts.

Lemma map2_combine {A B C : Type} (f : A -> B -> C) (a : list A) (b : list B) :
  map2 f a b = map (fun p => f (fst p) (snd p)) (combine a b).
Proof.
  revert b. induction a as [|x a IH]; intros [|y b]; simpl; try reflexivity.
  rewrite IH. reflexivity.
Qed.

Lemma present_permutation {K : Type} (keys keys' : list (option K)) :
  Permutation keys keys' -> Permutation (present keys) (present keys').
Proof. intros H. unfold present. apply Permutation_flat_map, H. Qed.

Lemma present_pairs_permutation {A B : Type}
    (a a' : list (option A)) (b b' : list (option B)) :
  Permutation (combine a b) (combine a' b') ->
  Permutation (present (pair_keys a b)) (present (pair_keys a' b')).
Proof.
  intros H. apply present_permutation. unfold pair_keys.
  rewrite !map2_combine. apply Permutation_map, H.
Qed.

(** Counting the rows of each group does not depend on the order of the
    rows. *)
Lemma groupby_size_permutation {K : Type} {O : Ord K} {L : OrdLaws K}
    {E : ExactOrd K} (dec : forall a b : K, {a = b} + {a <> b})
    (keys keys' : list (option K)) :
  Permutation (present keys) (present keys') ->
  groupby_size keys = groupby_size keys'.
Proof.
  intros Hperm.
  apply (ascending_ext fst); try apply groupby_size_ascending.
  intros [l n]. rewrite !(groupby_size_in dec).
  rewrite (Permutation_count_occ dec) in Hperm. rewrite (Hperm l).
  split; intros [Hin Hn]; (split; [|exact Hn]).
  - apply (count_occ_In dec). apply (count_occ_In dec) in Hin.
    rewrite <- (Hperm l). exact Hin.
  - apply (count_occ_In dec). apply (count_occ_In dec) in Hin.
    rewrite (Hperm l). exact Hin.
Qed.

(** X10. [find_most_common_ship_method] does not depend on the order of the
    rows: two well-formed frames whose (category, ship mode) cells are
    the same up to a permutation of the rows give the same report. *)
Theorem ship_methods_ignore_row_order (df df' : DataFrame)
    (cats ships cats' ships' : list (option string)) :
  well_formed df -> well_formed df' ->
  lookup "Category" (columns df) = Some (ColObj cats) ->
  lookup "Ship Mode" (columns df) = Some (ColObj ships) ->
  lookup "Category" (columns df') = Some (ColObj cats') ->
  lookup "Ship Mode" (columns df') = Some (ColObj ships') ->
  Permutation (combine cats ships) (combine cats' ships') ->
  find_most_common_ship_method df' = find_most_common_ship_method df.
Proof.
  intros Hwf Hwf' Hc Hs Hc' Hs' Hperm.
  rewrite (ship_methods_text df cats ships Hwf Hc Hs),
    (ship_methods_text df' cats' ships' Hwf' Hc' Hs').
  unfold ship_rows.
  rewrite (groupby_size_permutation string_pair_dec (pair_keys cats ships)
             (pair_keys cats' ships'));
    [reflexivity|].
  apply present_pairs_permutation, Hperm.
Qed.

Lemma ship_methods_ignore_row_order_witness :
  find_most_common_ship_method reversed_test_data
  = find_most_common_ship_method test_data.
Proof.
  apply (ship_methods_ignore_row_order test_data reversed_test_data
           [Some "Furniture"; Some "Furniture"; Some "Office Supplies";
            Some "Furniture"]
           [Some "Standard Class"; Some "First Class"; Some "Standard Class";
            Some "Same Day"]
           (rev [Some "Furniture"; Some "Furniture"; Some "Office Supplies";
                 Some "Furniture"])
           (rev [Some "Standard Class"; Some "First Class"; Some "Standard Class";
                 Some "Same Day"]));
    try reflexivity.
  - exact test_data_well_formed.
  - apply well_formedb_ok. reflexivity.
  - exact (Permutation_rev
             (combine [Some "Furniture"; Some "Furniture"; Some "Office Supplies";
                       Some "Furniture"]
                      [Some "Standard Class"; Some "First Class";
                       Some "Standard Class"; Some "Same Day"])).
Defined.

(** X11. [find_number_of_order_per_category] does not depend on the order
    of the rows: two frames whose (category, sub-category) cells are the
    same up to a permutation of the rows give the same report. *)
Theorem category_counts_ignore_row_order (df df' : DataFrame)
    (cats subs cats' subs' : list (option string)) :
  lookup "Category" (columns df) = Some (ColObj cats) ->
  lookup "Sub Category" (columns df) = Some (ColObj subs) ->
  lookup "Category" (columns df') = Some (ColObj cats') ->
  lookup "Sub Category" (columns df') = Some (ColObj subs') ->
  Permutation (combine cats subs) (combine cats' subs') ->
  find_number_of_order_per_category df' = find_number_of_order_per_category df.
Proof.
  intros Hc Hs Hc' Hs' Hperm.
  rewrite (category_counts_text df cats subs Hc Hs),
    (category_counts_text df' cats' subs' Hc' Hs').
  unfold category_rows.
  rewrite (groupby_size_permutation string_pair_dec (pair_keys cats subs)
             (pair_keys cats' subs'));
    [reflexivity|].
  apply present_pairs_permutation, Hperm.
Qed.

Lemma category_counts_ignore_row_order_witness :
  find_number_of_order_per_category reversed_test_data
  = find_number_of_order_per_category test_data.
Proof.
  apply (category_counts_ignore_row_order test_data reversed_test_data
           [Some "Furniture"; Some "Furniture"; Some "Office Supplies";
            Some "Furniture"]
           [Some "Bookcases"; Some "Chairs"; Some "Labels"; Some "Tables"]
           (rev [Some "Furniture"; Some "Furniture"; Some "Office Supplies";
                 Some "Furniture"])
           (rev [Some "Bookcases"; Some "Chairs"; Some "Labels"; Some "Tables"]));
    try reflexivity.
  exact (Permutation_rev
           (combine [Some "Furniture"; Some "Furniture"; Some "Office Supplies";
                     Some "Furniture"]
                    [Some "Bookcases"; Some "Chairs"; Some "Labels"; Some "Tables"])).
Defined.

(* ================================================================== *)
(** * Properties of the Lambda entry point *)

(** ** The key of the event *)

(** X12. [get_s3_path_from_event] returns a value exactly when the event is
    a dict whose [Records] entry is a list that starts with a dict in which
    [s3.object.key] can be followed through dicts; it returns that key,
    whatever else the event and the other records hold. *)
Theorem key_of_the_first_record {R : Runtime} (event object_key : value) :
  get_s3_path_from_event event = Return object_key
  <-> exists entries record rest s3_event object,
        event = VDict entries
        /\ dict_get "Records" entries = Some (VList (VDict record :: rest))
        /\ dict_get "s3" record = Some (VDict s3_event)
        /\ dict_get "object" s3_event = Some (VDict object)
        /\ dict_get "key" object = Some object_key.
Proof.
  unfold get_s3_path_from_event. split.
  - destruct event as [| | | | |items|entries]; try (simpl; discriminate).
    cbn [subscription obind].
    destruct (dict_get "Records" entries) as [records|] eqn:Hrecords;
      [|simpl; discriminate].
    cbn [obind].
    destruct records as [| | | |text|items|entries']; try (simpl; discriminate).
    + cbn [subscription]. destruct (item (list_ascii_of_string text) 0);
        simpl; discriminate.
    + cbn [subscription]. unfold item. cbn [Z.ltb Z.compare Z.to_nat nth_error].
      destruct items as [|record rest]; [simpl; discriminate|].
      cbn [obind].
      destruct record as [| | | | | |record]; try (simpl; discriminate).
      cbn [subscription obind].
      destruct (dict_get "s3" record) as [s3_event|] eqn:Hs3; [|simpl; discriminate].
      cbn [obind].
      destruct s3_event as [| | | | | |s3_event]; try (simpl; discriminate).
      cbn [subscription obind].
      destruct (dict_get "object" s3_event) as [object|] eqn:Hobject;
        [|simpl; discriminate].
      cbn [obind].
      destruct object as [| | | | | |object]; try (simpl; discriminate).
      cbn [subscription obind].
      destruct (dict_get "key" object) as [k|] eqn:Hkey; [|simpl; discriminate].
      cbn [obind]. intros H. injection H as <-.
      exists entries, record, rest, s3_event, object. repeat split; assumption.
  - intros [entries [record [rest [s3_event [object [-> [H1 [H2 [H3 H4]]]]]]]]].
    cbn [subscription obind]. rewrite H1. cbn [obind subscription].
    unfold item. cbn [Z.ltb Z.compare Z.to_nat nth_error obind subscription].
    rewrite H2. cbn [obind subscription]. rewrite H3. cbn [obind subscription].
    rewrite H4. reflexivity.
Qed.

(** X13. When [get_s3_path_from_event] raises, the exception is either a
    [ValueError] whose text is "Invalid S3 event structure: " followed by
    the missing key or index, or the [TypeError] of a subscription that
    the value does not support (a key on a list or a string, anything on
    a number or on [None]), which the function does not catch. *)
Theorem invalid_event_errors {R : Runtime} (event : value) (e : error) :
  get_s3_path_from_event event = Throw e ->
  (exists detail, In detail invalid_event_details
                  /\ e = PyValueError ("Invalid S3 event structure: " ++ detail))
  \/ (exists v s, e = PyTypeError (subscript_type_error v s)).
Proof.
  unfold get_s3_path_from_event.
  assert (Hsub : forall v k x,
             subscription v (Key k) = Throw x ->
             x = PyKeyError (Key k) \/ x = PyTypeError (subscript_type_error v (Key k))).
  { intros v k x. destruct v; simpl; try (intros H; injection H as <-; auto).
    destruct (dict_get k entries); [discriminate|].
    intros H; injection H as <-; auto. }
  assert (Hidx : forall v x,
             subscription v (Index 0) = Throw x ->
             x = PyKeyError (Index 0)
             \/ x = PyIndexError "list index out of range"
             \/ x = PyIndexError "string index out of range"
             \/ x = PyTypeError (subscript_type_error v (Index 0))).
  { intros v x. destruct v; simpl; try (intros H; injection H as <-; auto).
    - destruct (item _ 0); [discriminate|]. intros H; injection H as <-; auto.
    - destruct (item _ 0); [discriminate|]. intros H; injection H as <-; auto. }
  destruct (subscription event (Key "Records")) as [records|x] eqn:H1.
  2:{ cbn [obind]. destruct (Hsub _ _ _ H1) as [->| ->]; intros H; injection H as <-.
      - left. eexists. split; [|reflexivity]. simpl; auto.
      - right. eauto. }
  cbn [obind].
  destruct (subscription records (Index 0)) as [record|x] eqn:H2.
  2:{ cbn [obind]. destruct (Hidx _ _ H2) as [->|[->|[->| ->]]];
        intros H; injection H as <-.
      - left. eexists. split; [|reflexivity]. simpl; auto.
      - left. eexists. split; [|reflexivity]. simpl; auto 10.
      - left. eexists. split; [|reflexivity]. simpl; auto 10.
      - right. eauto. }
  cbn [obind].
  destruct (subscription record (Key "s3")) as [s3_event|x] eqn:H3.
  2:{ cbn [obind]. destruct (Hsub _ _ _ H3) as [->| ->]; intros H; injection H as <-.
      - left. eexists. split; [|reflexivity]. simpl; auto.
      - right. eauto. }
  cbn [obind].
  destruct (subscription s3_event (Key "object")) as [object|x] eqn:H4.
  2:{ cbn [obind]. destruct (Hsub _ _ _ H4) as [->| ->]; intros H; injection H as <-.
      - left. eexists. split; [|reflexivity]. simpl; auto.
      - right. eauto. }
  cbn [obind].
  destruct (subscription object (Key "key")) as [k|x] eqn:H5.
  2:{ cbn [obind]. destruct (Hsub _ _ _ H5) as [->| ->]; intros H; injection H as <-.
      - left. eexists. split; [|reflexivity]. simpl; auto 10.
      - right. eauto. }
  cbn [obind]. discriminate.
Qed.

Lemma invalid_event_errors_witness :
  (exists detail,
      In detail invalid_event_details
      /\ PyValueError "Invalid S3 event structure: 'Records'"
         = PyValueError ("Invalid S3 event structure: " ++ detail))
  \/ (exists v s,
         PyValueError "Invalid S3 event structure: 'Records'"
         = PyTypeError (@subscript_type_error test_runtime v s)).
Proof.
  apply (@invalid_event_errors test_runtime (VDict [])
           (PyValueError "Invalid S3 event structure: 'Records'")).
  reflexivity.
Defined.

(** ** Timestamps *)

Lemma string_compare_append (a b s t : string) :
  String.length a = String.length b ->
  String.compare (a ++ s) (b ++ t)
  = match String.compare a b with
    | Eq => String.compare s t
    | c => c
    end.
Proof.
  revert b. induction a as [|x a IH]; intros [|y b] Hlen; try discriminate Hlen.
  - reflexivity.
  - simpl. destruct (Ascii.compare x y); try reflexivity.
    apply IH. simpl in Hlen. lia.
Qed.

Lemma below_ten (x : N) :
  (x < 10)%N -> In x [0; 1; 2; 3; 4; 5; 6; 7; 8; 9]%N.
Proof.
  intros H. simpl.
  destruct (N.eq_dec x 0); [auto|]. destruct (N.eq_dec x 1); [auto|].
  destruct (N.eq_dec x 2); [auto|]. destruct (N.eq_dec x 3); [auto 6|].
  destruct (N.eq_dec x 4); [auto 7|]. destruct (N.eq_dec x 5); [auto 8|].
  destruct (N.eq_dec x 6); [auto 9|]. destruct (N.eq_dec x 7); [auto 10|].
  destruct (N.eq_dec x 8); [auto 11|]. destruct (N.eq_dec x 9); [auto 12|].
  lia.
Qed.

Lemma digit_compare (x y : N) :
  (x < 10)%N -> (y < 10)%N -> Ascii.compare (digit x) (digit y) = N.compare x y.
Proof.
  intros Hx Hy. apply below_ten in Hx. apply below_ten in Hy.
  assert (Hall : forallb (fun a =>
                    forallb (fun b =>
                       match Ascii.compare (digit a) (digit b), N.compare a b with
                       | Eq, Eq | Lt, Lt | Gt, Gt => true
                       | _, _ => false
                       end) [0; 1; 2; 3; 4; 5; 6; 7; 8; 9]%N)
                    [0; 1; 2; 3; 4; 5; 6; 7; 8; 9]%N = true) by reflexivity.
  rewrite forallb_forall in Hall. specialize (Hall x Hx).
  rewrite forallb_forall in Hall. specialize (Hall y Hy).
  destruct (Ascii.compare (digit x) (digit y)), (N.compare x y);
    try reflexivity; discriminate Hall.
Qed.

Lemma compare_div_mod (k a b : N) :
  (0 < k)%N ->
  match N.compare (a / k) (b / k) with
  | Eq => N.compare (a mod k) (b mod k)
  | c => c
  end = N.compare a b.
Proof.
  intros Hk.
  pose proof (N.div_mod a k ltac:(lia)) as Ha.
  pose proof (N.div_mod b k ltac:(lia)) as Hb.
  pose proof (N.mod_upper_bound a k ltac:(lia)) as Ma.
  pose proof (N.mod_upper_bound b k ltac:(lia)) as Mb.
  revert Ha Hb Ma Mb.
  generalize (a / k)%N (b / k)%N (a mod k)%N (b mod k)%N.
  intros qa qb ra rb Ha Hb Ma Mb.
  destruct (N.compare_spec qa qb) as [E|E|E].
  - subst qb.
    destruct (N.compare_spec ra rb);
      symmetry; [apply N.compare_eq_iff | apply N.compare_lt_iff
                 | apply N.compare_gt_iff]; lia.
  - symmetry. apply N.compare_lt_iff. nia.
  - symmetry. apply N.compare_gt_iff. nia.
Qed.

Lemma two_digits_compare (a b : N) :
  (a < 100)%N -> (b < 100)%N ->
  String.compare (two_digits a) (two_digits b) = N.compare a b.
Proof.
  intros Ha Hb. unfold two_digits. cbn [String.compare].
  assert (Da : (a / 10 < 10)%N) by (apply N.Div0.div_lt_upper_bound; lia).
  assert (Db : (b / 10 < 10)%N) by (apply N.Div0.div_lt_upper_bound; lia).
  assert (Hd : forall n, digit n = digit (n mod 10)).
  { intros n. unfold digit. rewrite N.Div0.mod_mod. reflexivity. }
  rewrite (digit_compare _ _ Da Db), (Hd a), (Hd b).
  rewrite digit_compare by (apply N.mod_upper_bound; lia).
  rewrite <- (compare_div_mod 10 a b) by lia.
  destruct (N.compare (a / 10) (b / 10)); try reflexivity.
  destruct (N.compare (a mod 10) (b mod 10)); reflexivity.
Qed.

Lemma four_digits_compare (a b : N) :
  (a < 10000)%N -> (b < 10000)%N ->
  String.compare (four_digits a) (four_digits b) = N.compare a b.
Proof.
  intros Ha Hb. unfold four_digits.
  rewrite string_compare_append by reflexivity.
  rewrite !two_digits_compare;
    try (apply N.mod_upper_bound; lia);
    try (apply N.Div0.div_lt_upper_bound; lia).
  apply compare_div_mod. lia.
Qed.

Lemma decimal_four_digits (y : N) :
  (1000 <= y <= 9999)%N -> decimal y = four_digits y.
Proof.
  intros Hy.
  assert (Hall : forallb (fun q =>
                    forallb (fun r =>
                       String.eqb (decimal (N.of_nat q * 100 + N.of_nat r))
                                  (four_digits (N.of_nat q * 100 + N.of_nat r)))
                            (seq 0 100))
                         (seq 10 90) = true) by (vm_compute; reflexivity).
  pose proof (N.div_mod y 100 ltac:(lia)) as Hdm.
  pose proof (N.mod_upper_bound y 100 ltac:(lia)) as Hm.
  assert (Hq : (10 <= y / 100 < 100)%N).
  { split; [apply N.div_le_lower_bound; lia
           | apply N.Div0.div_lt_upper_bound; lia]. }
  revert Hdm Hm Hq. generalize (y / 100)%N (y mod 100)%N. intros q r Hdm Hm Hq.
  rewrite forallb_forall in Hall.
  specialize (Hall (N.to_nat q)). rewrite forallb_forall in Hall.
  assert (Iq : In (N.to_nat q) (seq 10 90)) by (apply in_seq; lia).
  assert (Ir : In (N.to_nat r) (seq 0 100)) by (apply in_seq; lia).
  specialize (Hall Iq _ Ir).
  rewrite !N2Nat.id in Hall.
  replace (q * 100 + r)%N with y in Hall by lia.
  apply String.eqb_eq, Hall.
Qed.

(** X14. From the year 1000 on, [generate_timestamp] gives 15 characters,
    and the order of two timestamps as strings is the order of the two
    times: the files of later runs sort after those of earlier ones, and
    only runs within the same second share a timestamp. *)
Theorem timestamps_sort_by_time (t1 t2 : datetime) :
  valid t1 -> valid t2 ->
  String.length (generate_timestamp t1) = 15
  /\ String.compare (generate_timestamp t1) (generate_timestamp t2)
     = chronological t1 t2.
Proof.
  intros [Y1 [M1 [D1 [H1 [I1 S1]]]]] [Y2 [M2 [D2 [H2 [I2 S2]]]]].
  unfold generate_timestamp. rewrite !decimal_four_digits by assumption.
  split; [reflexivity|].
  unfold chronological. cbn [lexicographic].
  rewrite string_compare_append by reflexivity.
  rewrite four_digits_compare by lia.
  destruct (N.compare (year t1) (year t2)); try reflexivity.
  rewrite string_compare_append by reflexivity.
  rewrite two_digits_compare by lia.
  destruct (N.compare (month t1) (month t2)); try reflexivity.
  rewrite string_compare_append by reflexivity.
  rewrite two_digits_compare by lia.
  destruct (N.compare (day t1) (day t2)); try reflexivity.
  change ("_" ++ two_digits (hour t1) ++ two_digits (minute t1)
          ++ two_digits (second t1))%string
    with (String "_" (two_digits (hour t1) ++ two_digits (minute t1)
                      ++ two_digits (second t1))).
  change ("_" ++ two_digits (hour t2) ++ two_digits (minute t2)
          ++ two_digits (second t2))%string
    with (String "_" (two_digits (hour t2) ++ two_digits (minute t2)
                      ++ two_digits (second t2))).
  cbn [String.compare].
  change (Ascii.compare "_" "_") with Eq. cbv iota.
  rewrite string_compare_append by reflexivity.
  rewrite two_digits_compare by lia.
  destruct (N.compare (hour t1) (hour t2)); try reflexivity.
  rewrite string_compare_append by reflexivity.
  rewrite two_digits_compare by lia.
  destruct (N.compare (minute t1) (minute t2)); try reflexivity.
  rewrite two_digits_compare by lia.
  destruct (N.compare (second t1) (second t2)); reflexivity.
Qed.

Lemma timestamps_sort_by_time_witness :
  String.length (generate_timestamp (mkDatetime 2024 1 2 3 4 5)) = 15
  /\ String.compare (generate_timestamp (mkDatetime 2024 1 2 3 4 5))
                    (generate_timestamp (mkDatetime 2024 1 10 0 0 0))
     = chronological (mkDatetime 2024 1 2 3 4 5) (mkDatetime 2024 1 10 0 0 0).
Proof.
  apply (timestamps_sort_by_time (mkDatetime 2024 1 2 3 4 5)
           (mkDatetime 2024 1 10 0 0 0));
    unfold valid; cbn [year month day hour minute second]; lia.
Defined.

(** ** Strings and paths *)

Lemma endswith_refl (s : string) : endswith s s = true.
Proof. destruct s; cbn [endswith]; rewrite String.eqb_refl; reflexivity. Qed.

Lemma endswith_append (a s suffix : string) :
  endswith s suffix = true -> endswith (a ++ s) suffix = true.
Proof.
  intros H. induction a as [|c a IH]; [exact H|].
  change (String c a ++ s)%string with (String c (a ++ s)).
  cbn [endswith]. rewrite IH. apply orb_true_r.
Qed.

Lemma lower_append (a b : string) : lower (a ++ b) = (lower a ++ lower b)%string.
Proof. induction a as [|c a IH]; simpl; [reflexivity | rewrite IH; reflexivity]. Qed.

Lemma output_key_is_csv (object_key name timestamp : string) :
  is_csv (output_key object_key name timestamp) = true.
Proof.
  unfold is_csv, output_key. rewrite !lower_append.
  repeat apply endswith_append. reflexivity.
Qed.

Lemma output_key_prefix (object_key name timestamp : string) :
  startswith (output_key object_key name timestamp) "analytics/" = true.
Proof. reflexivity. Qed.

Lemma rfind_bound (s : string) (c : ascii) : (-1 <= rfind s c)%Z.
Proof.
  induction s as [|a s IH]; simpl; [lia|].
  destruct (0 <=? rfind s c)%Z eqn:E; [apply Z.leb_le in E; lia|].
  destruct (Ascii.eqb a c); lia.
Qed.

Lemma rfind_absent (s : string) (c : ascii) :
  occurs c s = false -> rfind s c = (-1)%Z.
Proof.
  induction s as [|a s IH]; simpl; [reflexivity|].
  intros H. apply orb_false_iff in H. destruct H as [Ha Hs].
  rewrite (IH Hs), Ha. reflexivity.
Qed.

Lemma rfind_present (s : string) (c : ascii) :
  occurs c s = true -> (0 <= rfind s c)%Z.
Proof.
  induction s as [|a s IH]; simpl; [discriminate|].
  intros H. destruct (0 <=? rfind s c)%Z eqn:E; [apply Z.leb_le in E; lia|].
  destruct (occurs c s); [specialize (IH eq_refl); apply Z.leb_gt in E; lia|].
  rewrite orb_false_r in H. rewrite H. lia.
Qed.

(** The last occurrence in [a ++ b] is the one in [b], when there is one. *)
Lemma rfind_append_r (a b : string) (c : ascii) :
  (0 <= rfind b c)%Z ->
  rfind (a ++ b) c = (Z.of_nat (String.length a) + rfind b c)%Z.
Proof.
  intros H. induction a as [|x a IH]; [simpl; lia|].
  change (String x a ++ b)%string with (String x (a ++ b)).
  cbn [rfind String.length]. rewrite IH.
  destruct (0 <=? Z.of_nat (String.length a) + rfind b c)%Z eqn:E;
    [lia | apply Z.leb_gt in E; lia].
Qed.

Lemma rfind_append_l (a b : string) (c : ascii) :
  occurs c b = false -> rfind (a ++ b) c = rfind a c.
Proof.
  intros H. induction a as [|x a IH]; [simpl; apply rfind_absent, H|].
  change (String x a ++ b)%string with (String x (a ++ b)).
  cbn [rfind]. rewrite IH. reflexivity.
Qed.

Lemma slice_from_append (a b : string) :
  slice_from (a ++ b) (String.length a) = b.
Proof. induction a as [|x a IH]; simpl; [reflexivity | exact IH]. Qed.

Lemma slice_to_append (a b : string) :
  slice_to (a ++ b) (String.length a) = a.
Proof. induction a as [|x a IH]; simpl; [reflexivity | rewrite IH; reflexivity]. Qed.

Lemma only_dots (s : string) :
  forallb (Ascii.eqb ".") (list_ascii_of_string s) = negb (not_only_dots s).
Proof.
  induction s as [|a s IH]; simpl; [reflexivity|].
  rewrite IH, negb_orb, negb_involutive, Ascii.eqb_sym. reflexivity.
Qed.

Lemma append_assoc (a b c : string) : ((a ++ b) ++ c = a ++ b ++ c)%string.
Proof. induction a as [|x a IH]; simpl; [reflexivity | rewrite IH; reflexivity]. Qed.

Lemma basename_of_path (dir name : string) :
  occurs "/" name = false -> basename (dir ++ "/" ++ name) = name.
Proof.
  intros H. unfold basename.
  rewrite <- append_assoc.
  rewrite (rfind_append_l (dir ++ "/") name "/" H).
  rewrite (rfind_append_r dir "/" "/") by (simpl; lia).
  cbn [rfind Ascii.eqb Bool.eqb Z.leb Z.compare].
  replace (Z.to_nat (Z.of_nat (String.length dir) + 0 + 1))
    with (String.length (dir ++ "/")).
  - apply slice_from_append.
  - clear. induction dir as [|x d IH]; simpl; [reflexivity|].
    rewrite IH. lia.
Qed.

Lemma basename_of_name (name : string) :
  occurs "/" name = false -> basename name = name.
Proof.
  intros H. unfold basename. rewrite (rfind_absent _ _ H). reflexivity.
Qed.

Lemma splitext_of_name (stem extension : string) :
  occurs "/" stem = false -> not_only_dots stem = true ->
  occurs "/" extension = false -> occurs "." extension = false ->
  splitext (stem ++ "." ++ extension) = (stem, ("." ++ extension)%string).
Proof.
  intros Hs Hd He Hx. unfold splitext.
  assert (Hsep : rfind (stem ++ "." ++ extension) "/" = (-1)%Z).
  { apply rfind_absent. clear - Hs He.
    induction stem as [|a s IH]; simpl in *; [exact He|].
    apply orb_false_iff in Hs. destruct Hs as [-> Hs]. apply IH, Hs. }
  assert (Hdot : rfind (stem ++ "." ++ extension) "."
                 = Z.of_nat (String.length stem)).
  { rewrite rfind_append_r.
    - simpl. rewrite (rfind_absent _ _ Hx). simpl. lia.
    - simpl. rewrite (rfind_absent _ _ Hx). simpl. lia. }
  rewrite Hsep, Hdot.
  destruct (-1 <? Z.of_nat (String.length stem))%Z eqn:E;
    [|apply Z.ltb_ge in E; lia].
  rewrite Nat2Z.id. change (Z.to_nat (-1 + 1)) with 0.
  rewrite slice_to_append, slice_from_append. cbn [slice_from].
  rewrite only_dots, Hd. reflexivity.
Qed.

(** X15. The name the handler derives from the object key is the last
    component of the key without its extension: the directories of the
    key are dropped, so two files of the same name in different
    directories get the same name. *)
Theorem base_filename_drops_the_directories (dir stem extension : string) :
  occurs "/" stem = false -> not_only_dots stem = true ->
  occurs "/" extension = false -> occurs "." extension = false ->
  base_filename (dir ++ "/" ++ stem ++ "." ++ extension) = stem
  /\ base_filename (stem ++ "." ++ extension) = stem.
Proof.
  intros Hs Hd He Hx.
  assert (Hname : occurs "/" (stem ++ "." ++ extension) = false).
  { clear - Hs He. induction stem as [|a s IH]; simpl in *; [exact He|].
    apply orb_false_iff in Hs. destruct Hs as [-> Hs]. apply IH, Hs. }
  unfold base_filename. split.
  - rewrite (basename_of_path dir _ Hname), splitext_of_name by assumption.
    reflexivity.
  - rewrite (basename_of_name _ Hname), splitext_of_name by assumption.
    reflexivity.
Qed.

Lemma base_filename_drops_the_directories_witness :
  base_filename ("uploads/2024" ++ "/" ++ "orders" ++ "." ++ "CSV") = "orders"
  /\ base_filename ("orders" ++ "." ++ "CSV") = "orders".
Proof.
  apply (base_filename_drops_the_directories "uploads/2024" "orders" "CSV");
    reflexivity.
Defined.

(** ** The handler, stage by stage *)

Section HandlerFacts.
Context {P : Pandas} {R : Runtime}.

Lemma not_falsy (s : string) : s <> EmptyString -> falsy (Some s) = false.
Proof. destruct s; [contradiction | reflexivity]. Qed.

(** The handler once the file is read and the reports are computed: the
    five uploads, one after the other. *)
Lemma handler_after_analytics (w : world) (event context : value)
    (input_bucket output_bucket object_key csv_content : string)
    (df : DataFrame) (rs : reports) (store : heap) :
  triggered w event input_bucket output_bucket object_key ->
  get_object w input_bucket object_key = Return csv_content ->
  read_csv csv_content = Return df ->
  generate_analytics_reports 0 (heap_of df) = (Ok rs, store) ->
  lambda_handler w event context
  = match attempt w (uploads output_bucket object_key (generate_timestamp (now w))
                       rs store)
            [GetObject input_bucket object_key] with
    | (None, calls) =>
        (calls, completed object_key (generate_timestamp (now w)) store)
    | (Some e, calls) =>
        (calls, failed (PyException ("Error writing CSV to S3: " ++ str e)))
    end.
Proof.
  intros [Hi [Ni [Ho [No [Hc [Hk Hcsv]]]]]] Hget Hread Hrun.
  unfold lambda_handler, process.
  rewrite Hi, Ho, (not_falsy _ Ni), (not_falsy _ No), Hc, Hk.
  cbn [orb io_bind io_ret io_lift receiver_of_lower text].
  unfold is_csv in Hcsv. rewrite Hcsv. cbn [negb].
  unfold read_csv_from_s3. rewrite Hget. cbn [obind]. rewrite Hread.
  cbn [obind io_bind app]. unfold run_analytics. rewrite Hrun.
  unfold uploads, attempt, write_csv_to_s3, io_bind, io_ret.
  cbv beta iota zeta. cbn [app fst snd].
  destruct (put_object w [_] _); [reflexivity|]. cbv beta iota. cbn [app].
  destruct (put_object w [_; _] _); [reflexivity|]. cbv beta iota. cbn [app].
  destruct (put_object w [_; _; _] _); [reflexivity|]. cbv beta iota. cbn [app].
  destruct (put_object w [_; _; _; _] _); [reflexivity|]. cbv beta iota. cbn [app].
  destruct (put_object w [_; _; _; _; _] _); reflexivity.
Qed.

Lemma handler_read_failure (w : world) (event context : value)
    (input_bucket output_bucket object_key : string) (e : error) :
  triggered w event input_bucket output_bucket object_key ->
  (csv_content <- get_object w input_bucket object_key ;;
   df <- read_csv csv_content ;; Return df)%outcome = Throw e ->
  lambda_handler w event context
  = ([GetObject input_bucket object_key],
     failed (PyException ("Error reading CSV from S3: " ++ str e))).
Proof.
  intros [Hi [Ni [Ho [No [Hc [Hk Hcsv]]]]]] Hfail.
  unfold lambda_handler, process.
  rewrite Hi, Ho, (not_falsy _ Ni), (not_falsy _ No), Hc, Hk.
  cbn [orb io_bind io_ret io_lift receiver_of_lower text].
  unfold is_csv in Hcsv. rewrite Hcsv. cbn [negb].
  unfold read_csv_from_s3. rewrite Hfail. reflexivity.
Qed.

Lemma handler_analytics_failure (w : world) (event context : value)
    (input_bucket output_bucket object_key csv_content : string)
    (df : DataFrame) (e : exn) (store : heap) :
  triggered w event input_bucket output_bucket object_key ->
  get_object w input_bucket object_key = Return csv_content ->
  read_csv csv_content = Return df ->
  generate_analytics_reports 0 (heap_of df) = (Raise e, store) ->
  lambda_handler w event context
  = ([GetObject input_bucket object_key], failed (Analytics e)).
Proof.
  intros [Hi [Ni [Ho [No [Hc [Hk Hcsv]]]]]] Hget Hread Hrun.
  unfold lambda_handler, process.
  rewrite Hi, Ho, (not_falsy _ Ni), (not_falsy _ No), Hc, Hk.
  cbn [orb io_bind io_ret io_lift receiver_of_lower text].
  unfold is_csv in Hcsv. rewrite Hcsv. cbn [negb].
  unfold read_csv_from_s3. rewrite Hget. cbn [obind]. rewrite Hread.
  cbn [obind io_bind app]. unfold run_analytics. rewrite Hrun. reflexivity.
Qed.

(** Without a string key of a CSV file and both buckets, no call is made. *)
Lemma handler_not_triggered (w : world) (event context : value) :
  (forall input_bucket output_bucket object_key,
      ~ triggered w event input_bucket output_bucket object_key) ->
  fst (lambda_handler w event context) = [].
Proof.
  intros Hnot. unfold lambda_handler, process.
  destruct (environ w "INPUT_BUCKET") as [input_bucket|] eqn:Hi; [|reflexivity].
  destruct (environ w "OUTPUT_BUCKET") as [output_bucket|] eqn:Ho;
    [|cbn [falsy orb]; rewrite orb_true_r; reflexivity].
  destruct input_bucket as [|a input_bucket]; [reflexivity|].
  destruct output_bucket as [|b output_bucket]; [reflexivity|].
  cbn [falsy orb text].
  destruct (client_error w) as [e|] eqn:Hc; [reflexivity|].
  cbn [io_bind io_ret io_lift].
  destruct (get_s3_path_from_event event) as [object_key|e] eqn:Hk; [|reflexivity].
  destruct object_key as [| | | |object_key| |]; try reflexivity.
  cbn [receiver_of_lower].
  destruct (endswith (lower object_key) ".csv") eqn:Hcsv; [|reflexivity].
  exfalso. apply (Hnot (String a input_bucket) (String b output_bucket) object_key).
  repeat split; try assumption; discriminate.
Qed.

End HandlerFacts.

Lemma test_world_triggered (third_call : option error) (object_key : string) :
  is_csv object_key = true ->
  @triggered test_runtime (test_world third_call)
    (s3_notification [VStr object_key]) "orders-in" "orders-out" object_key.
Proof.
  intros H. repeat split; try reflexivity; try discriminate. exact H.
Qed.

(** X16. The handler uses nothing of the event but what
    [get_s3_path_from_event] returns: the records after the first and the
    bucket named in the notification do not change the calls or the
    answer. *)
Theorem only_the_first_key_matters {P : Pandas} {R : Runtime} (w : world)
    (event event' context context' : value) :
  get_s3_path_from_event event = get_s3_path_from_event event' ->
  lambda_handler w event context = lambda_handler w event' context'.
Proof.
  intros H. unfold lambda_handler, process. rewrite H. reflexivity.
Qed.

Lemma only_the_first_key_matters_witness :
  @lambda_handler plain_pandas test_runtime (test_world None)
    (s3_notification [VStr "uploads/orders.csv"; VStr "uploads/incomplete.CSV"])
    VNone
  = @lambda_handler plain_pandas test_runtime (test_world None)
      (VDict [("Records",
               VList [VDict [("s3", VDict [("object",
                                            VDict [("key", VStr "uploads/orders.csv")]);
                                           ("bucket",
                                            VDict [("name", VStr "elsewhere")])])]])])
      VNone.
Proof.
  apply (@only_the_first_key_matters plain_pandas test_runtime (test_world None)).
  reflexivity.
Defined.

(** X17. A key that does not end in [.csv], in any letter case, is not
    processed: the handler answers 200 with a text that names the key,
    and makes no call to S3. *)
Theorem other_files_are_skipped {P : Pandas} {R : Runtime}
    (w : world) (event context : value)
    (input_bucket output_bucket object_key : string) :
  environ w "INPUT_BUCKET" = Some input_bucket -> input_bucket <> EmptyString ->
  environ w "OUTPUT_BUCKET" = Some output_bucket -> output_bucket <> EmptyString ->
  client_error w = None ->
  get_s3_path_from_event event = Return (VStr object_key) ->
  is_csv object_key = false ->
  lambda_handler w event context
  = ([], mkResponse 200
           (json_dumps (VStr ("File " ++ object_key
                              ++ " is not a CSV file, skipping processing")))).
Proof.
  intros Hi Ni Ho No Hc Hk Hcsv. unfold lambda_handler, process.
  rewrite Hi, Ho, (not_falsy _ Ni), (not_falsy _ No), Hc, Hk.
  cbn [orb io_bind io_ret io_lift receiver_of_lower text].
  unfold is_csv in Hcsv. rewrite Hcsv. reflexivity.
Qed.

Lemma other_files_are_skipped_witness :
  @lambda_handler plain_pandas test_runtime (test_world None)
    (s3_notification [VStr "uploads/readme.txt"]) VNone
  = ([], mkResponse 200
           (@json_dumps test_runtime
              (VStr ("File " ++ "uploads/readme.txt"
                     ++ " is not a CSV file, skipping processing")))).
Proof.
  apply (@other_files_are_skipped plain_pandas test_runtime (test_world None)
           (s3_notification [VStr "uploads/readme.txt"]) VNone
           "orders-in" "orders-out" "uploads/readme.txt");
    try reflexivity; discriminate.
Defined.

(** X18. When the object cannot be fetched or its text cannot be parsed,
    the handler has made the one read call and answers 500 with "Error
    reading CSV from S3: " and the text of the exception. *)
Theorem unreadable_file_is_reported {P : Pandas} {R : Runtime}
    (w : world) (event context : value)
    (input_bucket output_bucket object_key : string) (e : error) :
  triggered w event input_bucket output_bucket object_key ->
  get_object w input_bucket object_key = Throw e
  \/ (exists csv_content,
        get_object w input_bucket object_key = Return csv_content
        /\ read_csv csv_content = Throw e) ->
  lambda_handler w event context
  = ([GetObject input_bucket object_key],
     failed (PyException ("Error reading CSV from S3: " ++ str e))).
Proof.
  intros Ht Hfail. apply (handler_read_failure _ _ _ _ output_bucket); [exact Ht|].
  destruct Hfail as [->|[csv_content [-> Hread]]]; [reflexivity|].
  cbn [obind]. rewrite Hread. reflexivity.
Qed.

Lemma unreadable_file_is_reported_witness :
  @lambda_handler plain_pandas test_runtime (test_world None)
    (s3_notification [VStr "uploads/missing.csv"]) VNone
  = ([GetObject "orders-in" "uploads/missing.csv"],
     @failed test_runtime
       (PyException ("Error reading CSV from S3: "
                     ++ @str test_runtime (Library "NoSuchKey")))).
Proof.
  apply (@unreadable_file_is_reported plain_pandas test_runtime (test_world None)
           (s3_notification [VStr "uploads/missing.csv"]) VNone
           "orders-in" "orders-out" "uploads/missing.csv" (Library "NoSuchKey")).
  - apply test_world_triggered. reflexivity.
  - left. reflexivity.
Defined.

(** X19. When the analytics raise, nothing is uploaded: the one call made
    is the read of the input file, and the answer is 500 with the text of
    the exception (the quoted name of the column for a [KeyError]). *)
Theorem nothing_is_uploaded_when_a_report_fails {P : Pandas} {R : Runtime}
    (w : world) (event context : value)
    (input_bucket output_bucket object_key csv_content : string)
    (df : DataFrame) (e : exn) (store : heap) :
  triggered w event input_bucket output_bucket object_key ->
  get_object w input_bucket object_key = Return csv_content ->
  read_csv csv_content = Return df ->
  generate_analytics_reports 0 (heap_of df) = (Raise e, store) ->
  lambda_handler w event context
  = ([GetObject input_bucket object_key], failed (Analytics e)).
Proof. intros. eapply handler_analytics_failure; eassumption. Qed.

Lemma nothing_is_uploaded_when_a_report_fails_witness :
  @lambda_handler plain_pandas test_runtime (test_world None)
    (s3_notification [VStr "uploads/incomplete.CSV"]) VNone
  = ([GetObject "orders-in" "uploads/incomplete.CSV"],
     @failed test_runtime (Analytics (KeyError "List Price"))).
Proof.
  apply (@nothing_is_uploaded_when_a_report_fails plain_pandas test_runtime
           (test_world None) (s3_notification [VStr "uploads/incomplete.CSV"]) VNone
           "orders-in" "orders-out" "uploads/incomplete.CSV" "incomplete"
           incomplete_data (KeyError "List Price") (heap_of incomplete_data)).
  - apply test_world_triggered. reflexivity.
  - reflexivity.
  - reflexivity.
  - vm_compute. reflexivity.
Defined.

(** ** The uploads *)

Lemma attempt_all (w : world) (puts calls : list s3_call) :
  (forall calls call, put_object w calls call = None) ->
  attempt w puts calls = (None, calls ++ puts).
Proof.
  intros Hok. revert calls. induction puts as [|call rest IH]; intros calls.
  - simpl. rewrite app_nil_r. reflexivity.
  - simpl. rewrite Hok, IH, <- app_assoc. reflexivity.
Qed.

Lemma attempt_stops (w : world) (puts calls : list s3_call) (n : nat) (e : error)
    (d : s3_call) :
  n < length puts ->
  (forall m, m < n -> put_object w (calls ++ firstn m puts) (nth m puts d) = None) ->
  put_object w (calls ++ firstn n puts) (nth n puts d) = Some e ->
  attempt w puts calls = (Some e, calls ++ firstn (S n) puts).
Proof.
  revert calls n. induction puts as [|call rest IH]; intros calls n Hn Hok Hfail.
  - simpl in Hn. lia.
  - destruct n as [|n].
    + simpl in Hfail. rewrite app_nil_r in Hfail. simpl. rewrite Hfail.
      reflexivity.
    + pose proof (Hok 0 (Nat.lt_0_succ n)) as H0. simpl in H0.
      rewrite app_nil_r in H0. cbn [attempt]. rewrite H0.
      rewrite (IH (calls ++ [call]) n).
      * rewrite <- app_assoc. reflexivity.
      * simpl in Hn. lia.
      * intros m Hm. specialize (Hok (S m) (proj1 (Nat.succ_lt_mono m n) Hm)).
        simpl in Hok. rewrite <- app_assoc. exact Hok.
      * simpl in Hfail. rewrite <- app_assoc. exact Hfail.
Qed.

Lemma attempt_prefix (w : world) (puts calls : list s3_call) :
  exists n, snd (attempt w puts calls) = calls ++ firstn n puts.
Proof.
  revert calls. induction puts as [|call rest IH]; intros calls.
  - exists 0. simpl. rewrite app_nil_r. reflexivity.
  - simpl. destruct (put_object w calls call).
    + exists 1. reflexivity.
    + destruct (IH (calls ++ [call])) as [n Hn]. exists (S n).
      rewrite Hn, <- app_assoc. reflexivity.
Qed.

Lemma attempt_accepted (w : world) (puts calls calls' : list s3_call) (d : s3_call) :
  attempt w puts calls = (None, calls') ->
  calls' = calls ++ puts
  /\ forall n, n < length puts ->
       put_object w (calls ++ firstn n puts) (nth n puts d) = None.
Proof.
  revert calls. induction puts as [|call rest IH]; intros calls H.
  - simpl in H. injection H as <-. rewrite app_nil_r.
    split; [reflexivity|]. intros n Hn. simpl in Hn. lia.
  - simpl in H. destruct (put_object w calls call) eqn:Hput; [discriminate H|].
    destruct (IH _ H) as [-> Hrest]. rewrite <- app_assoc.
    split; [reflexivity|]. intros [|n] Hn.
    + simpl. rewrite app_nil_r. exact Hput.
    + simpl. specialize (Hrest n ltac:(simpl in Hn; lia)).
      rewrite <- app_assoc in Hrest. exact Hrest.
Qed.

Lemma Forall_prefix {A : Type} (Q : A -> Prop) (n : nat) (l : list A) :
  Forall Q l -> Forall Q (firstn n l).
Proof.
  revert l. induction n as [|n IH]; intros l H; [constructor|].
  destruct H as [|x l Hx Hl]; [constructor|].
  simpl. constructor; [exact Hx | apply IH, Hl].
Qed.

Lemma NoDup_prefix {A : Type} (n : nat) (l : list A) :
  NoDup l -> NoDup (firstn n l).
Proof.
  revert l. induction n as [|n IH]; intros l H; [constructor|].
  destruct H as [|x l Hx Hl]; [constructor|].
  simpl. constructor; [|apply IH, Hl].
  intros Hin. apply Hx. clear - Hin. revert l Hin.
  induction n as [|n IH]; intros [|y l] Hin; simpl in Hin; try contradiction.
  destruct Hin as [->|Hin]; [left; reflexivity | right; apply (IH _ Hin)].
Qed.

Lemma map_prefix {A B : Type} (f : A -> B) (n : nat) (l : list A) :
  map f (firstn n l) = firstn n (map f l).
Proof.
  revert l. induction n as [|n IH]; intros [|x l]; simpl; try reflexivity.
  rewrite IH. reflexivity.
Qed.

Lemma append_inv_head (a b c : string) : (a ++ b)%string = (a ++ c)%string -> b = c.
Proof.
  induction a as [|x a IH]; simpl; intros H; [exact H|].
  injection H as H. apply IH, H.
Qed.

(** Two of the five files of a run never share a key. *)
Lemma uploads_have_distinct_keys {R : Runtime}
    (output_bucket object_key timestamp : string) (rs : reports) (store : heap) :
  NoDup (map call_key (uploads output_bucket object_key timestamp rs store)).
Proof.
  unfold uploads. cbn [map call_key].
  assert (Hne : forall n1 n2 : string,
             ("_" ++ n1 ++ "_" ++ timestamp ++ ".csv")%string
             <> ("_" ++ n2 ++ "_" ++ timestamp ++ ".csv")%string ->
             output_key object_key n1 timestamp
             <> output_key object_key n2 timestamp).
  { intros n1 n2 Hdiff H. apply Hdiff. unfold output_key in H.
    apply (append_inv_head "analytics/") in H.
    apply append_inv_head in H. exact H. }
  repeat constructor; cbn [In];
    intros H; repeat (destruct H as [H|H]; [revert H; apply Hne; discriminate|]);
    exact H.
Qed.

Lemma uploads_are_uploads {R : Runtime} (output_bucket object_key timestamp : string)
    (rs : reports) (store : heap) :
  Forall (is_upload output_bucket)
         (uploads output_bucket object_key timestamp rs store).
Proof.
  unfold uploads. repeat constructor;
    (eexists; eexists; split; [reflexivity|]; split;
     [apply output_key_prefix | apply output_key_is_csv]).
Qed.

(** X20. When the event names a CSV file, the file is read and parsed, the
    analytics return and S3 accepts every upload, the handler makes six
    calls: it reads the key from the input bucket and uploads to the
    output bucket, in this order, the region report, the ship-method
    report, the category report, the frame with its profit column and the
    summary, each as [text/csv] under [analytics/]; the summary lists the
    first four keys and counts 4 reports; the answer is 200. *)
Theorem handler_uploads_five_files {P : Pandas} {R : Runtime}
    (w : world) (event context : value)
    (input_bucket output_bucket object_key csv_content : string)
    (df : DataFrame) (rs : reports) (store : heap) :
  triggered w event input_bucket output_bucket object_key ->
  get_object w input_bucket object_key = Return csv_content ->
  read_csv csv_content = Return df ->
  generate_analytics_reports 0 (heap_of df) = (Ok rs, store) ->
  (forall calls call, put_object w calls call = None) ->
  lambda_handler w event context
  = (GetObject input_bucket object_key
       :: uploads output_bucket object_key (generate_timestamp (now w)) rs store,
     completed object_key (generate_timestamp (now w)) store).
Proof.
  intros Ht Hget Hread Hrun Hput.
  rewrite (handler_after_analytics w event context _ _ _ _ _ _ _ Ht Hget Hread Hrun).
  rewrite (attempt_all w _ _ Hput). reflexivity.
Qed.

Lemma handler_uploads_five_files_witness :
  @lambda_handler plain_pandas test_runtime (test_world None)
    (s3_notification [VStr "uploads/orders.csv"]) VNone
  = (GetObject "orders-in" "uploads/orders.csv"
       :: @uploads test_runtime "orders-out" "uploads/orders.csv" "20240102_030405"
            test_reports test_store,
     @completed test_runtime "uploads/orders.csv" "20240102_030405" test_store).
Proof.
  apply (@handler_uploads_five_files plain_pandas test_runtime (test_world None)
           (s3_notification [VStr "uploads/orders.csv"]) VNone
           "orders-in" "orders-out" "uploads/orders.csv" "orders"
           test_data test_reports test_store).
  - apply test_world_triggered. reflexivity.
  - reflexivity.
  - reflexivity.
  - vm_compute. reflexivity.
  - intros calls call. simpl. destruct (Nat.eqb (length calls) 2); reflexivity.
Defined.

(** X21. The uploads are not undone: when the first uploads are accepted
    and the next one raises, the handler stops there, leaves the accepted
    uploads in the bucket, attempts none of the later ones and answers
    500 with "Error writing CSV to S3: " and the text of the exception. *)
Theorem uploads_stop_at_the_first_failure {P : Pandas} {R : Runtime}
    (w : world) (event context : value)
    (input_bucket output_bucket object_key csv_content : string)
    (df : DataFrame) (rs : reports) (store : heap)
    (planned : list s3_call) (n : nat) (e : error) :
  triggered w event input_bucket output_bucket object_key ->
  get_object w input_bucket object_key = Return csv_content ->
  read_csv csv_content = Return df ->
  generate_analytics_reports 0 (heap_of df) = (Ok rs, store) ->
  planned = uploads output_bucket object_key (generate_timestamp (now w)) rs store ->
  n < 5 ->
  (forall m, m < n ->
     put_object w (GetObject input_bucket object_key :: firstn m planned)
       (nth m planned (GetObject input_bucket object_key)) = None) ->
  put_object w (GetObject input_bucket object_key :: firstn n planned)
    (nth n planned (GetObject input_bucket object_key)) = Some e ->
  lambda_handler w event context
  = (GetObject input_bucket object_key :: firstn (S n) planned,
     failed (PyException ("Error writing CSV to S3: " ++ str e))).
Proof.
  intros Ht Hget Hread Hrun -> Hn Hok Hfail.
  rewrite (handler_after_analytics w event context _ _ _ _ _ _ _ Ht Hget Hread Hrun).
  rewrite (attempt_stops w _ [GetObject input_bucket object_key] n e
             (GetObject input_bucket object_key));
    [reflexivity | exact Hn | exact Hok | exact Hfail].
Qed.

Lemma uploads_stop_at_the_first_failure_witness :
  @lambda_handler plain_pandas test_runtime
    (test_world (Some (Library "AccessDenied")))
    (s3_notification [VStr "uploads/orders.csv"]) VNone
  = (GetObject "orders-in" "uploads/orders.csv"
       :: firstn 2 (@uploads test_runtime "orders-out" "uploads/orders.csv"
                      "20240102_030405" test_reports test_store),
     @failed test_runtime
       (PyException ("Error writing CSV to S3: "
                     ++ @str test_runtime (Library "AccessDenied")))).
Proof.
  apply (@uploads_stop_at_the_first_failure plain_pandas test_runtime
           (test_world (Some (Library "AccessDenied")))
           (s3_notification [VStr "uploads/orders.csv"]) VNone
           "orders-in" "orders-out" "uploads/orders.csv" "orders"
           test_data test_reports test_store).
  - apply test_world_triggered. reflexivity.
  - reflexivity.
  - reflexivity.
  - vm_compute. reflexivity.
  - reflexivity.
  - lia.
  - intros m Hm. destruct m as [|m]; [reflexivity | lia].
  - reflexivity.
Defined.

(** The runs of the handler: no call at all; or the one read, then a
    failure before any upload; or the uploads, one after the other. *)
Lemma handler_cases {P : Pandas} {R : Runtime} (w : world) (event context : value) :
  fst (lambda_handler w event context) = []
  \/ exists input_bucket output_bucket object_key,
       triggered w event input_bucket output_bucket object_key
       /\ ((exists e,
              lambda_handler w event context
              = ([GetObject input_bucket object_key], failed e))
           \/ exists rs store,
                lambda_handler w event context
                = match attempt w (uploads output_bucket object_key
                                     (generate_timestamp (now w)) rs store)
                        [GetObject input_bucket object_key] with
                  | (None, calls) =>
                      (calls,
                       completed object_key (generate_timestamp (now w)) store)
                  | (Some e, calls) =>
                      (calls,
                       failed (PyException ("Error writing CSV to S3: " ++ str e)))
                  end).
Proof.
  destruct (environ w "INPUT_BUCKET") as [[|a input_bucket]|] eqn:Hi;
    try (left; apply handler_not_triggered;
         intros i o k [Hi' [Ni _]]; congruence).
  destruct (environ w "OUTPUT_BUCKET") as [[|b output_bucket]|] eqn:Ho;
    try (left; apply handler_not_triggered;
         intros i o k [_ [_ [Ho' [No _]]]]; congruence).
  destruct (client_error w) as [e|] eqn:Hc;
    [left; apply handler_not_triggered;
     intros i o k [_ [_ [_ [_ [Hc' _]]]]]; congruence|].
  destruct (get_s3_path_from_event event) as [object_key|e] eqn:Hk;
    [|left; apply handler_not_triggered;
      intros i o k [_ [_ [_ [_ [_ [Hk' _]]]]]]; congruence].
  destruct object_key as [| | | |object_key| |];
    try (left; apply handler_not_triggered;
         intros i o k [_ [_ [_ [_ [_ [Hk' _]]]]]]; congruence).
  destruct (is_csv object_key) eqn:Hcsv;
    [|left; apply handler_not_triggered;
      intros i o k [_ [_ [_ [_ [_ [Hk' Hcsv']]]]]]; congruence].
  assert (Ht : triggered w event (String a input_bucket) (String b output_bucket)
                 object_key)
    by (repeat split; try assumption; discriminate).
  right. exists (String a input_bucket), (String b output_bucket), object_key.
  split; [exact Ht|].
  destruct ((csv_content <- get_object w (String a input_bucket) object_key ;;
             df <- read_csv csv_content ;; Return df)%outcome) as [df|e] eqn:Hread.
  2:{ left. eexists. apply (handler_read_failure _ _ _ _ _ _ _ Ht Hread). }
  destruct (get_object w (String a input_bucket) object_key) as [csv_content|e]
    eqn:Hget; [|discriminate Hread].
  cbn [obind] in Hread.
  destruct (read_csv csv_content) as [df'|e] eqn:Hread'; [|discriminate Hread].
  cbn [obind] in Hread. injection Hread as ->.
  destruct (generate_analytics_reports 0 (heap_of df)) as [[rs|e] store] eqn:Hrun.
  2:{ left. eexists.
      apply (handler_analytics_failure _ _ _ _ _ _ _ _ _ _ Ht Hget Hread' Hrun). }
  right. exists rs, store.
  apply (handler_after_analytics _ _ _ _ _ _ _ _ _ _ Ht Hget Hread' Hrun).
Qed.

(** X22. Whatever the environment, the event and the answers of S3: either
    the handler makes no S3 call, or both buckets are configured, the
    event gives a string key that ends in [.csv], the first call reads
    that key from the input bucket, and every other call, at most five,
    is an upload of [text/csv] to the output bucket under [analytics/],
    with a key that itself ends in [.csv], no two with the same key. *)
Theorem handler_touches_s3_only_when_triggered {P : Pandas} {R : Runtime}
    (w : world) (event context : value) :
  fst (lambda_handler w event context) = []
  \/ exists input_bucket output_bucket object_key puts,
       triggered w event input_bucket output_bucket object_key
       /\ fst (lambda_handler w event context)
          = GetObject input_bucket object_key :: puts
       /\ length puts <= 5
       /\ Forall (is_upload output_bucket) puts
       /\ NoDup (map call_key puts).
Proof.
  destruct (handler_cases w event context)
    as [Hnone|[input_bucket [output_bucket [object_key [Ht Hrun]]]]];
    [left; exact Hnone|].
  right. exists input_bucket, output_bucket, object_key.
  destruct Hrun as [[e ->]|[rs [store ->]]].
  - exists []. split; [exact Ht|]. split; [reflexivity|].
    split; [simpl; lia|]. split; constructor.
  - set (planned := uploads _ _ _ rs store).
    destruct (attempt_prefix w planned [GetObject input_bucket object_key])
      as [n Hn].
    exists (firstn n planned).
    split; [exact Ht|]. split.
    + destruct (attempt w planned _) as [[e|] calls]; simpl in *; exact Hn.
    + split; [rewrite length_firstn; unfold planned, uploads; simpl; lia|].
      split; [apply Forall_prefix, uploads_are_uploads|].
      rewrite map_prefix. apply NoDup_prefix, uploads_have_distinct_keys.
Qed.

(** X23. A 200 answer is never given for a run that stopped half-way:
    either no call was made (the key was not that of a CSV file), or the
    file was read and all five uploads were made and accepted. *)
Theorem ok_means_skipped_or_complete {P : Pandas} {R : Runtime}
    (w : world) (event context : value) :
  statusCode (snd (lambda_handler w event context)) = 200%Z ->
  fst (lambda_handler w event context) = []
  \/ exists input_bucket output_bucket object_key rs store,
       triggered w event input_bucket output_bucket object_key
       /\ lambda_handler w event context
          = (GetObject input_bucket object_key
               :: uploads output_bucket object_key (generate_timestamp (now w))
                    rs store,
             completed object_key (generate_timestamp (now w)) store)
       /\ forall n, n < 5 ->
            put_object w
              (GetObject input_bucket object_key
                 :: firstn n (uploads output_bucket object_key
                                (generate_timestamp (now w)) rs store))
              (nth n (uploads output_bucket object_key
                        (generate_timestamp (now w)) rs store)
                   (GetObject input_bucket object_key))
            = None.
Proof.
  intros Hok.
  destruct (handler_cases w event context)
    as [Hnone|[input_bucket [output_bucket [object_key [Ht Hrun]]]]];
    [left; exact Hnone|].
  right. exists input_bucket, output_bucket, object_key.
  destruct Hrun as [[e Hrun]|[rs [store Hrun]]].
  - rewrite Hrun in Hok. discriminate Hok.
  - exists rs, store. split; [exact Ht|]. rewrite Hrun in *. clear Hrun.
    set (planned := uploads _ _ _ rs store) in *.
    destruct (attempt w planned [GetObject input_bucket object_key])
      as [[e|] calls] eqn:Ha; [discriminate Hok|].
    destruct (attempt_accepted _ _ _ _ (GetObject input_bucket object_key) Ha)
      as [-> Hall].
    split; [reflexivity | exact Hall].
Qed.

Lemma ok_means_skipped_or_complete_witness :
  fst (@lambda_handler plain_pandas test_runtime (test_world None)
         (s3_notification [VStr "uploads/orders.csv"]) VNone) = []
  \/ exists input_bucket output_bucket object_key rs store,
       @triggered test_runtime (test_world None)
         (s3_notification [VStr "uploads/orders.csv"])
         input_bucket output_bucket object_key
       /\ @lambda_handler plain_pandas test_runtime (test_world None)
            (s3_notification [VStr "uploads/orders.csv"]) VNone
          = (GetObject input_bucket object_key
               :: @uploads test_runtime output_bucket object_key "20240102_030405"
                    rs store,
             @completed test_runtime object_key "20240102_030405" store)
       /\ forall n, n < 5 ->
            put_object (test_world None)
              (GetObject input_bucket object_key
                 :: firstn n (@uploads test_runtime output_bucket object_key
                                "20240102_030405" rs store))
              (nth n (@uploads test_runtime output_bucket object_key
                        "20240102_030405" rs store)
                   (GetObject input_bucket object_key))
            = None.
Proof.
  apply (@ok_means_skipped_or_complete plain_pandas test_runtime (test_world None)
           (s3_notification [VStr "uploads/orders.csv"]) VNone).
  vm_compute. reflexivity.
Defined.

(** ** Runs in the test world *)

(** The keys of a run on [uploads/orders.csv]. *)
Example test_run_keys :
  map call_key
    (fst (@lambda_handler plain_pandas test_runtime (test_world None)
            (s3_notification [VStr "uploads/orders.csv"]) VNone))
  = ["uploads/orders.csv";
     "analytics/orders_most_profitable_region_20240102_030405.csv";
     "analytics/orders_most_common_ship_method_20240102_030405.csv";
     "analytics/orders_orders_by_category_20240102_030405.csv";
     "analytics/orders_orders_with_profit_20240102_030405.csv";
     "analytics/orders_processing_summary_20240102_030405.csv"].
Proof. vm_compute. reflexivity. Qed.

(** A file with a header and no rows is processed like any other: the
    five uploads are made for its empty reports. *)
Example test_run_on_an_empty_file :
  let run := @lambda_handler plain_pandas test_runtime (test_world None)
               (s3_notification [VStr "uploads/empty.csv"]) VNone in
  (length (fst run), statusCode (snd run)) = (6, 200%Z).
Proof. vm_compute. reflexivity. Qed.

(** A key that is not a string, an event without records, no input
    bucket: a 500 answer and no call. *)
Example test_run_without_a_file :
  map (fun event =>
         let run := @lambda_handler plain_pandas test_runtime (test_world None)
                      event VNone in
         (fst run, statusCode (snd run)))
      [s3_notification [VInt 7]; s3_notification []; VNone]
  = [([], 500%Z); ([], 500%Z); ([], 500%Z)].
Proof. vm_compute. reflexivity. Qed.
